(** * SalesPage (recipe-based sales): stock availability, cart and checkout

    A shallow embedding of the logic of [src/components/pages/SalesPage.tsx]
    (the recipe-based [SalesPage] component): [getInventoryInIngredientUnit],
    [canSellProduct], [getMaxQuantity], [calculateProductCost], the cart
    handlers and [handleCheckout].

    Modelling choices.
    - Numbers.  The functions are embedded twice.  In the first embedding a
      JavaScript [number] is an exact rational ([Qc], canonical rationals
      with Leibniz equality) and the one [Infinity] the code itself
      introduces (the initial [maxQty]) is modelled by [ExtNum]; it carries
      the properties of the control flow: which branch a handler takes, what
      the cart looks like afterwards, which requests are sent and in which
      order.  In the second embedding ([Binary64]) a [number] is an IEEE 754
      binary64 value with the correctly rounded operations of [SpecFloat],
      and a column [DECIMAL(10, 2)] of the schema holds hundredths; it
      carries the properties that depend on what the arithmetic does: the
      availability formula, the unit conversions, and the quantities that a
      checkout leaves in the table [products].
    - A [Record<string, T>] is a [gmap string T]; [rec[k] || d] is
      [default d (rec !! k)].  [Object.entries] is [map_to_list]: the order
      of the entries differs from the insertion order of JavaScript, but the
      entries have pairwise different keys and each update request writes the
      row of its own key, so the table after the requests is the same in
      any order ([runUpdate_fold]).
    - The React state of the component is the record [PageState]; a handler
      is a function from the state it closes over to the state after its
      setters have run, together with the events it raised (toasts, the
      notification of a recent sale, the request to reload the data).
    - The remote tables [sales] and [products] are the record [Db]; whether a
      request is rejected by the service is an input ([Service]).  The
      transaction id ([crypto.randomUUID()]) is an input as well. *)

From Stdlib Require Import QArith Qcanon Qround Qabs Qpower ZArith Lia Lqa List String.
From Stdlib Require Import SpecFloat.
From stdpp Require Import gmap strings list numbers fin_maps.

Import ListNotations.
Local Open Scope string_scope.
Local Open Scope Qc_scope.

(** ** Numbers *)

(** [Math.floor] *)
Definition Math_floor (x : Qc) : Qc := Q2Qc (inject_Z (Qfloor x)).

(** A [number] that may be [Infinity] (only [maxQty] ever is). *)
Inductive ExtNum : Type :=
  | Infinity
  | Finite (q : Qc).

(** [Math.min(a, b)] with [b] finite. *)
Definition Math_min (a : ExtNum) (b : Qc) : ExtNum :=
  match a with
  | Infinity => Finite b
  | Finite x => Finite (if decide (b < x) then b else x)
  end.

(** ** Data model (the interfaces at the top of the file) *)

(** ['weight' | 'quantity'] *)
Inductive UnitType : Type := unit_weight | unit_quantity.

Global Instance UnitType_eq_dec : EqDecision UnitType.
Proof. solve_decision. Defined.

Module FinishedProduct.
Record t : Type := mk {
  id : string;
  name : string;
  image_url : option string;
  selling_price : Qc;
  created_at : string;
  updated_at : string
}.
End FinishedProduct.

Module ProductIngredient.
Record t : Type := mk {
  id : string;
  product_id : string;
  item_id : string;
  qty : Qc
}.
End ProductIngredient.

Module InventoryItem.
Record t : Type := mk {
  id : string;
  name : string;
  qty : Qc;
  cost : Qc;
  unit_type : UnitType
}.
End InventoryItem.

Module CartItem.
Record t : Type := mk {
  product : FinishedProduct.t;
  quantity : Qc;
  ingredients : list ProductIngredient.t
}.
End CartItem.

(** ['dine_in' | 'takeout'] *)
Inductive DineInTakeout : Type := dine_in | takeout.

(** A row sent to the table [sales]. *)
Module Sale.
Record t : Type := mk {
  transaction_id : string;
  product_id : string;
  product_name : string;
  qty : Qc;
  unit_type : UnitType;
  cost : Qc;
  selling_price : Qc;
  total : Qc;
  payment_method : string;
  customer_type : string;
  dine_in_takeout : option DineInTakeout
}.
End Sale.

(** The [useState] cells of [SalesPage] that the handlers read or write. *)
Record PageState : Type := mkPage {
  inventoryItems : list InventoryItem.t;
  productIngredients : gmap string (list ProductIngredient.t);
  dineInEnabled : bool;
  cart : list CartItem.t;
  selectedPaymentMethod : string;
  selectedCustomerType : string;
  selectedDineInTakeout : option DineInTakeout;
  isCheckingOut : bool;
  selectedProduct : option FinishedProduct.t;
  quantity : Qc
}.

Definition cartId (c : CartItem.t) : string :=
  FinishedProduct.id (CartItem.product c).

(** ** Stock availability *)

(** [inventoryItems.find(i => i.id === itemId)] *)
Definition findItem (items : list InventoryItem.t) (itemId : string)
  : option InventoryItem.t :=
  List.find (fun i => String.eqb (InventoryItem.id i) itemId) items.

(** [productIngredients[productId] || []] *)
Definition ingredientsOf (st : PageState) (productId : string)
  : list ProductIngredient.t :=
  default [] (productIngredients st !! productId).

Definition getInventoryInIngredientUnit (item : InventoryItem.t) : Qc :=
  if decide (InventoryItem.unit_type item = unit_weight)
  then InventoryItem.qty item * Q2Qc 1000
  else InventoryItem.qty item.

(** The [reduce] callback shared by [cartQty] and [cartReserved]. *)
Definition reserveStep (st : PageState) (itemId : string)
    (total : Qc) (cartItem : CartItem.t) : Qc :=
  let cartIngredients := ingredientsOf st (cartId cartItem) in
  let matchingIng :=
    List.find (fun ci => String.eqb (ProductIngredient.item_id ci) itemId)
              cartIngredients in
  total + match matchingIng with
          | Some m => ProductIngredient.qty m * CartItem.quantity cartItem
          | None => 0
          end.

(** [cart.filter(c => c.product.id !== productId).reduce(..., 0)] *)
Definition cartReserved (st : PageState) (productId itemId : string) : Qc :=
  fold_left (reserveStep st itemId)
    (List.filter (fun c => negb (String.eqb (cartId c) productId)) (cart st))
    0.

(** The [for] loop of [canSellProduct]. *)
Fixpoint canSellLoop (st : PageState) (productId : string) (qty : Qc)
    (ingredients : list ProductIngredient.t) : bool :=
  match ingredients with
  | [] => true
  | ing :: rest =>
    match findItem (inventoryItems st) (ProductIngredient.item_id ing) with
    | None => false
    | Some item =>
      let inventoryStock := getInventoryInIngredientUnit item in
      let cartQty := cartReserved st productId (ProductIngredient.item_id ing) in
      let requiredQty := ProductIngredient.qty ing * qty + cartQty in
      if decide (inventoryStock < requiredQty) then false
      else canSellLoop st productId qty rest
    end
  end.

(** [qty] is the optional parameter of the source (default 1). *)
Definition canSellProduct (st : PageState) (productId : string) (qty : Qc)
  : bool :=
  let ingredients := ingredientsOf st productId in
  match ingredients with
  | [] => false
  | _ => canSellLoop st productId qty ingredients
  end.

(** The [for] loop of [getMaxQuantity]; [break] ends the recursion. *)
Fixpoint maxQtyLoop (st : PageState) (productId : string)
    (ingredients : list ProductIngredient.t) (maxQty : ExtNum) : ExtNum :=
  match ingredients with
  | [] => maxQty
  | ing :: rest =>
    match findItem (inventoryItems st) (ProductIngredient.item_id ing) with
    | None => Finite 0
    | Some item =>
      if decide (ProductIngredient.qty ing = 0) then Finite 0
      else
        let inventoryStock := getInventoryInIngredientUnit item in
        let reserved := cartReserved st productId (ProductIngredient.item_id ing) in
        let availableStock := inventoryStock - reserved in
        let possibleQty := Math_floor (availableStock / ProductIngredient.qty ing) in
        maxQtyLoop st productId rest (Math_min maxQty possibleQty)
    end
  end.

Definition getMaxQuantity (st : PageState) (productId : string) : Qc :=
  let ingredients := ingredientsOf st productId in
  match ingredients with
  | [] => 0
  | _ =>
    match maxQtyLoop st productId ingredients Infinity with
    | Infinity => 0
    | Finite m => m
    end
  end.

(** [calculateProductCost] *)
Definition calculateProductCost (st : PageState) (productId : string) : Qc :=
  fold_left
    (fun total ing =>
       total + match findItem (inventoryItems st) (ProductIngredient.item_id ing) with
               | Some item => InventoryItem.cost item * ProductIngredient.qty ing
               | None => 0
               end)
    (ingredientsOf st productId) 0.

(** ** Cart handlers *)

(** What a handler does besides setting state. *)
Inductive Event : Type :=
  | toast_error (msg : string)
  | toast_success (msg : string)
  | toast_sale_completed (totalAmount : Qc)
  | addRecentSale (sale : Sale.t)
  | fetchData.

Definition setCart (c : list CartItem.t) (st : PageState) : PageState :=
  mkPage (inventoryItems st) (productIngredients st) (dineInEnabled st) c
         (selectedPaymentMethod st) (selectedCustomerType st)
         (selectedDineInTakeout st) (isCheckingOut st)
         (selectedProduct st) (quantity st).

Definition setIsCheckingOut (b : bool) (st : PageState) : PageState :=
  mkPage (inventoryItems st) (productIngredients st) (dineInEnabled st) (cart st)
         (selectedPaymentMethod st) (selectedCustomerType st)
         (selectedDineInTakeout st) b
         (selectedProduct st) (quantity st).

(** [setQuantity(q)], the quantity typed in the product modal. *)
Definition setQuantity (q : Qc) (st : PageState) : PageState :=
  mkPage (inventoryItems st) (productIngredients st) (dineInEnabled st) (cart st)
         (selectedPaymentMethod st) (selectedCustomerType st)
         (selectedDineInTakeout st) (isCheckingOut st)
         (selectedProduct st) q.

Definition closeProductModal (st : PageState) : PageState :=
  mkPage (inventoryItems st) (productIngredients st) (dineInEnabled st) (cart st)
         (selectedPaymentMethod st) (selectedCustomerType st)
         (selectedDineInTakeout st) (isCheckingOut st)
         None 1.

(** [{ ...item, quantity }] *)
Definition withQuantity (q : Qc) (item : CartItem.t) : CartItem.t :=
  CartItem.mk (CartItem.product item) q (CartItem.ingredients item).

Definition addToCart (st : PageState) : PageState * list Event :=
  match selectedProduct st with
  | None => (st, [])
  | Some p =>
    if decide (quantity st ≤ 0) then
      (st, [toast_error "Please enter a valid quantity"])
    else
      let maxQty := getMaxQuantity st (FinishedProduct.id p) in
      if decide (maxQty < quantity st) then
        (st, [toast_error "Not enough ingredients in stock"])
      else
        let ingredients := ingredientsOf st (FinishedProduct.id p) in
        match ingredients with
        | [] => (st, [toast_error "This product has no ingredients configured"])
        | _ =>
          match list_find (fun item => cartId item = FinishedProduct.id p) (cart st) with
          | Some (existingIndex, _) =>
            let updatedCart := alter (withQuantity (quantity st)) existingIndex (cart st) in
            (closeProductModal (setCart updatedCart st), [toast_success "Cart updated"])
          | None =>
            (closeProductModal
               (setCart (cart st ++ [CartItem.mk p (quantity st) ingredients])%list st),
             [toast_success "Added to cart"])
          end
        end
  end.

Definition removeFromCart (st : PageState) (productId : string)
  : PageState * list Event :=
  (setCart (List.filter (fun item => negb (String.eqb (cartId item) productId)) (cart st)) st,
   [toast_success "Removed from cart"]).

Definition updateCartQuantity (st : PageState) (productId : string) (newQuantity : Qc)
  : PageState * list Event :=
  if decide (newQuantity ≤ 0) then removeFromCart st productId
  else
    let maxQty := getMaxQuantity st productId in
    if decide (maxQty < newQuantity) then
      (st, [toast_error "Not enough ingredients in stock"])
    else
      (setCart (List.map (fun item => if String.eqb (cartId item) productId
                                      then withQuantity newQuantity item
                                      else item) (cart st)) st,
       []).

Definition clearCart (st : PageState) : PageState :=
  mkPage (inventoryItems st) (productIngredients st) (dineInEnabled st) []
         "" "" None (isCheckingOut st)
         (selectedProduct st) (quantity st).

(** ** Checkout *)

(** The two remote tables the checkout writes. *)
Record Db : Type := mkDb {
  sales : list Sale.t;
  products : list InventoryItem.t
}.

(** Which requests the remote service rejects. *)
Record Service : Type := mkService {
  insertFails : bool;
  updateFails : string -> bool
}.

(** [ingredientDeductions[ing.item_id] = (ingredientDeductions[ing.item_id] || 0) + deduction] *)
Definition addDeduction (item : CartItem.t)
    (acc : gmap string Qc) (ing : ProductIngredient.t) : gmap string Qc :=
  let deduction := ProductIngredient.qty ing * CartItem.quantity item in
  <[ProductIngredient.item_id ing :=
      default 0 (acc !! ProductIngredient.item_id ing) + deduction]> acc.

Definition ingredientDeductions (st : PageState) : gmap string Qc :=
  fold_left
    (fun acc item => fold_left (addDeduction item) (ingredientsOf st (cartId item)) acc)
    (cart st) ∅.

Definition saleRecords (st : PageState) (transactionId : string) : list Sale.t :=
  List.map
    (fun item =>
       let cost := calculateProductCost st (cartId item) in
       Sale.mk transactionId
               (cartId item)
               (FinishedProduct.name (CartItem.product item))
               (CartItem.quantity item)
               unit_quantity
               cost
               (FinishedProduct.selling_price (CartItem.product item))
               (CartItem.quantity item * FinishedProduct.selling_price (CartItem.product item))
               (selectedPaymentMethod st)
               (selectedCustomerType st)
               (if dineInEnabled st then selectedDineInTakeout st else None))
    (cart st).

(** [item.unit_type === 'weight' ? deduction / 1000 : deduction] *)
Definition deductionInStorageUnit (item : InventoryItem.t) (deduction : Qc) : Qc :=
  if decide (InventoryItem.unit_type item = unit_weight)
  then deduction / Q2Qc 1000
  else deduction.

(** The requests [.update({ qty }).eq('id', itemId)] built from the
    deductions; entries whose item is not in the snapshot are dropped
    ([return null] and [.filter(Boolean)]). *)
Definition inventoryUpdates (st : PageState) : list (string * Qc) :=
  omap (fun '(itemId, deduction) =>
          match findItem (inventoryItems st) itemId with
          | None => None
          | Some item =>
            Some (itemId, InventoryItem.qty item - deductionInStorageUnit item deduction)
          end)
       (map_to_list (ingredientDeductions st)).

Definition setQty (q : Qc) (row : InventoryItem.t) : InventoryItem.t :=
  InventoryItem.mk (InventoryItem.id row) (InventoryItem.name row) q
                   (InventoryItem.cost row) (InventoryItem.unit_type row).

(** One update request against the table [products]. *)
Definition runUpdate (svc : Service) (rows : list InventoryItem.t)
    (req : string * Qc) : list InventoryItem.t :=
  if updateFails svc req.1 then rows
  else List.map (fun row => if String.eqb (InventoryItem.id row) req.1
                            then setQty req.2 row else row) rows.

Definition cartTotal (c : list CartItem.t) : Qc :=
  fold_left
    (fun sum item =>
       sum + CartItem.quantity item * FinishedProduct.selling_price (CartItem.product item))
    c 0.

(** The checks of [handleCheckout] that return before anything is sent:
    the message of the error toast, if one of them fires. *)
Definition checkoutValidation (st : PageState) : option string :=
  match cart st with
  | [] => Some "Cart is empty"
  | _ =>
    if decide (selectedPaymentMethod st = "") then
      Some "Please select a payment method"
    else if decide (selectedCustomerType st = "") then
      Some "Please select a customer type"
    else if dineInEnabled st && bool_decide (selectedDineInTakeout st = None) then
      Some "Please select Dine In or Takeout"
    else
      match List.find (fun item => negb (canSellProduct st (cartId item) (CartItem.quantity item)))
                      (cart st) with
      | Some item =>
        Some ("Not enough ingredients for " ++ FinishedProduct.name (CartItem.product item))
      | None => None
      end
  end.

(** The [try] / [catch] / [finally] block of [handleCheckout]. *)
Definition checkoutCommit (svc : Service) (transactionId : string)
    (st : PageState) (db : Db) : PageState * Db * list Event :=
  let records := saleRecords st transactionId in
  if insertFails svc then
    (setIsCheckingOut false st, db, [toast_error "Failed to process sale"])
  else
    let db1 := mkDb (sales db ++ records)%list (products db) in
    let requests := inventoryUpdates st in
    let db2 := mkDb (sales db1) (fold_left (runUpdate svc) requests (products db1)) in
    if existsb (fun req => updateFails svc req.1) requests then
      (setIsCheckingOut false st, db2, [toast_error "Failed to process sale"])
    else
      (setIsCheckingOut false (clearCart st), db2,
       (match records with
        | r :: _ => [addRecentSale r]
        | [] => []
        end ++
        [toast_sale_completed (cartTotal (cart st)); fetchData])%list).

Definition handleCheckout (svc : Service) (transactionId : string)
    (st : PageState) (db : Db) : PageState * Db * list Event :=
  match checkoutValidation st with
  | Some msg => (st, db, [toast_error msg])
  | None => checkoutCommit svc transactionId st db
  end.

(** ** The rest of the recipe-based component *)

(** [Math.max(a, b)] and [Math.min(a, b)] on finite numbers. *)
Definition numMax (a b : Qc) : Qc := if decide (a < b) then b else a.
Definition numMin (a b : Qc) : Qc := if decide (b < a) then b else a.

(** The callback of [ingredientsRes.data.reduce] in [fetchData]:
    [if (!acc[ing.product_id]) acc[ing.product_id] = []] and then
    [acc[ing.product_id].push(ing)]. *)
Definition groupStep (acc : gmap string (list ProductIngredient.t))
    (ing : ProductIngredient.t) : gmap string (list ProductIngredient.t) :=
  let k := ProductIngredient.product_id ing in
  let acc1 := match acc !! k with
              | Some _ => acc
              | None => <[k := []]> acc
              end in
  alter (fun l => (l ++ [ing])%list) k acc1.

(** [grouped], from the rows of the table [product_ingredients]. *)
Definition groupIngredients (rows : list ProductIngredient.t)
  : gmap string (list ProductIngredient.t) :=
  fold_left groupStep rows ∅.

Definition setProductIngredients (g : gmap string (list ProductIngredient.t))
    (st : PageState) : PageState :=
  mkPage (inventoryItems st) g (dineInEnabled st) (cart st)
         (selectedPaymentMethod st) (selectedCustomerType st)
         (selectedDineInTakeout st) (isCheckingOut st)
         (selectedProduct st) (quantity st).

Definition setSelectedProduct (p : option FinishedProduct.t) (st : PageState)
  : PageState :=
  mkPage (inventoryItems st) (productIngredients st) (dineInEnabled st) (cart st)
         (selectedPaymentMethod st) (selectedCustomerType st)
         (selectedDineInTakeout st) (isCheckingOut st)
         p (quantity st).

Definition handleProductClick (st : PageState) (product : FinishedProduct.t)
  : PageState :=
  match List.find (fun item => String.eqb (cartId item) (FinishedProduct.id product))
                  (cart st) with
  | Some existingItem =>
    setQuantity (CartItem.quantity existingItem) (setSelectedProduct (Some product) st)
  | None =>
    setQuantity 1 (setSelectedProduct (Some product) st)
  end.

(** [availableProducts], from the list [products] of the page. *)
Definition availableProducts (st : PageState) (products : list FinishedProduct.t)
  : list FinishedProduct.t :=
  List.filter (fun p => match ingredientsOf st (FinishedProduct.id p) with
                        | [] => false
                        | _ => true
                        end) products.

(** A card of the product grid: [isAvailable = maxQty > 0] and
    [onClick={() => isAvailable && handleProductClick(product)}]. *)
Definition isAvailable (st : PageState) (product : FinishedProduct.t) : bool :=
  bool_decide (0 < getMaxQuantity st (FinishedProduct.id product)).

Definition productCardClick (st : PageState) (product : FinishedProduct.t)
  : PageState :=
  if isAvailable st product then handleProductClick st product else st.

(** The modal, shown while [selectedProduct] is set: the buttons [-] and [+]
    around the quantity, and [disabled] of the button "Add to Cart". *)
Definition decrementQuantity (st : PageState) : PageState :=
  setQuantity (numMax 1 (quantity st - 1)) st.

Definition incrementQuantity (st : PageState) : PageState :=
  match selectedProduct st with
  | Some p => setQuantity (numMin (getMaxQuantity st (FinishedProduct.id p)) (quantity st + 1)) st
  | None => st
  end.

(** [disabled] of "Add to Cart"; without a modal there is no button to press. *)
Definition addToCartDisabled (st : PageState) : bool :=
  match selectedProduct st with
  | Some p =>
    bool_decide (quantity st ≤ 0)
    || bool_decide (getMaxQuantity st (FinishedProduct.id p) < quantity st)
  | None => true
  end.

(** * The simple-product [SalesPage] (second component of the file)

    The product is the sellable unit; the stock of a product is decremented
    by the quantity sold. *)

Module SimpleSales.

(** Modelled from the spec: the type [Product] of ['@/types/database'] is not
    among the sources.  The fields are those the component reads, typed as in
    the data model (inventory item: id, name, unit type, quantity on hand,
    cost) with the selling price of the table [products]. *)
Module Product.
Record t : Type := mk {
  id : string;
  name : string;
  unit_type : UnitType;
  qty : Qc;
  cost : Qc;
  selling_price : Qc
}.
End Product.

Module CartItem.
Record t : Type := mk {
  product : Product.t;
  quantity : Qc
}.
End CartItem.

Record PageState : Type := mkPage {
  dineInEnabled : bool;
  cart : list CartItem.t;
  selectedPaymentMethod : string;
  selectedCustomerType : string;
  selectedDineInTakeout : option DineInTakeout;
  isCheckingOut : bool;
  selectedProduct : option Product.t;
  quantity : Qc
}.

Definition cartId (c : CartItem.t) : string := Product.id (CartItem.product c).

Definition setCart (c : list CartItem.t) (st : PageState) : PageState :=
  mkPage (dineInEnabled st) c (selectedPaymentMethod st) (selectedCustomerType st)
         (selectedDineInTakeout st) (isCheckingOut st) (selectedProduct st) (quantity st).

Definition openModal (p : Product.t) (q : Qc) (st : PageState) : PageState :=
  mkPage (dineInEnabled st) (cart st) (selectedPaymentMethod st) (selectedCustomerType st)
         (selectedDineInTakeout st) (isCheckingOut st) (Some p) q.

Definition handleProductClick (st : PageState) (product : Product.t) : PageState :=
  match List.find (fun item => String.eqb (cartId item) (Product.id product)) (cart st) with
  | Some existingItem => openModal product (CartItem.quantity existingItem) st
  | None =>
    openModal product
              (if decide (Product.unit_type product = unit_weight) then Q2Qc (1 # 2) else 1)
              st
  end.

Definition closeProductModal (st : PageState) : PageState :=
  mkPage (dineInEnabled st) (cart st) (selectedPaymentMethod st) (selectedCustomerType st)
         (selectedDineInTakeout st) (isCheckingOut st) None 1.

Definition withQuantity (q : Qc) (item : CartItem.t) : CartItem.t :=
  CartItem.mk (CartItem.product item) q.

Definition addToCart (st : PageState) : PageState * list Event :=
  match selectedProduct st with
  | None => (st, [])
  | Some p =>
    if decide (quantity st ≤ 0) then
      (st, [toast_error "Please enter a valid quantity"])
    else if decide (Product.qty p < quantity st) then
      (st, [toast_error "Not enough stock available"])
    else
      match list_find (fun item => cartId item = Product.id p) (cart st) with
      | Some (existingIndex, _) =>
        let updatedCart := alter (withQuantity (quantity st)) existingIndex (cart st) in
        (closeProductModal (setCart updatedCart st), [toast_success "Cart updated"])
      | None =>
        (closeProductModal (setCart (cart st ++ [CartItem.mk p (quantity st)])%list st),
         [toast_success "Added to cart"])
      end
  end.

Definition removeFromCart (st : PageState) (productId : string)
  : PageState * list Event :=
  (setCart (List.filter (fun item => negb (String.eqb (cartId item) productId)) (cart st)) st,
   [toast_success "Removed from cart"]).

Definition updateCartQuantity (st : PageState) (productId : string) (newQuantity : Qc)
  : PageState * list Event :=
  if decide (newQuantity ≤ 0) then removeFromCart st productId
  else
    let product :=
      CartItem.product
        <$> List.find (fun item => String.eqb (cartId item) productId) (cart st) in
    match product with
    | Some p =>
      if decide (Product.qty p < newQuantity) then
        (st, [toast_error "Not enough stock available"])
      else
        (setCart (List.map (fun item => if String.eqb (cartId item) productId
                                        then withQuantity newQuantity item
                                        else item) (cart st)) st,
         [])
    | None =>
      (setCart (List.map (fun item => if String.eqb (cartId item) productId
                                      then withQuantity newQuantity item
                                      else item) (cart st)) st,
       [])
    end.

Definition clearCart (st : PageState) : PageState :=
  mkPage (dineInEnabled st) [] "" "" None (isCheckingOut st)
         (selectedProduct st) (quantity st).

End SimpleSales.

(** * The products page: recipe form

    [calculateTotalCost], the validation of [handleSubmit], the rows it sends
    to [product_ingredients] and the form that [openEditModal] builds from
    stored rows. *)

Module ProductsPage.

(** An entry of the form state [ingredients]. *)
Module FormIngredient.
Record t : Type := mk {
  item_id : string;
  qty : Qc
}.
End FormIngredient.

Definition calculateTotalCost (inventoryItems : list InventoryItem.t)
    (ingredients : list FormIngredient.t) : Qc :=
  fold_left
    (fun total ing =>
       match findItem inventoryItems (FormIngredient.item_id ing) with
       | None => total
       | Some item => total + InventoryItem.cost item * FormIngredient.qty ing
       end)
    ingredients 0.

Section Submit.
(** [String.prototype.trim] *)
Variable trim : string -> string.

(** The checks of [handleSubmit] that return before anything is sent. *)
Definition submitValidation (name : string) (ingredients : list FormIngredient.t)
  : option string :=
  if decide (trim name = "") then Some "Please enter a product name"
  else
    match ingredients with
    | [] => Some "Please add at least one ingredient"
    | _ =>
      match List.filter (fun ing => String.eqb (FormIngredient.item_id ing) ""
                                    || bool_decide (FormIngredient.qty ing ≤ 0))
                        ingredients with
      | [] => None
      | _ => Some "Please complete all ingredient selections"
      end
    end.
End Submit.

(** [ingredientRecords]: product id, item id and quantity of each row sent;
    the table gives each row its id. *)
Definition ingredientRecords (productId : string) (ingredients : list FormIngredient.t)
  : list (string * string * Qc) :=
  List.map (fun ing => (productId, FormIngredient.item_id ing, FormIngredient.qty ing))
           ingredients.

(** [productIngredients.map(pi => ({ item_id: pi.item_id, qty: pi.qty }))] in
    [openEditModal]. *)
Definition formOfRows (rows : list ProductIngredient.t) : list FormIngredient.t :=
  List.map (fun pi => FormIngredient.mk (ProductIngredient.item_id pi)
                                        (ProductIngredient.qty pi))
           rows.

End ProductsPage.


(** * Specification-side definitions (spec section 4.2) *)

Definition Qcsum (l : list Qc) : Qc := foldr Qcplus 0 l.

(** "stored quantity x1000 for weight items, unchanged for quantity items" *)
Definition stockInRecipeUnit (item : InventoryItem.t) : Qc :=
  match InventoryItem.unit_type item with
  | unit_weight => InventoryItem.qty item * Q2Qc 1000
  | unit_quantity => InventoryItem.qty item
  end.

(** "that product's recipe quantity for this same ingredient": the quantity
    of the recipe line of the product that names the ingredient (the first
    one, should the recipe name the ingredient more than once). *)
Definition recipeQuantityFor (st : PageState) (productId itemId : string) : Qc :=
  match List.find (fun ci => String.eqb (ProductIngredient.item_id ci) itemId)
                  (ingredientsOf st productId) with
  | Some m => ProductIngredient.qty m
  | None => 0
  end.

(** "sum over all cart lines for other finished products of (that product's
    recipe quantity for this same ingredient x that cart line's quantity)" *)
Definition reservedByOtherCartLines (st : PageState) (productId itemId : string) : Qc :=
  Qcsum (List.map (fun c => recipeQuantityFor st (cartId c) itemId * CartItem.quantity c)
                  (List.filter (fun c => bool_decide (cartId c ≠ productId)) (cart st))).

(** "possibleUnitsFromThisIngredient": undefined when the ingredient is
    missing from the snapshot or quantityPerUnit is 0. *)
Definition possibleUnitsFromThisIngredient (st : PageState) (productId : string)
    (ing : ProductIngredient.t) : option Qc :=
  match findItem (inventoryItems st) (ProductIngredient.item_id ing) with
  | None => None
  | Some item =>
    if decide (ProductIngredient.qty ing = 0) then None
    else Some (Math_floor ((stockInRecipeUnit item
                            - reservedByOtherCartLines st productId (ProductIngredient.item_id ing))
                           / ProductIngredient.qty ing))
  end.

(** [q] is an integer. *)
Definition is_integer (q : Qc) : Prop := Qden q = 1%positive.

(** Order on [ExtNum]: [Infinity] is the top element. *)
Definition ExtLe (a b : ExtNum) : Prop :=
  match a, b with
  | _, Infinity => True
  | Infinity, Finite _ => False
  | Finite x, Finite y => x ≤ y
  end.


(** The condition under which no recipe line can go below zero. *)
Definition stockCoversReservations (st : PageState) (productId : string) : Prop :=
  ∀ ing item,
    ing ∈ ingredientsOf st productId →
    findItem (inventoryItems st) (ProductIngredient.item_id ing) = Some item →
    0 ≤ ProductIngredient.qty ing
    ∧ reservedByOtherCartLines st productId (ProductIngredient.item_id ing)
      ≤ stockInRecipeUnit item.

(** ** Checkout (spec section 4.5) *)

(** "Preconditions, checked client-side before any persistence". *)
Definition checkoutPreconditions (st : PageState) : Prop :=
  cart st ≠ []
  ∧ selectedPaymentMethod st ≠ ""
  ∧ selectedCustomerType st ≠ ""
  ∧ (dineInEnabled st = true → selectedDineInTakeout st ≠ None)
  ∧ ∀ item, item ∈ cart st →
      canSellProduct st (cartId item) (CartItem.quantity item) = true.

(** The outcome the user sees. *)
Definition checkoutSucceeded (r : PageState * Db * list Event) : Prop :=
  ∃ total, toast_sale_completed total ∈ r.2.

Definition checkoutFailed (r : PageState * Db * list Event) : Prop :=
  r.2 = [toast_error "Failed to process sale"].

(** A cart line's requirement of an ingredient: its recipe quantity for the
    ingredient (all recipe lines naming it) times the line's quantity. *)
Definition lineRequirement (st : PageState) (itemId : string) (item : CartItem.t) : Qc :=
  Qcsum (List.map (fun ing => ProductIngredient.qty ing * CartItem.quantity item)
                  (List.filter (fun ing => String.eqb (ProductIngredient.item_id ing) itemId)
                               (ingredientsOf st (cartId item)))).

(** "aggregate total ingredient deduction per raw ingredient across all cart
    lines" *)
Definition totalDeduction (st : PageState) (itemId : string) : Qc :=
  Qcsum (List.map (lineRequirement st itemId) (cart st)).

(** Some cart line's recipe names the ingredient. *)
Definition ingredientUsed (st : PageState) (itemId : string) : bool :=
  existsb (fun item =>
             existsb (fun ing => String.eqb (ProductIngredient.item_id ing) itemId)
                     (ingredientsOf st (cartId item)))
          (cart st).

(** "newQty = oldQty - aggregatedDeductionConvertedToStorageUnit per affected
    ingredient", [oldQty] being the quantity in the page's snapshot. *)
Definition rowAfterCheckout (st : PageState) (row : InventoryItem.t) : InventoryItem.t :=
  match findItem (inventoryItems st) (InventoryItem.id row) with
  | Some item =>
    if ingredientUsed st (InventoryItem.id row) then
      setQty (InventoryItem.qty item
              - match InventoryItem.unit_type item with
                | unit_weight => totalDeduction st (InventoryItem.id row) / Q2Qc 1000
                | unit_quantity => totalDeduction st (InventoryItem.id row)
                end) row
    else row
  | None => row
  end.

(** ** Cost roll-up (spec section 4.3) *)

(** "ingredient.costPerBaseUnit x quantityPerUnit"; undefined when the
    ingredient is not in the snapshot. *)
Definition ingredientCost (st : PageState) (ing : ProductIngredient.t) : option Qc :=
  item ← findItem (inventoryItems st) (ProductIngredient.item_id ing);
  Some (InventoryItem.cost item * ProductIngredient.qty ing).

Definition productCost (st : PageState) (productId : string) : option Qc :=
  Qcsum <$> mapM (ingredientCost st) (ingredientsOf st productId).

(** The table [products] after a batch of accepted update requests with
    pairwise different ids. *)
Definition applyRequests (reqs : gmap string Qc) (row : InventoryItem.t)
  : InventoryItem.t :=
  match reqs !! InventoryItem.id row with
  | Some q => setQty q row
  | None => row
  end.

(** A recipe line over which [canSellProduct] stumbles: its ingredient is
    missing, or the stock is strictly below what is required. *)
Definition lineFails (st : PageState) (productId : string) (qty : Qc)
    (ing : ProductIngredient.t) : Prop :=
  match findItem (inventoryItems st) (ProductIngredient.item_id ing) with
  | None => True
  | Some item =>
    stockInRecipeUnit item
    < ProductIngredient.qty ing * qty
      + reservedByOtherCartLines st productId (ProductIngredient.item_id ing)
  end.

(** ** Cart (spec section 4.4) *)

(** "validates quantity > 0 and <= current computed max" *)
Definition addToCartAccepts (st : PageState) (p : FinishedProduct.t) : Prop :=
  selectedProduct st = Some p
  ∧ 0 < quantity st
  ∧ quantity st ≤ getMaxQuantity st (FinishedProduct.id p).

(** "no duplicate lines per product" *)
Definition uniqueLines (c : list CartItem.t) : Prop := NoDup (cartId <$> c).

(** ** Conditions on the recipes *)

(** Every recipe line of the product has a positive quantity per unit (what
    the form of the products page demands of a recipe). *)
Definition positiveRecipe (st : PageState) (productId : string) : Prop :=
  ∀ ing, ing ∈ ingredientsOf st productId → 0 < ProductIngredient.qty ing.

(** No recipe names an ingredient twice. *)
Definition recipesNameOnce (st : PageState) : Prop :=
  ∀ productId, NoDup (ProductIngredient.item_id <$> ingredientsOf st productId).

(** What one cart line reserves of an ingredient, and what the whole cart
    reserves. *)
Definition lineReservation (st : PageState) (itemId : string) (c : CartItem.t) : Qc :=
  recipeQuantityFor st (cartId c) itemId * CartItem.quantity c.

Definition totalReserved (st : PageState) (itemId : string) : Qc :=
  Qcsum (List.map (lineReservation st itemId) (cart st)).

(** No row of the table is below zero. *)
Definition noNegativeStock (rows : list InventoryItem.t) : Prop :=
  ∀ row, row ∈ rows → 0 ≤ InventoryItem.qty row.

(** ** The simple-product component *)

Definition simpleUniqueLines (c : list SimpleSales.CartItem.t) : Prop :=
  NoDup (SimpleSales.cartId <$> c).

(** Every line has a positive quantity within the stock of its product, as
    the line remembers it. *)
Definition simpleWithinStock (c : list SimpleSales.CartItem.t) : Prop :=
  ∀ x, x ∈ c →
    0 < SimpleSales.CartItem.quantity x
    ∧ SimpleSales.CartItem.quantity x
      ≤ SimpleSales.Product.qty (SimpleSales.CartItem.product x).

Definition simpleInvariant (c : list SimpleSales.CartItem.t) : Prop :=
  simpleUniqueLines c ∧ simpleWithinStock c.

(** The product in the modal carries the stock that the cart line of the
    same product remembers (both come from the same load of the table). *)
Definition sameSnapshot (st : SimpleSales.PageState) : Prop :=
  ∀ p x, SimpleSales.selectedProduct st = Some p → x ∈ SimpleSales.cart st →
    SimpleSales.cartId x = SimpleSales.Product.id p →
    SimpleSales.Product.qty (SimpleSales.CartItem.product x) = SimpleSales.Product.qty p.

(** * Concrete states used in the examples *)

(** Flour: 1 kg on hand; product A takes 200 g, product B 300 g. *)
Definition flour : InventoryItem.t :=
  InventoryItem.mk "flour" "Flour" 1 (Q2Qc (1 # 100)) unit_weight.
Definition productA : FinishedProduct.t :=
  FinishedProduct.mk "A" "Product A" None (Q2Qc 50) "" "".
Definition productB : FinishedProduct.t :=
  FinishedProduct.mk "B" "Product B" None (Q2Qc 70) "" "".
Definition recipeA : list ProductIngredient.t :=
  [ProductIngredient.mk "ra" "A" "flour" (Q2Qc 200)].
Definition recipeB : list ProductIngredient.t :=
  [ProductIngredient.mk "rb" "B" "flour" (Q2Qc 300)].
Definition recipes : gmap string (list ProductIngredient.t) :=
  <["A" := recipeA]> (<["B" := recipeB]> ∅).

Definition pageWith (items : list InventoryItem.t)
    (rec : gmap string (list ProductIngredient.t))
    (c : list CartItem.t) (sel : option FinishedProduct.t) (q : Qc) : PageState :=
  mkPage items rec false c "Cash" "Walk-in" None false sel q.

(** Cart {A: 2, B: 1}. *)
Definition flourCart : list CartItem.t :=
  [CartItem.mk productA (Q2Qc 2) recipeA; CartItem.mk productB 1 recipeB].
Definition flourPage : PageState := pageWith [flour] recipes flourCart None 1.
Definition flourDb : Db := mkDb [] [flour].
Definition serviceOk : Service := mkService false (fun _ => false).

(** The row of flour after concurrent checkouts drove it below zero. *)
Definition flourOverdrawn : InventoryItem.t :=
  InventoryItem.mk "flour" "Flour" (- 1) (Q2Qc (1 # 100)) unit_weight.
Definition overdrawnPage : PageState :=
  pageWith [flourOverdrawn] recipes [] None 1.

(** A service that accepts the insert and rejects every update. *)
Definition serviceUpdatesDown : Service := mkService false (fun _ => true).

(** The sale record of the cart line {A: 2} of [flourPage]. *)
Definition flourSaleA : Sale.t :=
  Sale.mk "tx" "A" "Product A" (Q2Qc 2) unit_quantity
          (calculateProductCost flourPage "A") (Q2Qc 50) (Q2Qc 2 * Q2Qc 50)
          "Cash" "Walk-in" None.

(** 100 g of flour left: product A (200 g) is sold out; the modal shows A
    with the quantity 0. *)
Definition flourLow : InventoryItem.t :=
  InventoryItem.mk "flour" "Flour" (Q2Qc (1 # 10)) (Q2Qc (1 # 100)) unit_weight.
Definition soldOutPage : PageState :=
  pageWith [flourLow] recipes [] (Some productA) 0.

(** [flourPage] with product A selected in the modal. *)
Definition flourPageA : PageState :=
  pageWith [flour] recipes flourCart (Some productA) 1.

(** ** More concrete states *)

(** The rows of [product_ingredients] behind [recipes]. *)
Definition recipeRows : list ProductIngredient.t :=
  [ProductIngredient.mk "ra" "A" "flour" (Q2Qc 200);
   ProductIngredient.mk "rb" "B" "flour" (Q2Qc 300)].
Definition productC : FinishedProduct.t :=
  FinishedProduct.mk "C" "Product C" None (Q2Qc 20) "" "".

(** Product D, whose recipe names flour twice (300 g and 300 g), three times
    in the cart. *)
Definition productD : FinishedProduct.t :=
  FinishedProduct.mk "D" "Product D" None (Q2Qc 90) "" "".
Definition recipeD : list ProductIngredient.t :=
  [ProductIngredient.mk "rd1" "D" "flour" (Q2Qc 300);
   ProductIngredient.mk "rd2" "D" "flour" (Q2Qc 300)].
Definition doubledPage : PageState :=
  pageWith [flour] (<["D" := recipeD]> ∅) [CartItem.mk productD (Q2Qc 3) recipeD] None 1.

(** Rice, 5 kg on hand, sold by weight; 2 kg in the cart. *)
Definition rice : SimpleSales.Product.t :=
  SimpleSales.Product.mk "rice" "Rice" unit_weight (Q2Qc 5) (Q2Qc 40) (Q2Qc 60).
Definition riceCart : list SimpleSales.CartItem.t :=
  [SimpleSales.CartItem.mk rice (Q2Qc 2)].
Definition ricePage : SimpleSales.PageState :=
  SimpleSales.mkPage false riceCart "Cash" "Walk-in" None false None 1.

(** The form of product A. *)
Definition formA : list ProductsPage.FormIngredient.t :=
  [ProductsPage.FormIngredient.mk "flour" (Q2Qc 200)].
Definition sampleTrim (s : string) : string := s.

(** [flourPage] with product C (same recipe as A) in the modal and not in the
    cart. *)
Definition flourPageC : PageState :=
  pageWith [flour] (<["C" := recipeA]> recipes) flourCart (Some productC) 1.

(** * The recipe-based component over binary64

    The same functions of [SalesPage.tsx] once more, this time with the
    arithmetic of the program: a [number] is an IEEE 754 binary64 value and
    [*], [/], [+], [-], [<] are the correctly rounded operations of
    [SpecFloat] (precision 53, exponent bound 1024).  The columns
    [DECIMAL(10, 2)] of the schema are integers counting hundredths. *)

Module Binary64.

(** ** Numbers *)

Definition number : Type := spec_float.
Definition prec : Z := 53.
Definition emax : Z := 1024.

Definition add : number → number → number := SFadd prec emax.
Definition sub : number → number → number := SFsub prec emax.
Definition mul : number → number → number := SFmul prec emax.
Definition div : number → number → number := SFdiv prec emax.
(** [a < b], [a <= b] and [a === b] on numbers ([NaN] compares false with
    everything, [-0] equals [0]). *)
Definition ltb : number → number → bool := SFltb.
Definition leb : number → number → bool := SFleb.
Definition eqb : number → number → bool := SFeqb.

Declare Scope num_scope.
Delimit Scope num_scope with num.
Infix "+" := add : num_scope.
Infix "-" := sub : num_scope.
Infix "*" := mul : num_scope.
Infix "/" := div : num_scope.
Infix "<?" := ltb : num_scope.
Infix "<=?" := leb : num_scope.
Infix "=?" := eqb : num_scope.
Local Open Scope num_scope.

(** An integer literal (exact below 2^53). *)
Definition ofZ (z : Z) : number := binary_normalize prec emax z 0 false.

(** A decimal literal with [k] decimals, [n / 10^k] rounded once: the number
    [JSON.parse] reads from the text of a decimal whose digits [n] and scale
    [10^k] are both exact integers of binary64. *)
Definition ofDecimal (n : Z) (k : N) : number := ofZ n / ofZ (10 ^ Z.of_N k).

Definition zero : number := S754_zero false.
Definition Infinity : number := S754_infinity false.

(** [Math.floor]: the integers from 2^52 on are all the numbers there are. *)
Definition Math_floor (x : number) : number :=
  match x with
  | S754_finite s m e =>
    if (0 <=? e)%Z then x
    else binary_normalize prec emax (Z.shiftr (cond_Zopp s (Zpos m)) (- e)) 0 s
  | _ => x
  end.

(** [Math.min(a, b)]: [NaN] if one of them is, and [-0] below [0]. *)
Definition Math_min (a b : number) : number :=
  match a, b with
  | S754_nan, _ | _, S754_nan => S754_nan
  | _, _ =>
    if b <? a then b
    else if a <? b then a
    else match a, b with
         | S754_zero sa, S754_zero sb => S754_zero (sa || sb)
         | _, _ => a
         end
  end.

(** [x || 0] for an entry of a [Record<string, number>]: [undefined], [0],
    [-0] and [NaN] all give [0]. *)
Definition orZero (x : option number) : number :=
  match x with
  | Some (S754_zero _) | Some S754_nan | None => zero
  | Some v => v
  end.

(** The rational number a finite [number] stands for. *)
Definition toQ (x : number) : Q :=
  match x with
  | S754_finite s m e => (inject_Z (cond_Zopp s (Zpos m)) * 2 ^ e)%Q
  | _ => 0%Q
  end.

(** ** The columns [DECIMAL(10, 2)] *)

(** The text the client sends for [x] is the shortest decimal that reads back
    as [x].  When the point half-way between two hundredths reads back as
    [x], that text is the half-way point itself (three decimals; between
    -10^8 and 10^8 nothing shorter is as close). *)
Definition sentAsHalfway (t : Z) (x : number) : bool :=
  ofZ (2 * t + 1) / ofZ 200 =? SFabs x.

(** What a column [DECIMAL(10, 2)] keeps of a number sent to it, in
    hundredths: the text rounded to two decimals, a tie away from zero;
    [None] when the request is rejected ([NaN] and the infinities are sent
    as [null] to a [NOT NULL] column, and ten digits are all the column
    holds). *)
Definition DECIMAL_10_2 (x : number) : option Z :=
  match x with
  | S754_zero _ => Some 0%Z
  | S754_finite s _ _ =>
    let a := (Qabs (toQ x) * 100)%Q in
    let t := Qfloor a in
    let k := if sentAsHalfway t x || Qle_bool (inject_Z t + (1 # 2)) a
             then (t + 1)%Z else t in
    if (k <? 10 ^ 10)%Z then Some (cond_Zopp s k) else None
  | _ => None
  end.

(** The number the client reads from a column holding [k] hundredths. *)
Definition ofHundredths (k : Z) : number := ofDecimal k 2.

(** ** Data model *)

Module FinishedProduct.
Record t : Type := mk {
  id : string;
  name : string;
  image_url : option string;
  selling_price : number;
  created_at : string;
  updated_at : string
}.
End FinishedProduct.

Module ProductIngredient.
Record t : Type := mk {
  id : string;
  product_id : string;
  item_id : string;
  qty : number
}.
End ProductIngredient.

Module InventoryItem.
Record t : Type := mk {
  id : string;
  name : string;
  qty : number;
  cost : number;
  unit_type : UnitType
}.
End InventoryItem.

Module CartItem.
Record t : Type := mk {
  product : FinishedProduct.t;
  quantity : number;
  ingredients : list ProductIngredient.t
}.
End CartItem.

(** A record of [saleRecords], as sent to the table [sales]. *)
Module Sale.
Record t : Type := mk {
  transaction_id : string;
  product_id : string;
  product_name : string;
  qty : number;
  unit_type : UnitType;
  cost : number;
  selling_price : number;
  total : number;
  payment_method : string;
  customer_type : string;
  dine_in_takeout : option DineInTakeout
}.
End Sale.

(** A row of the table [sales]; the four amounts are [DECIMAL(10, 2)]. *)
Module SaleRow.
Record t : Type := mk {
  transaction_id : string;
  product_id : string;
  product_name : string;
  qty : Z;
  unit_type : UnitType;
  cost : Z;
  selling_price : Z;
  total : Z;
  payment_method : string;
  customer_type : string;
  dine_in_takeout : option DineInTakeout
}.
End SaleRow.

(** A row of the table [products]; [qty] and [cost] are [DECIMAL(10, 2)]. *)
Module ProductRow.
Record t : Type := mk {
  id : string;
  name : string;
  unit_type : UnitType;
  qty : Z;
  cost : Z
}.
End ProductRow.

(** [setInventoryItems(inventoryRes.data)]: a row as the page reads it. *)
Definition itemOfRow (row : ProductRow.t) : InventoryItem.t :=
  InventoryItem.mk (ProductRow.id row) (ProductRow.name row)
                   (ofHundredths (ProductRow.qty row))
                   (ofHundredths (ProductRow.cost row))
                   (ProductRow.unit_type row).

Record PageState : Type := mkPage {
  inventoryItems : list InventoryItem.t;
  productIngredients : gmap string (list ProductIngredient.t);
  dineInEnabled : bool;
  cart : list CartItem.t;
  selectedPaymentMethod : string;
  selectedCustomerType : string;
  selectedDineInTakeout : option DineInTakeout;
  isCheckingOut : bool;
  selectedProduct : option FinishedProduct.t;
  quantity : number
}.

Definition cartId (c : CartItem.t) : string :=
  FinishedProduct.id (CartItem.product c).

(** ** Stock availability *)

Definition findItem (items : list InventoryItem.t) (itemId : string)
  : option InventoryItem.t :=
  List.find (fun i => String.eqb (InventoryItem.id i) itemId) items.

Definition ingredientsOf (st : PageState) (productId : string)
  : list ProductIngredient.t :=
  default [] (productIngredients st !! productId).

Definition getInventoryInIngredientUnit (item : InventoryItem.t) : number :=
  if decide (InventoryItem.unit_type item = unit_weight)
  then InventoryItem.qty item * ofZ 1000
  else InventoryItem.qty item.

(** The [reduce] callback shared by [cartQty] and [cartReserved]. *)
Definition reserveStep (st : PageState) (itemId : string)
    (total : number) (cartItem : CartItem.t) : number :=
  let cartIngredients := ingredientsOf st (cartId cartItem) in
  let matchingIng :=
    List.find (fun ci => String.eqb (ProductIngredient.item_id ci) itemId)
              cartIngredients in
  total + match matchingIng with
          | Some m => ProductIngredient.qty m * CartItem.quantity cartItem
          | None => zero
          end.

Definition cartReserved (st : PageState) (productId itemId : string) : number :=
  fold_left (reserveStep st itemId)
    (List.filter (fun c => negb (String.eqb (cartId c) productId)) (cart st))
    zero.

Fixpoint canSellLoop (st : PageState) (productId : string) (qty : number)
    (ingredients : list ProductIngredient.t) : bool :=
  match ingredients with
  | [] => true
  | ing :: rest =>
    match findItem (inventoryItems st) (ProductIngredient.item_id ing) with
    | None => false
    | Some item =>
      let inventoryStock := getInventoryInIngredientUnit item in
      let cartQty := cartReserved st productId (ProductIngredient.item_id ing) in
      let requiredQty := ProductIngredient.qty ing * qty + cartQty in
      if inventoryStock <? requiredQty then false
      else canSellLoop st productId qty rest
    end
  end.

Definition canSellProduct (st : PageState) (productId : string) (qty : number)
  : bool :=
  let ingredients := ingredientsOf st productId in
  match ingredients with
  | [] => false
  | _ => canSellLoop st productId qty ingredients
  end.

(** The [for] loop of [getMaxQuantity]; [break] ends the recursion. *)
Fixpoint maxQtyLoop (st : PageState) (productId : string)
    (ingredients : list ProductIngredient.t) (maxQty : number) : number :=
  match ingredients with
  | [] => maxQty
  | ing :: rest =>
    match findItem (inventoryItems st) (ProductIngredient.item_id ing) with
    | None => zero
    | Some item =>
      if ProductIngredient.qty ing =? zero then zero
      else
        let inventoryStock := getInventoryInIngredientUnit item in
        let reserved := cartReserved st productId (ProductIngredient.item_id ing) in
        let availableStock := inventoryStock - reserved in
        let possibleQty := Math_floor (availableStock / ProductIngredient.qty ing) in
        maxQtyLoop st productId rest (Math_min maxQty possibleQty)
    end
  end.

Definition getMaxQuantity (st : PageState) (productId : string) : number :=
  let ingredients := ingredientsOf st productId in
  match ingredients with
  | [] => zero
  | _ =>
    let maxQty := maxQtyLoop st productId ingredients Infinity in
    if maxQty =? Infinity then zero else maxQty
  end.

Definition calculateProductCost (st : PageState) (productId : string) : number :=
  fold_left
    (fun total ing =>
       total + match findItem (inventoryItems st) (ProductIngredient.item_id ing) with
               | Some item => InventoryItem.cost item * ProductIngredient.qty ing
               | None => zero
               end)
    (ingredientsOf st productId) zero.

(** ** The cart *)

Inductive Event : Type :=
  | toast_error (msg : string)
  | toast_success (msg : string)
  | toast_sale_completed (totalAmount : number)
  | addRecentSale (sale : SaleRow.t)
  | fetchData.

Definition setCart (c : list CartItem.t) (st : PageState) : PageState :=
  mkPage (inventoryItems st) (productIngredients st) (dineInEnabled st) c
         (selectedPaymentMethod st) (selectedCustomerType st)
         (selectedDineInTakeout st) (isCheckingOut st)
         (selectedProduct st) (quantity st).

Definition setIsCheckingOut (b : bool) (st : PageState) : PageState :=
  mkPage (inventoryItems st) (productIngredients st) (dineInEnabled st) (cart st)
         (selectedPaymentMethod st) (selectedCustomerType st)
         (selectedDineInTakeout st) b
         (selectedProduct st) (quantity st).

Definition closeProductModal (st : PageState) : PageState :=
  mkPage (inventoryItems st) (productIngredients st) (dineInEnabled st) (cart st)
         (selectedPaymentMethod st) (selectedCustomerType st)
         (selectedDineInTakeout st) (isCheckingOut st)
         None (ofZ 1).

Definition withQuantity (q : number) (item : CartItem.t) : CartItem.t :=
  CartItem.mk (CartItem.product item) q (CartItem.ingredients item).

Definition addToCart (st : PageState) : PageState * list Event :=
  match selectedProduct st with
  | None => (st, [])
  | Some p =>
    if quantity st <=? zero then
      (st, [toast_error "Please enter a valid quantity"])
    else
      let maxQty := getMaxQuantity st (FinishedProduct.id p) in
      if maxQty <? quantity st then
        (st, [toast_error "Not enough ingredients in stock"])
      else
        let ingredients := ingredientsOf st (FinishedProduct.id p) in
        match ingredients with
        | [] => (st, [toast_error "This product has no ingredients configured"])
        | _ =>
          match list_find (fun item => cartId item = FinishedProduct.id p) (cart st) with
          | Some (existingIndex, _) =>
            let updatedCart := alter (withQuantity (quantity st)) existingIndex (cart st) in
            (closeProductModal (setCart updatedCart st), [toast_success "Cart updated"])
          | None =>
            (closeProductModal
               (setCart (cart st ++ [CartItem.mk p (quantity st) ingredients])%list st),
             [toast_success "Added to cart"])
          end
        end
  end.

Definition clearCart (st : PageState) : PageState :=
  mkPage (inventoryItems st) (productIngredients st) (dineInEnabled st) []
         "" "" None (isCheckingOut st)
         (selectedProduct st) (quantity st).

(** ** Checkout *)

Record Db : Type := mkDb {
  sales : list SaleRow.t;
  products : list ProductRow.t
}.

(** [ingredientDeductions[ing.item_id] = (ingredientDeductions[ing.item_id] || 0) + deduction] *)
Definition addDeduction (item : CartItem.t)
    (acc : gmap string number) (ing : ProductIngredient.t) : gmap string number :=
  let deduction := ProductIngredient.qty ing * CartItem.quantity item in
  <[ProductIngredient.item_id ing :=
      orZero (acc !! ProductIngredient.item_id ing) + deduction]> acc.

Definition ingredientDeductions (st : PageState) : gmap string number :=
  fold_left
    (fun acc item => fold_left (addDeduction item) (ingredientsOf st (cartId item)) acc)
    (cart st) ∅.

Definition saleRecords (st : PageState) (transactionId : string) : list Sale.t :=
  List.map
    (fun item =>
       let cost := calculateProductCost st (cartId item) in
       Sale.mk transactionId
               (cartId item)
               (FinishedProduct.name (CartItem.product item))
               (CartItem.quantity item)
               unit_quantity
               cost
               (FinishedProduct.selling_price (CartItem.product item))
               (CartItem.quantity item * FinishedProduct.selling_price (CartItem.product item))
               (selectedPaymentMethod st)
               (selectedCustomerType st)
               (if dineInEnabled st then selectedDineInTakeout st else None))
    (cart st).

(** The row the table [sales] keeps of a record, if it takes it. *)
Definition storeSale (r : Sale.t) : option SaleRow.t :=
  qty ← DECIMAL_10_2 (Sale.qty r);
  cost ← DECIMAL_10_2 (Sale.cost r);
  selling_price ← DECIMAL_10_2 (Sale.selling_price r);
  total ← DECIMAL_10_2 (Sale.total r);
  Some (SaleRow.mk (Sale.transaction_id r) (Sale.product_id r) (Sale.product_name r)
                   qty (Sale.unit_type r) cost selling_price total
                   (Sale.payment_method r) (Sale.customer_type r)
                   (Sale.dine_in_takeout r)).

(** [.from('sales').insert(saleRecords).select()]: one statement, all rows or
    none; [None] is [saleError]. *)
Definition insertSales (svc : Service) (records : list Sale.t)
  : option (list SaleRow.t) :=
  if insertFails svc then None else mapM storeSale records.

Definition deductionInStorageUnit (item : InventoryItem.t) (deduction : number)
  : number :=
  if decide (InventoryItem.unit_type item = unit_weight)
  then deduction / ofZ 1000
  else deduction.

(** The requests [.update({ qty }).eq('id', itemId)]. *)
Definition inventoryUpdates (st : PageState) : list (string * number) :=
  omap (fun '(itemId, deduction) =>
          match findItem (inventoryItems st) itemId with
          | None => None
          | Some item =>
            Some (itemId, InventoryItem.qty item - deductionInStorageUnit item deduction)
          end)
       (map_to_list (ingredientDeductions st)).

(** A request ends with an [error] when the service rejects it or the
    column cannot take the number. *)
Definition updateRejected (svc : Service) (req : string * number) : bool :=
  updateFails svc req.1 || bool_decide (DECIMAL_10_2 req.2 = None).

Definition setQty (k : Z) (row : ProductRow.t) : ProductRow.t :=
  ProductRow.mk (ProductRow.id row) (ProductRow.name row)
                (ProductRow.unit_type row) k (ProductRow.cost row).

Definition runUpdate (svc : Service) (rows : list ProductRow.t)
    (req : string * number) : list ProductRow.t :=
  if updateFails svc req.1 then rows
  else match DECIMAL_10_2 req.2 with
       | None => rows
       | Some k =>
         List.map (fun row => if String.eqb (ProductRow.id row) req.1
                              then setQty k row else row) rows
       end.

Definition cartTotal (c : list CartItem.t) : number :=
  fold_left
    (fun sum item =>
       sum + CartItem.quantity item * FinishedProduct.selling_price (CartItem.product item))
    c zero.

Definition checkoutValidation (st : PageState) : option string :=
  match cart st with
  | [] => Some "Cart is empty"
  | _ =>
    if decide (selectedPaymentMethod st = "") then
      Some "Please select a payment method"
    else if decide (selectedCustomerType st = "") then
      Some "Please select a customer type"
    else if dineInEnabled st && bool_decide (selectedDineInTakeout st = None) then
      Some "Please select Dine In or Takeout"
    else
      match List.find (fun item => negb (canSellProduct st (cartId item) (CartItem.quantity item)))
                      (cart st) with
      | Some item =>
        Some ("Not enough ingredients for " ++ FinishedProduct.name (CartItem.product item))
      | None => None
      end
  end.

Definition checkoutCommit (svc : Service) (transactionId : string)
    (st : PageState) (db : Db) : PageState * Db * list Event :=
  match insertSales svc (saleRecords st transactionId) with
  | None =>
    (setIsCheckingOut false st, db, [toast_error "Failed to process sale"])
  | Some saleData =>
    let db1 := mkDb (sales db ++ saleData)%list (products db) in
    let requests := inventoryUpdates st in
    let db2 := mkDb (sales db1) (fold_left (runUpdate svc) requests (products db1)) in
    if existsb (updateRejected svc) requests then
      (setIsCheckingOut false st, db2, [toast_error "Failed to process sale"])
    else
      (setIsCheckingOut false (clearCart st), db2,
       (match saleData with
        | r :: _ => [addRecentSale r]
        | [] => []
        end ++
        [toast_sale_completed (cartTotal (cart st)); fetchData])%list)
  end.

Definition handleCheckout (svc : Service) (transactionId : string)
    (st : PageState) (db : Db) : PageState * Db * list Event :=
  match checkoutValidation st with
  | Some msg => (st, db, [toast_error msg])
  | None => checkoutCommit svc transactionId st db
  end.

(** ** The simple-product component (second [SalesPage] of the file)

    The product is the sellable unit: the checkout sends, for every cart
    line, the stock the line remembers less the quantity sold. *)

Module SimpleSales.

(** Modelled from the spec: the type [Product] of ['@/types/database'] is not
    among the sources.  The fields are those the component reads. *)
Module Product.
Record t : Type := mk {
  id : string;
  name : string;
  unit_type : UnitType;
  qty : number;
  cost : number;
  selling_price : number
}.
End Product.

Module CartItem.
Record t : Type := mk {
  product : Product.t;
  quantity : number
}.
End CartItem.

Record PageState : Type := mkPage {
  dineInEnabled : bool;
  cart : list CartItem.t;
  selectedPaymentMethod : string;
  selectedCustomerType : string;
  selectedDineInTakeout : option DineInTakeout;
  isCheckingOut : bool;
  selectedProduct : option Product.t;
  quantity : number
}.

Definition cartId (c : CartItem.t) : string := Product.id (CartItem.product c).

Definition setIsCheckingOut (b : bool) (st : PageState) : PageState :=
  mkPage (dineInEnabled st) (cart st) (selectedPaymentMethod st) (selectedCustomerType st)
         (selectedDineInTakeout st) b (selectedProduct st) (quantity st).

Definition clearCart (st : PageState) : PageState :=
  mkPage (dineInEnabled st) [] "" "" None (isCheckingOut st)
         (selectedProduct st) (quantity st).

Definition checkoutValidation (st : PageState) : option string :=
  match cart st with
  | [] => Some "Cart is empty"
  | _ =>
    if decide (selectedPaymentMethod st = "") then
      Some "Please select a payment method"
    else if decide (selectedCustomerType st = "") then
      Some "Please select a customer type"
    else if dineInEnabled st && bool_decide (selectedDineInTakeout st = None) then
      Some "Please select Dine In or Takeout"
    else
      match List.find (fun item => Product.qty (CartItem.product item)
                                   <? CartItem.quantity item)
                      (cart st) with
      | Some item =>
        Some ("Not enough stock for " ++ Product.name (CartItem.product item))
      | None => None
      end
  end.

Definition saleRecords (st : PageState) (transactionId : string) : list Sale.t :=
  List.map
    (fun item =>
       Sale.mk transactionId
               (cartId item)
               (Product.name (CartItem.product item))
               (CartItem.quantity item)
               (Product.unit_type (CartItem.product item))
               (Product.cost (CartItem.product item))
               (Product.selling_price (CartItem.product item))
               (CartItem.quantity item * Product.selling_price (CartItem.product item))
               (selectedPaymentMethod st)
               (selectedCustomerType st)
               (if dineInEnabled st then selectedDineInTakeout st else None))
    (cart st).

(** [.update({ qty: item.product.qty - item.quantity }).eq('id', item.product.id)],
    one request per cart line. *)
Definition inventoryUpdates (st : PageState) : list (string * number) :=
  List.map (fun item => (cartId item,
                         Product.qty (CartItem.product item) - CartItem.quantity item))
           (cart st).

Definition cartTotal (c : list CartItem.t) : number :=
  fold_left
    (fun sum item =>
       sum + CartItem.quantity item * Product.selling_price (CartItem.product item))
    c zero.

Definition checkoutCommit (svc : Service) (transactionId : string)
    (st : PageState) (db : Db) : PageState * Db * list Event :=
  match insertSales svc (saleRecords st transactionId) with
  | None =>
    (setIsCheckingOut false st, db, [toast_error "Failed to process sale"])
  | Some saleData =>
    let db1 := mkDb (sales db ++ saleData)%list (products db) in
    let requests := inventoryUpdates st in
    let db2 := mkDb (sales db1) (fold_left (runUpdate svc) requests (products db1)) in
    if existsb (updateRejected svc) requests then
      (setIsCheckingOut false st, db2, [toast_error "Failed to process sale"])
    else
      (setIsCheckingOut false (clearCart st), db2,
       (match saleData with
        | r :: _ => [addRecentSale r]
        | [] => []
        end ++
        [toast_sale_completed (cartTotal (cart st)); fetchData])%list)
  end.

Definition handleCheckout (svc : Service) (transactionId : string)
    (st : PageState) (db : Db) : PageState * Db * list Event :=
  match checkoutValidation st with
  | Some msg => (st, db, [toast_error msg])
  | None => checkoutCommit svc transactionId st db
  end.

End SimpleSales.

(** ** Specification side (spec sections 4.1, 4.2 and 4.5) *)

(** A sum, taken from the left as the program takes its sums. *)
Definition sumOf (l : list number) : number := fold_left add l zero.

(** "stored quantity x1000 for weight items, unchanged for quantity items" *)
Definition stockInRecipeUnit (item : InventoryItem.t) : number :=
  match InventoryItem.unit_type item with
  | unit_weight => InventoryItem.qty item * ofZ 1000
  | unit_quantity => InventoryItem.qty item
  end.

(** What a cart line commits of an ingredient: "that product's recipe
    quantity for this same ingredient x that cart line's quantity", once for
    every line of the recipe that names the ingredient. *)
Definition lineCommitments (st : PageState) (itemId : string) (c : CartItem.t)
  : list number :=
  List.map (fun ing => ProductIngredient.qty ing * CartItem.quantity c)
           (List.filter (fun ing => String.eqb (ProductIngredient.item_id ing) itemId)
                        (ingredientsOf st (cartId c))).

(** The cart lines of the products other than [productId]. *)
Definition otherLines (st : PageState) (productId : string) : list CartItem.t :=
  List.filter (fun c => bool_decide (cartId c ≠ productId)) (cart st).

(** "sum over all cart lines for other finished products" of what they
    commit of the ingredient. *)
Definition reservedByOtherCartLines (st : PageState) (productId itemId : string)
  : number :=
  sumOf (flat_map (lineCommitments st itemId) (otherLines st productId)).

(** "possibleUnitsFromThisIngredient": undefined when the ingredient is
    missing from the snapshot or quantityPerUnit is 0. *)
Definition possibleUnitsFromThisIngredient (st : PageState) (productId : string)
    (ing : ProductIngredient.t) : option number :=
  match findItem (inventoryItems st) (ProductIngredient.item_id ing) with
  | None => None
  | Some item =>
    if ProductIngredient.qty ing =? zero then None
    else Some (Math_floor ((stockInRecipeUnit item
                            - reservedByOtherCartLines st productId (ProductIngredient.item_id ing))
                           / ProductIngredient.qty ing))
  end.

(** Zero or a positive finite number. *)
Definition nonneg (x : number) : bool :=
  match x with
  | S754_zero false | S754_finite false _ _ => true
  | _ => false
  end.

(** Neither [NaN] nor an infinity. *)
Definition is_finite (x : number) : bool :=
  match x with
  | S754_zero _ | S754_finite _ _ _ => true
  | _ => false
  end.

(** The quantities of a cart line and of the recipe of its product are zero
    or positive finite numbers. *)
Definition ordinaryLine (st : PageState) (c : CartItem.t) : Prop :=
  nonneg (CartItem.quantity c) = true
  ∧ ∀ ing, ing ∈ ingredientsOf st (cartId c) → nonneg (ProductIngredient.qty ing) = true.

(** The recipe of the cart line's product names no ingredient twice. *)
Definition namesOnce (st : PageState) (c : CartItem.t) : Prop :=
  NoDup (ProductIngredient.item_id <$> ingredientsOf st (cartId c)).

(** A recipe line over which [canSellProduct] stumbles. *)
Definition lineFails (st : PageState) (productId : string) (qty : number)
    (ing : ProductIngredient.t) : Prop :=
  match findItem (inventoryItems st) (ProductIngredient.item_id ing) with
  | None => True
  | Some item =>
    (stockInRecipeUnit item
     <? ProductIngredient.qty ing * qty
        + reservedByOtherCartLines st productId (ProductIngredient.item_id ing)) = true
  end.

Definition checkoutPreconditions (st : PageState) : Prop :=
  cart st ≠ []
  ∧ selectedPaymentMethod st ≠ ""
  ∧ selectedCustomerType st ≠ ""
  ∧ (dineInEnabled st = true → selectedDineInTakeout st ≠ None)
  ∧ ∀ item, item ∈ cart st →
      canSellProduct st (cartId item) (CartItem.quantity item) = true.

Definition checkoutSucceeded (r : PageState * Db * list Event) : Prop :=
  ∃ total, toast_sale_completed total ∈ r.2.

(** "aggregate total ingredient deduction per raw ingredient across all cart
    lines" *)
Definition totalDeduction (st : PageState) (itemId : string) : number :=
  sumOf (flat_map (lineCommitments st itemId) (cart st)).

Definition ingredientUsed (st : PageState) (itemId : string) : bool :=
  existsb (fun item =>
             existsb (fun ing => String.eqb (ProductIngredient.item_id ing) itemId)
                     (ingredientsOf st (cartId item)))
          (cart st).

(** "newQty = oldQty - aggregatedDeductionConvertedToStorageUnit", [oldQty]
    being the quantity in the page's snapshot. *)
Definition newQty (st : PageState) (item : InventoryItem.t) : number :=
  InventoryItem.qty item
  - match InventoryItem.unit_type item with
    | unit_weight => totalDeduction st (InventoryItem.id item) / ofZ 1000
    | unit_quantity => totalDeduction st (InventoryItem.id item)
    end.

(** The row of an ingredient after the checkout: what the column keeps of
    [newQty] when a cart line uses the ingredient. *)
Definition rowAfterCheckout (st : PageState) (row : ProductRow.t) : ProductRow.t :=
  match findItem (inventoryItems st) (ProductRow.id row) with
  | Some item =>
    if ingredientUsed st (ProductRow.id row) then
      match DECIMAL_10_2 (newQty st item) with
      | Some k => setQty k row
      | None => row
      end
    else row
  | None => row
  end.

(** "decremented exactly once, by the combined amount", to the letter: the
    row after the checkout holds the row before it less the combined amount
    (divided by 1000 for a weight item), as rational numbers. *)
Definition decrementedExactly (st : PageState) (before after : ProductRow.t) : Prop :=
  (inject_Z (ProductRow.qty after) / 100
   == inject_Z (ProductRow.qty before) / 100
      - toQ (totalDeduction st (ProductRow.id before))
        / match ProductRow.unit_type before with
          | unit_weight => 1000
          | unit_quantity => 1
          end)%Q.

(** The table after a batch of accepted requests with pairwise different
    ids. *)
Definition applyRequests (reqs : gmap string number) (row : ProductRow.t)
  : ProductRow.t :=
  match reqs !! ProductRow.id row with
  | Some q => match DECIMAL_10_2 q with
              | Some k => setQty k row
              | None => row
              end
  | None => row
  end.

(** The running value of one entry of [ingredientDeductions] while the
    deductions [terms] are added to it. *)
Definition accumulate (terms : list number) (entry : option number) : option number :=
  fold_left (fun entry t => Some (orZero entry + t)) terms entry.

(** A normal number between 2^-948 and 2^953, or zero: the magnitudes for
    which neither conversion leaves the normal range. *)
Definition inRange (x : number) : bool :=
  match x with
  | S754_zero _ => true
  | S754_finite _ m e =>
    (Zpos (digits2_pos m) =? 53)%Z && (-1000 <=? e)%Z && (e <=? 900)%Z
  | _ => false
  end.

Definition withQty (q : number) (item : InventoryItem.t) : InventoryItem.t :=
  InventoryItem.mk (InventoryItem.id item) (InventoryItem.name item) q
                   (InventoryItem.cost item) (InventoryItem.unit_type item).

(** ** The simple-product component: specification side *)

Definition simpleUniqueLines (c : list SimpleSales.CartItem.t) : Prop :=
  NoDup (SimpleSales.cartId <$> c).

Definition simpleSucceeded (r : SimpleSales.PageState * Db * list Event) : Prop :=
  ∃ total, toast_sale_completed total ∈ r.2.

(** The stock the cart line remembers less the quantity sold. *)
Definition simpleNewQty (item : SimpleSales.CartItem.t) : number :=
  SimpleSales.Product.qty (SimpleSales.CartItem.product item)
  - SimpleSales.CartItem.quantity item.

(** The row of a product after the checkout of the cart [c]: what the column
    keeps of [simpleNewQty] when the cart has a line for the product. *)
Definition simpleRowAfter (c : list SimpleSales.CartItem.t) (row : ProductRow.t)
  : ProductRow.t :=
  match List.find (fun item => String.eqb (SimpleSales.cartId item) (ProductRow.id row)) c with
  | Some item =>
    match DECIMAL_10_2 (simpleNewQty item) with
    | Some k => setQty k row
    | None => row
    end
  | None => row
  end.

(** ** Notions used in the proofs *)

(** Zero, a positive finite number or [Infinity]. *)
Definition nonnegExt (x : number) : bool :=
  match x with
  | S754_zero false | S754_finite false _ _ | S754_infinity false => true
  | _ => false
  end.

(** The result of a rounding carries the sign it was given. *)
Definition signed (s : bool) (x : number) : Prop :=
  match x with
  | S754_zero s' | S754_finite s' _ _ | S754_infinity s' => s' = s
  | S754_nan => False
  end.

Definition notNaN (x : number) : bool :=
  match x with S754_nan => false | _ => true end.

(** Where a rational number [t] lies between the integers [m] and [m + 1]:
    the meaning of the [location] that the rounding of [SpecFloat] carries
    along. *)
Definition located (m : Z) (l : location) (t : Q) : Prop :=
  match l with
  | loc_Exact => (t == inject_Z m)%Q
  | loc_Inexact Lt => (inject_Z m < t)%Q ∧ (t < inject_Z m + (1 # 2))%Q
  | loc_Inexact Eq => (t == inject_Z m + (1 # 2))%Q
  | loc_Inexact Gt => (inject_Z m + (1 # 2) < t)%Q ∧ (t < inject_Z m + 1)%Q
  end.

(** The same at the scale [2^e], and for the record of a right shift. *)
Definition inbetween (m e : Z) (l : location) (x : Q) : Prop :=
  located m l (x / 2 ^ e)%Q.

Definition inb (mrs : shr_record) (e : Z) (x : Q) : Prop :=
  inbetween (shr_m mrs) e (loc_of_shr_record mrs) x.

(** The magnitude of a finite number. *)
Definition magnitude (m : positive) (e : Z) : Q := (inject_Z (Zpos m) * 2 ^ e)%Q.

(** ** Concrete states *)

(** Flour, 1.00 kg in the table; product A takes 200 g, product B 300 g. *)
Definition flourRow : ProductRow.t := ProductRow.mk "flour" "Flour" unit_weight 100 1.
Definition flour : InventoryItem.t := itemOfRow flourRow.
Definition productA : FinishedProduct.t :=
  FinishedProduct.mk "A" "Product A" None (ofZ 50) "" "".
Definition productB : FinishedProduct.t :=
  FinishedProduct.mk "B" "Product B" None (ofZ 70) "" "".
Definition recipeA : list ProductIngredient.t :=
  [ProductIngredient.mk "ra" "A" "flour" (ofZ 200)].
Definition recipeB : list ProductIngredient.t :=
  [ProductIngredient.mk "rb" "B" "flour" (ofZ 300)].
Definition recipes : gmap string (list ProductIngredient.t) :=
  <["A" := recipeA]> (<["B" := recipeB]> ∅).

Definition pageWith (items : list InventoryItem.t)
    (rec : gmap string (list ProductIngredient.t))
    (c : list CartItem.t) (sel : option FinishedProduct.t) (q : number) : PageState :=
  mkPage items rec false c "Cash" "Walk-in" None false sel q.

(** Cart {A: 2, B: 1}. *)
Definition flourCart : list CartItem.t :=
  [CartItem.mk productA (ofZ 2) recipeA; CartItem.mk productB (ofZ 1) recipeB].
Definition flourPage : PageState := pageWith [flour] recipes flourCart None (ofZ 1).
Definition flourDb : Db := mkDb [] [flourRow].

(** Product E takes 23 g of flour; one E in the cart. *)
Definition productE : FinishedProduct.t :=
  FinishedProduct.mk "E" "Product E" None (ofZ 15) "" "".
Definition recipeE : list ProductIngredient.t :=
  [ProductIngredient.mk "re" "E" "flour" (ofZ 23)].
Definition pinchPage : PageState :=
  pageWith [flour] (<["E" := recipeE]> ∅) [CartItem.mk productE (ofZ 1) recipeE]
           None (ofZ 1).

(** Product D, whose recipe names flour twice (300 g and 300 g), once in the
    cart while product A is looked at. *)
Definition productD : FinishedProduct.t :=
  FinishedProduct.mk "D" "Product D" None (ofZ 90) "" "".
Definition recipeD : list ProductIngredient.t :=
  [ProductIngredient.mk "rd1" "D" "flour" (ofZ 300);
   ProductIngredient.mk "rd2" "D" "flour" (ofZ 300)].
Definition doubledPage : PageState :=
  pageWith [flour] (<["A" := recipeA]> (<["D" := recipeD]> ∅))
           [CartItem.mk productD (ofZ 1) recipeD] (Some productA) (ofZ 3).

(** A cake takes 670 g of flour and 2 eggs; 2.01 kg of flour and 3 eggs are
    on hand, and one B (300 g of flour) is in the cart. *)
Definition flour201 : InventoryItem.t :=
  InventoryItem.mk "flour" "Flour" (ofHundredths 201) (ofHundredths 1) unit_weight.
Definition eggs : InventoryItem.t :=
  InventoryItem.mk "eggs" "Eggs" (ofHundredths 300) (ofHundredths 800) unit_quantity.
Definition cake : FinishedProduct.t :=
  FinishedProduct.mk "cake" "Cake" None (ofZ 250) "" "".
Definition recipeCake : list ProductIngredient.t :=
  [ProductIngredient.mk "rc1" "cake" "flour" (ofZ 670);
   ProductIngredient.mk "rc2" "cake" "eggs" (ofZ 2)].
Definition cakePage : PageState :=
  pageWith [flour201; eggs] (<["cake" := recipeCake]> recipes)
           [CartItem.mk productB (ofZ 1) recipeB] (Some cake) (ofZ 1).

(** 2.01 kg of flour and a product that takes 670 g, nothing in the cart. *)
Definition loaf : FinishedProduct.t :=
  FinishedProduct.mk "loaf" "Loaf" None (ofZ 120) "" "".
Definition recipeLoaf : list ProductIngredient.t :=
  [ProductIngredient.mk "rl" "loaf" "flour" (ofZ 670)].
Definition loafPage : PageState :=
  pageWith [flour201] (<["loaf" := recipeLoaf]> ∅) [] (Some loaf) (ofZ 3).

(** 0.51 kg of saffron and a product that takes 0.17 g of it; the modal
    shows the product with the quantity 3000. *)
Definition saffron : InventoryItem.t :=
  InventoryItem.mk "saffron" "Saffron" (ofHundredths 51) (ofHundredths 900) unit_weight.
Definition paella : FinishedProduct.t :=
  FinishedProduct.mk "paella" "Paella" None (ofZ 400) "" "".
Definition recipePaella : list ProductIngredient.t :=
  [ProductIngredient.mk "rp" "paella" "saffron" (ofHundredths 17)].
Definition saffronPage : PageState :=
  pageWith [saffron] (<["paella" := recipePaella]> ∅) [] (Some paella) (ofZ 3000).

(** Product Z: one recipe line with a quantity per unit of 0. *)
Definition productZ : FinishedProduct.t :=
  FinishedProduct.mk "Z" "Product Z" None (ofZ 10) "" "".
Definition recipeZ : list ProductIngredient.t :=
  [ProductIngredient.mk "rz" "Z" "flour" zero].
Definition zeroLinePage : PageState :=
  pageWith [flour] (<["Z" := recipeZ]> ∅) [] None (ofZ 1).

(** Rice sold by weight, 5.00 kg on hand and 0.125 kg in the cart; sugar,
    0.30 kg on hand and 0.1 kg in the cart. *)
Definition riceRow : ProductRow.t := ProductRow.mk "rice" "Rice" unit_weight 500 4000.
Definition sugarRow : ProductRow.t := ProductRow.mk "sugar" "Sugar" unit_weight 30 5500.
Definition rice : SimpleSales.Product.t :=
  SimpleSales.Product.mk "rice" "Rice" unit_weight
                         (ofHundredths 500) (ofHundredths 4000) (ofHundredths 6000).
Definition sugar : SimpleSales.Product.t :=
  SimpleSales.Product.mk "sugar" "Sugar" unit_weight
                         (ofHundredths 30) (ofHundredths 5500) (ofHundredths 8000).
Definition riceCart : list SimpleSales.CartItem.t :=
  [SimpleSales.CartItem.mk rice (ofDecimal 125 3);
   SimpleSales.CartItem.mk sugar (ofDecimal 1 1)].
Definition ricePage : SimpleSales.PageState :=
  SimpleSales.mkPage false riceCart "Cash" "Walk-in" None false None (ofZ 1).
Definition riceDb : Db := mkDb [] [riceRow; sugarRow].

End Binary64.

(** * Part I. Properties over the rationals *)

(** ** Arithmetic of the number model *)

(** Closed equations between rationals, by evaluation. *)
Ltac qc_compute := apply Qc_is_canon; vm_compute; reflexivity.

Lemma Math_floor_integer x : is_integer (Math_floor x).
Proof. unfold is_integer, Math_floor. simpl. rewrite inject_Z_Qred. reflexivity. Qed.

Lemma Math_floor_lt x : x < Math_floor x + 1.
Proof.
  unfold Math_floor, Qclt. simpl. rewrite !Qred_correct.
  pose proof (Qlt_floor x) as H. rewrite inject_Z_plus in H. exact H.
Qed.

Lemma Math_floor_nonneg x : 0 ≤ x → 0 ≤ Math_floor x.
Proof.
  intros H. unfold Math_floor, Qcle. simpl. rewrite inject_Z_Qred.
  assert (Hz : (0 <= Qfloor x)%Z).
  { rewrite <- (Qfloor_Z 0). apply Qfloor_resp_le. exact H. }
  rewrite Zle_Qle in Hz. exact Hz.
Qed.

Lemma Qcsum_fold_left {A} (f : A → Qc) (l : list A) (a : Qc) :
  fold_left (fun total x => total + f x) l a = a + Qcsum (List.map f l).
Proof.
  revert a. induction l as [|x l IH]; intros a; simpl.
  - by rewrite Qcplus_0_r.
  - rewrite IH. by rewrite Qcplus_assoc.
Qed.

Lemma String_eqb_decide (a b : string) : String.eqb a b = bool_decide (a = b).
Proof.
  destruct (String.eqb_spec a b) as [->|Hne].
  - by rewrite bool_decide_eq_true_2.
  - by rewrite bool_decide_eq_false_2.
Qed.

Lemma getInventoryInIngredientUnit_spec item :
  getInventoryInIngredientUnit item = stockInRecipeUnit item.
Proof.
  unfold getInventoryInIngredientUnit, stockInRecipeUnit.
  destruct (InventoryItem.unit_type item); by case_decide.
Qed.

Lemma reserveStep_spec st itemId total c :
  reserveStep st itemId total c
  = total + recipeQuantityFor st (cartId c) itemId * CartItem.quantity c.
Proof.
  unfold reserveStep, recipeQuantityFor.
  destruct (List.find _ _); [done|]. by rewrite Qcmult_0_l.
Qed.

Lemma cartReserved_spec st productId itemId :
  cartReserved st productId itemId = reservedByOtherCartLines st productId itemId.
Proof.
  unfold cartReserved, reservedByOtherCartLines.
  erewrite List.filter_ext.
  2:{ intros c. rewrite String_eqb_decide, <- bool_decide_not. reflexivity. }
  generalize (List.filter (fun c => bool_decide (cartId c ≠ productId)) (cart st)).
  intros l. rewrite <- (Qcplus_0_l (Qcsum _)). generalize (Q2Qc 0).
  induction l as [|c l IH]; intros a; simpl.
  - by rewrite Qcplus_0_r.
  - rewrite IH, reserveStep_spec. by rewrite Qcplus_assoc.
Qed.

(** * The availability calculator *)

Lemma ExtLe_refl a : ExtLe a a.
Proof. destruct a; simpl; [done | apply Qcle_refl]. Qed.

Lemma ExtLe_trans a b c : ExtLe a b → ExtLe b c → ExtLe a c.
Proof.
  destruct a, b, c; simpl; try done. apply Qcle_trans.
Qed.

Lemma Math_min_le_l a b : ExtLe (Math_min a b) a.
Proof.
  destruct a as [|x]; simpl; [done|].
  case_decide; [by apply Qclt_le_weak | apply Qcle_refl].
Qed.

Lemma Math_min_le_r a b : ExtLe (Math_min a b) (Finite b).
Proof.
  destruct a as [|x]; simpl; [apply Qcle_refl|].
  case_decide; [apply Qcle_refl | by apply Qcnot_lt_le].
Qed.

Lemma Math_min_cases a b : Math_min a b = a ∨ Math_min a b = Finite b.
Proof. destruct a as [|x]; simpl; [by right|]. case_decide; auto. Qed.

Section MaxQty.
Variable st : PageState.
Variable productId : string.

Local Abbreviation units := (possibleUnitsFromThisIngredient st productId).

Lemma maxQtyLoop_cons_Some ing rest acc u :
  units ing = Some u →
  maxQtyLoop st productId (ing :: rest) acc
  = maxQtyLoop st productId rest (Math_min acc u).
Proof.
  unfold possibleUnitsFromThisIngredient. simpl.
  destruct (findItem _ _) as [item|]; [|done].
  case_decide; [done|]. intros [= <-].
  by rewrite getInventoryInIngredientUnit_spec, cartReserved_spec.
Qed.

Lemma maxQtyLoop_cons_None ing rest acc :
  units ing = None →
  maxQtyLoop st productId (ing :: rest) acc = Finite 0.
Proof.
  unfold possibleUnitsFromThisIngredient. simpl.
  destruct (findItem _ _) as [item|]; [|done].
  by case_decide.
Qed.

(** A line that cannot be evaluated ends the loop with 0, wherever it is. *)
Lemma maxQtyLoop_bad lines acc :
  (∃ ing, ing ∈ lines ∧ units ing = None) →
  maxQtyLoop st productId lines acc = Finite 0.
Proof.
  revert acc. induction lines as [|ing rest IH]; intros acc [bad [Hin Hbad]].
  - by apply elem_of_nil in Hin.
  - destruct (units ing) as [u|] eqn:Hu.
    + rewrite (maxQtyLoop_cons_Some _ _ _ _ Hu). apply IH.
      apply elem_of_cons in Hin as [->|Hin]; [congruence|]. eauto.
    + by apply maxQtyLoop_cons_None.
Qed.

(** When every line can be evaluated the loop computes a minimum. *)
Lemma maxQtyLoop_good lines acc :
  (∀ ing, ing ∈ lines → is_Some (units ing)) →
  let r := maxQtyLoop st productId lines acc in
  ExtLe r acc
  ∧ (∀ ing u, ing ∈ lines → units ing = Some u → ExtLe r (Finite u))
  ∧ (r = acc ∨ ∃ ing u, ing ∈ lines ∧ units ing = Some u ∧ r = Finite u).
Proof.
  revert acc. induction lines as [|ing rest IH]; intros acc Hall; simpl.
  - split; [apply ExtLe_refl|]. split; [|by left].
    intros ? ? Hin. by apply elem_of_nil in Hin.
  - destruct (Hall ing) as [u Hu]; [by left|].
    pose proof (maxQtyLoop_cons_Some ing rest acc u Hu) as Hstep.
    simpl in Hstep. rewrite Hstep.
    destruct (IH (Math_min acc u)) as (Hle & Hlb & Hmem).
    { intros ing' Hin. apply Hall. by right. }
    split; [|split].
    + eapply ExtLe_trans; [exact Hle | apply Math_min_le_l].
    + intros ing' u' Hin Hu'. apply elem_of_cons in Hin as [->|Hin].
      * assert (u' = u) as -> by congruence.
        eapply ExtLe_trans; [exact Hle | apply Math_min_le_r].
      * by apply (Hlb ing').
    + destruct Hmem as [Heq | (ing' & u' & Hin & Hu' & Heq)].
      * rewrite Heq. destruct (Math_min_cases acc u) as [->| ->]; [by left|].
        right. exists ing, u. split; [by left | done].
      * right. exists ing', u'. split; [by right | done].
Qed.
End MaxQty.

Section MaxQtyResult.
Variable st : PageState.
Variable productId : string.

Local Abbreviation lines := (ingredientsOf st productId).
Local Abbreviation units := (possibleUnitsFromThisIngredient st productId).

Lemma getMaxQuantity_no_lines :
  lines = [] → getMaxQuantity st productId = 0.
Proof. unfold getMaxQuantity. by intros ->. Qed.

Lemma getMaxQuantity_bad_line :
  (∃ ing, ing ∈ lines ∧ units ing = None) → getMaxQuantity st productId = 0.
Proof.
  intros Hbad. unfold getMaxQuantity.
  destruct lines as [|ing rest] eqn:Hl; [done|].
  by rewrite (maxQtyLoop_bad st productId _ Infinity Hbad).
Qed.

Lemma getMaxQuantity_good :
  lines ≠ [] → (∀ ing, ing ∈ lines → is_Some (units ing)) →
  (∃ ing, ing ∈ lines ∧ units ing = Some (getMaxQuantity st productId))
  ∧ (∀ ing u, ing ∈ lines → units ing = Some u → getMaxQuantity st productId ≤ u).
Proof.
  intros Hne Hall. unfold getMaxQuantity.
  destruct (maxQtyLoop_good st productId lines Infinity Hall) as (_ & Hlb & Hmem).
  destruct lines as [|ing rest] eqn:Hl; [done|].
  destruct (Hall ing) as [u0 Hu0]; [by left|].
  destruct (maxQtyLoop st productId (ing :: rest) Infinity) as [|m] eqn:Hr.
  - exfalso. apply (Hlb ing u0); [by left | done].
  - split.
    + destruct Hmem as [?|(ing' & u' & Hin & Hu' & [= ->])]; [done|]. eauto.
    + intros ing' u' Hin Hu'. exact (Hlb ing' u' Hin Hu').
Qed.

(** Either 0, or the value of one of the recipe lines. *)
Lemma getMaxQuantity_cases :
  getMaxQuantity st productId = 0
  ∨ ∃ ing, ing ∈ lines ∧ units ing = Some (getMaxQuantity st productId).
Proof.
  destruct lines as [|ing0 rest] eqn:Hl.
  { left. by apply getMaxQuantity_no_lines. }
  destruct (decide (Forall (fun ing => is_Some (units ing)) lines)) as [Hall|Hbad].
  - right. rewrite Forall_forall in Hall.
    rewrite <- Hl. apply getMaxQuantity_good; [by rewrite Hl | done].
  - left. apply getMaxQuantity_bad_line.
    apply not_Forall_Exists in Hbad; [|apply _].
    apply Exists_exists in Hbad as (ing & Hin & Hnone).
    exists ing. split; [done|].
    destruct (units ing) eqn:Hu; [|done]. exfalso. apply Hnone. eauto.
Qed.
End MaxQtyResult.

Lemma flourPage_lines_A : ingredientsOf flourPage "A" = recipeA.
Proof. vm_compute. reflexivity. Qed.

(** * Sign and integrality of the maximum *)

Lemma is_integer_0 : is_integer 0.
Proof. reflexivity. Qed.

Lemma Qcdiv_nonneg (a q : Qc) : 0 ≤ a → 0 < q → 0 ≤ a / q.
Proof.
  intros Ha Hq. apply (Qcmult_lt_0_le_reg_r _ _ q Hq).
  rewrite Qcmult_0_l, (Qcmult_comm (a / q)), Qcmult_div_r; [done|].
  intros ->. by apply (Qclt_not_eq 0 0).
Qed.

Lemma possibleUnits_integer st productId ing u :
  possibleUnitsFromThisIngredient st productId ing = Some u → is_integer u.
Proof.
  unfold possibleUnitsFromThisIngredient.
  destruct (findItem _ _); [|done]. case_decide; [done|].
  intros [= <-]. apply Math_floor_integer.
Qed.

(** C2 (amended). [getMaxQuantity] always returns an integer; it is
    non-negative when every recipe line of the product has a non-negative
    quantity per unit and the reservations of the other cart lines do not
    exceed the ingredient's stock. *)
Theorem getMaxQuantity_integer_nonneg (st : PageState) (productId : string) :
  is_integer (getMaxQuantity st productId)
  ∧ (stockCoversReservations st productId → 0 ≤ getMaxQuantity st productId).
Proof.
  destruct (getMaxQuantity_cases st productId) as [-> | (ing & Hin & Hu)].
  { split; [apply is_integer_0 | intros _; apply Qcle_refl]. }
  split; [by eapply possibleUnits_integer|].
  intros Hcov. revert Hu. unfold possibleUnitsFromThisIngredient.
  destruct (findItem _ _) as [item|] eqn:Hitem; [|done].
  case_decide as Hq; [done|]. intros [= Hu]. rewrite <- Hu.
  destruct (Hcov ing item Hin Hitem) as [Hq0 Hres].
  apply Math_floor_nonneg, Qcdiv_nonneg.
  - unfold Qcminus. by apply Qcle_minus_iff in Hres.
  - destruct (Qcle_lt_or_eq _ _ Hq0) as [?|Heq]; [done|]. by symmetry in Heq.
Qed.

Lemma flourPage_covers_A : stockCoversReservations flourPage "A".
Proof.
  intros ing item. rewrite flourPage_lines_A.
  intros Hin. apply list_elem_of_singleton in Hin as ->.
  intros [= <-]. split; intros H; vm_compute in H; discriminate.
Qed.

Lemma getMaxQuantity_integer_nonneg_witness :
  stockCoversReservations flourPage "A" ∧ 0 ≤ getMaxQuantity flourPage "A".
Proof.
  split; [apply flourPage_covers_A|].
  apply (proj2 (getMaxQuantity_integer_nonneg flourPage "A")).
  apply flourPage_covers_A.
Defined.

(** C2, as stated, fails: with the flour row at -1 kg the maximum of product A
    is floor(-1000 / 200) = -5. *)
Lemma getMaxQuantity_negative :
  getMaxQuantity overdrawnPage "A" = Q2Qc (-5)
  ∧ ¬ (0 ≤ getMaxQuantity overdrawnPage "A").
Proof.
  split.
  - qc_compute.
  - intros H. vm_compute in H. by apply H.
Qed.

(** * Checkout *)

Lemma checkoutValidation_None st :
  checkoutValidation st = None ↔ checkoutPreconditions st.
Proof.
  unfold checkoutValidation, checkoutPreconditions.
  destruct (cart st) as [|c0 cs] eqn:Hcart.
  { split; [done | by intros [? _]]. }
  rewrite <- Hcart.
  case_decide as Hpay. { split; [done | by intros (_ & ? & _)]. }
  case_decide as Hcust. { split; [done | by intros (_ & _ & ? & _)]. }
  destruct (dineInEnabled st && bool_decide (selectedDineInTakeout st = None)) eqn:Hdine.
  { apply andb_true_iff in Hdine as [Hen Hnone]. apply bool_decide_eq_true in Hnone.
    split; [done | intros (_ & _ & _ & Hd & _); exfalso; by apply Hd]. }
  destruct (List.find _ (cart st)) as [bad|] eqn:Hfind.
  - split; [done|]. intros (_ & _ & _ & _ & Hall).
    apply List.find_some in Hfind as [Hin Hneg].
    apply list_elem_of_In in Hin. rewrite (Hall bad Hin) in Hneg. done.
  - split; [|done]. intros _.
    split; [by rewrite Hcart|]. do 2 (split; [done|]). split.
    + intros Hen Hnone. rewrite Hen, bool_decide_eq_true_2 in Hdine; done.
    + intros item Hin. apply list_elem_of_In in Hin.
      pose proof (List.find_none _ _ Hfind item Hin) as Hneg.
      by apply negb_false_iff in Hneg.
Qed.

Lemma handleCheckout_valid svc tx st db :
  checkoutPreconditions st →
  handleCheckout svc tx st db = checkoutCommit svc tx st db.
Proof.
  intros Hpre. apply checkoutValidation_None in Hpre.
  unfold handleCheckout. by rewrite Hpre.
Qed.

Lemma handleCheckout_invalid svc tx st db :
  ¬ checkoutPreconditions st →
  ∃ msg, handleCheckout svc tx st db = (st, db, [toast_error msg]).
Proof.
  intros Hpre. unfold handleCheckout.
  destruct (checkoutValidation st) as [msg|] eqn:Hv; [eauto|].
  by apply checkoutValidation_None in Hv.
Qed.

Lemma handleCheckout_succeeded_inv svc tx st db :
  checkoutSucceeded (handleCheckout svc tx st db) →
  checkoutPreconditions st
  ∧ insertFails svc = false
  ∧ Forall (fun req => updateFails svc req.1 = false) (inventoryUpdates st)
  ∧ handleCheckout svc tx st db
    = (setIsCheckingOut false (clearCart st),
       mkDb (sales db ++ saleRecords st tx)
            (fold_left (runUpdate svc) (inventoryUpdates st) (products db)),
       (match saleRecords st tx with
        | r :: _ => [addRecentSale r]
        | [] => []
        end ++ [toast_sale_completed (cartTotal (cart st)); fetchData])%list).
Proof.
  intros [total Hin]. unfold handleCheckout in *.
  destruct (checkoutValidation st) as [msg|] eqn:Hv.
  { simpl in Hin. apply list_elem_of_singleton in Hin. discriminate. }
  apply checkoutValidation_None in Hv. split; [done|].
  unfold checkoutCommit in *.
  destruct (insertFails svc).
  { simpl in Hin. apply list_elem_of_singleton in Hin. discriminate. }
  split; [done|]. simpl in *.
  destruct (existsb _ (inventoryUpdates st)) eqn:Hex.
  { simpl in Hin. apply list_elem_of_singleton in Hin. discriminate. }
  split; [|done].
  apply Forall_forall. intros req Hreq. apply list_elem_of_In in Hreq.
  destruct (updateFails svc req.1) eqn:Hf; [|done].
  assert (existsb (fun req => updateFails svc req.1) (inventoryUpdates st) = true) as Ht.
  { apply existsb_exists. eauto. }
  congruence.
Qed.

(** ** The aggregated deductions *)

Lemma filter_existsb_false {A} (f : A → bool) (l : list A) :
  existsb f l = false → List.filter f l = [].
Proof.
  induction l as [|x l IH]; simpl; [done|].
  destruct (f x); simpl; [done | exact IH].
Qed.

Section Deductions.
Variable st : PageState.
Variable itemId : string.

Local Abbreviation names := (fun ing => String.eqb (ProductIngredient.item_id ing) itemId).

(** The inner loop, over the recipe lines of one cart line. *)
Lemma addDeduction_fold_lookup item ings (acc : gmap string Qc) :
  fold_left (addDeduction item) ings acc !! itemId
  = if existsb names ings
    then Some (default 0 (acc !! itemId)
               + Qcsum (List.map (fun ing => ProductIngredient.qty ing * CartItem.quantity item)
                                 (List.filter names ings)))
    else acc !! itemId.
Proof.
  revert acc. induction ings as [|ing rest IH]; intros acc; simpl; [done|].
  rewrite IH. unfold addDeduction.
  destruct (String.eqb_spec (ProductIngredient.item_id ing) itemId) as [Heq|Hne]; simpl.
  - rewrite Heq, lookup_insert_eq. simpl.
    destruct (existsb names rest) eqn:Hex.
    + by rewrite Qcplus_assoc.
    + rewrite (filter_existsb_false _ _ Hex). simpl. by rewrite Qcplus_0_r.
  - by rewrite lookup_insert_ne.
Qed.

(** The outer loop, over the cart. *)
Lemma ingredientDeductions_fold_lookup (c : list CartItem.t) (acc : gmap string Qc) :
  fold_left
    (fun acc item => fold_left (addDeduction item) (ingredientsOf st (cartId item)) acc)
    c acc !! itemId
  = if existsb (fun item => existsb names (ingredientsOf st (cartId item))) c
    then Some (default 0 (acc !! itemId) + Qcsum (List.map (lineRequirement st itemId) c))
    else acc !! itemId.
Proof.
  revert acc. induction c as [|item rest IH]; intros acc; simpl; [done|].
  rewrite IH, addDeduction_fold_lookup. unfold lineRequirement at 2.
  destruct (existsb names (ingredientsOf st (cartId item))) eqn:Hitem; simpl.
  - destruct (existsb _ rest) eqn:Hrest.
    + by rewrite Qcplus_assoc.
    + assert (Qcsum (List.map (lineRequirement st itemId) rest) = 0) as ->.
      { clear IH. induction rest as [|x rest IH]; simpl in *; [done|].
        apply orb_false_iff in Hrest as [Hx Hrest].
        rewrite (IH Hrest). unfold lineRequirement.
        rewrite (filter_existsb_false _ _ Hx). simpl. by rewrite Qcplus_0_r. }
      by rewrite Qcplus_0_r.
  - rewrite (filter_existsb_false _ _ Hitem). simpl. by rewrite Qcplus_0_l.
Qed.

Lemma ingredientDeductions_lookup :
  ingredientDeductions st !! itemId
  = if ingredientUsed st itemId then Some (totalDeduction st itemId) else None.
Proof.
  unfold ingredientDeductions, ingredientUsed, totalDeduction.
  rewrite ingredientDeductions_fold_lookup, lookup_empty. simpl.
  by rewrite Qcplus_0_l.
Qed.
End Deductions.

(** Where the recipe of a cart line names the ingredient at most once, the
    requirement used by the checkout is the reservation used by the
    availability functions. *)
Lemma find_head_filter {A} (f : A → bool) (l : list A) :
  List.find f l = head (List.filter f l).
Proof.
  induction l as [|x l IH]; simpl; [done|]. by destruct (f x).
Qed.

Lemma lineRequirement_single st itemId item :
  (length (List.filter (fun ing => String.eqb (ProductIngredient.item_id ing) itemId)
                       (ingredientsOf st (cartId item))) ≤ 1)%nat →
  lineRequirement st itemId item
  = recipeQuantityFor st (cartId item) itemId * CartItem.quantity item.
Proof.
  unfold lineRequirement, recipeQuantityFor. rewrite find_head_filter.
  destruct (List.filter _ _) as [|m [|m' l]]; simpl; intros Hlen.
  - by rewrite Qcmult_0_l.
  - by rewrite Qcplus_0_r.
  - lia.
Qed.

(** ** The update requests *)

Lemma runUpdate_fold svc (reqs : list (string * Qc)) rows :
  NoDup reqs.*1 →
  Forall (fun req => updateFails svc req.1 = false) reqs →
  fold_left (runUpdate svc) reqs rows
  = List.map (applyRequests (list_to_map reqs)) rows.
Proof.
  revert rows. induction reqs as [|[k q] reqs IH]; intros rows Hnd Hok; simpl.
  - symmetry. apply List.map_id.
  - apply NoDup_cons in Hnd as [Hk Hnd]. apply Forall_cons in Hok as [Hkok Hok].
    rewrite IH by done. unfold runUpdate at 1. simpl in *. rewrite Hkok.
    rewrite List.map_map. apply List.map_ext. intros row.
    unfold applyRequests.
    destruct (String.eqb_spec (InventoryItem.id row) k) as [Heq|Hne]; simpl.
    + rewrite Heq, lookup_insert_eq.
      by rewrite (not_elem_of_list_to_map_1 _ _ Hk).
    + by rewrite lookup_insert_ne.
Qed.

Lemma omap_keys_NoDup {A B} (F : string * A → option (string * B)) (l : list (string * A)) :
  (∀ x y, F x = Some y → y.1 = x.1) →
  NoDup l.*1 → NoDup (omap F l).*1.
Proof.
  intros HF. induction l as [|x l IH]; simpl; intros Hnd; [constructor|].
  apply NoDup_cons in Hnd as [Hx Hnd].
  destruct (F x) as [y|] eqn:Hy; [|by apply IH].
  simpl. apply NoDup_cons. split; [|by apply IH].
  intros Hin. apply Hx.
  apply list_elem_of_fmap in Hin as (y' & Hy' & Hin).
  apply list_elem_of_omap in Hin as (x' & Hin & Hx').
  apply list_elem_of_fmap. exists x'. split; [|done].
  rewrite <- (HF _ _ Hy), Hy'. by apply HF.
Qed.

Section Requests.
Variable st : PageState.

Local Abbreviation request :=
  (fun '(itemId, deduction) =>
     match findItem (inventoryItems st) itemId with
     | None => None
     | Some item =>
       Some (itemId, InventoryItem.qty item - deductionInStorageUnit item deduction)
     end).

Lemma request_key (x y : string * Qc) : request x = Some y → y.1 = x.1.
Proof.
  destruct x as [k d]. destruct (findItem _ _); [|done]. by intros [= <-].
Qed.

(** Every row is written at most once. *)
Lemma inventoryUpdates_NoDup : NoDup (inventoryUpdates st).*1.
Proof.
  apply omap_keys_NoDup; [apply request_key|]. apply NoDup_fst_map_to_list.
Qed.

Lemma inventoryUpdates_lookup k :
  (list_to_map (inventoryUpdates st) : gmap string Qc) !! k
  = (ingredientDeductions st !! k) ≫= (fun d => snd <$> request (k, d)).
Proof.
  apply option_eq. intros q.
  rewrite <- (elem_of_list_to_map _ _ _ inventoryUpdates_NoDup).
  unfold inventoryUpdates. rewrite list_elem_of_omap. split.
  - intros ([k' d] & Hin & Hreq). apply elem_of_map_to_list in Hin.
    pose proof (request_key (k', d) (k, q) Hreq) as Hk. simpl in Hk. subst k'.
    rewrite Hin. simpl. by rewrite Hreq.
  - intros Hq. destruct (ingredientDeductions st !! k) as [d|] eqn:Hd; [|done].
    simpl in Hq. exists (k, d). split; [by apply elem_of_map_to_list|].
    destruct (request (k, d)) as [y|] eqn:Hy; [|done].
    pose proof (request_key (k, d) y Hy) as Hk. destruct y as [k' q']. simpl in *.
    congruence.
Qed.

Lemma applyRequests_rowAfterCheckout row :
  applyRequests (list_to_map (inventoryUpdates st)) row = rowAfterCheckout st row.
Proof.
  unfold applyRequests, rowAfterCheckout.
  rewrite inventoryUpdates_lookup, ingredientDeductions_lookup.
  destruct (ingredientUsed st (InventoryItem.id row)); simpl.
  - destruct (findItem _ _) as [item|]; simpl; [|done].
    unfold deductionInStorageUnit.
    destruct (InventoryItem.unit_type item); by case_decide.
  - by destruct (findItem _ _).
Qed.
End Requests.

Lemma handleCheckout_succeeded_products svc tx st db :
  checkoutSucceeded (handleCheckout svc tx st db) →
  products (handleCheckout svc tx st db).1.2
  = List.map (rowAfterCheckout st) (products db).
Proof.
  intros Hok. destruct (handleCheckout_succeeded_inv _ _ _ _ Hok) as (_ & _ & Hupd & ->).
  simpl. rewrite (runUpdate_fold _ _ _ (inventoryUpdates_NoDup st) Hupd).
  apply List.map_ext, applyRequests_rowAfterCheckout.
Qed.

(** ** The flour example *)

Lemma flourPage_preconditions : checkoutPreconditions flourPage.
Proof. apply checkoutValidation_None. vm_compute. reflexivity. Qed.

Lemma flourPage_requests_accepted :
  existsb (fun req => updateFails serviceOk req.1) (inventoryUpdates flourPage) = false.
Proof. vm_compute. reflexivity. Qed.

Lemma flour_checkout_events :
  (handleCheckout serviceOk "tx" flourPage flourDb).2
  = [addRecentSale flourSaleA; toast_sale_completed (cartTotal flourCart); fetchData].
Proof.
  rewrite (handleCheckout_valid _ _ _ _ flourPage_preconditions).
  unfold checkoutCommit. simpl insertFails. cbv iota.
  rewrite flourPage_requests_accepted. reflexivity.
Qed.

Lemma flour_checkout_succeeded :
  checkoutSucceeded (handleCheckout serviceOk "tx" flourPage flourDb).
Proof.
  exists (cartTotal flourCart). rewrite flour_checkout_events.
  apply list_elem_of_further, list_elem_of_here.
Qed.

(** * Partial failure of the checkout *)

Lemma existsb_updateFails svc (reqs : list (string * Qc)) :
  (∃ req, req ∈ reqs ∧ updateFails svc req.1 = true) →
  existsb (fun req => updateFails svc req.1) reqs = true.
Proof.
  intros (req & Hin & Hf). apply existsb_exists. exists req.
  split; [by apply list_elem_of_In | done].
Qed.

Lemma not_succeeded_error msg st db :
  ¬ checkoutSucceeded (st, db, [toast_error msg]).
Proof.
  intros [total Hin]. simpl in Hin. apply list_elem_of_singleton in Hin. discriminate.
Qed.

(** Whatever happens short of success, the page keeps its cart and its
    selections. *)
Lemma handleCheckout_not_succeeded svc tx st db :
  ¬ checkoutSucceeded (handleCheckout svc tx st db) →
  ∃ msg, (handleCheckout svc tx st db).2 = [toast_error msg]
         ∧ ((handleCheckout svc tx st db).1.1 = st
            ∨ (handleCheckout svc tx st db).1.1 = setIsCheckingOut false st).
Proof.
  unfold handleCheckout.
  destruct (checkoutValidation st) as [msg|]; [intros _; exists msg; auto|].
  unfold checkoutCommit.
  destruct (insertFails svc); [intros _; eexists; simpl; eauto|]. simpl.
  destruct (existsb _ _); [intros _; eexists; simpl; eauto|].
  intros Hno. exfalso. apply Hno. exists (cartTotal (cart st)). simpl.
  apply elem_of_app. right. apply list_elem_of_here.
Qed.

(** C6. When the preconditions hold, the insert of the sale records is
    accepted and at least one inventory update is rejected, the checkout
    ends with the failure toast and is not a success, while the table [sales]
    keeps the records inserted before (nothing removes them).  The cart and
    the three selections are emptied exactly when the checkout succeeds: in
    every other outcome they are what they were. *)
Theorem checkout_partial_failure (svc : Service) (tx : string) (st : PageState) (db : Db) :
  let r := handleCheckout svc tx st db in
  (checkoutPreconditions st →
   insertFails svc = false →
   (∃ req, req ∈ inventoryUpdates st ∧ updateFails svc req.1 = true) →
   checkoutFailed r ∧ ¬ checkoutSucceeded r
   ∧ sales r.1.2 = (sales db ++ saleRecords st tx)%list
   ∧ saleRecords st tx ≠ [])
  ∧ (¬ checkoutSucceeded r →
     cart r.1.1 = cart st
     ∧ selectedPaymentMethod r.1.1 = selectedPaymentMethod st
     ∧ selectedCustomerType r.1.1 = selectedCustomerType st
     ∧ selectedDineInTakeout r.1.1 = selectedDineInTakeout st)
  ∧ (checkoutSucceeded r →
     cart r.1.1 = []
     ∧ selectedPaymentMethod r.1.1 = ""
     ∧ selectedCustomerType r.1.1 = ""
     ∧ selectedDineInTakeout r.1.1 = None).
Proof.
  intros r. split; [|split].
  - intros Hpre Hins Hupd. unfold r.
    rewrite (handleCheckout_valid _ _ _ _ Hpre). unfold checkoutCommit.
    rewrite Hins. simpl. rewrite (existsb_updateFails _ _ Hupd).
    split; [done|]. split; [apply not_succeeded_error|]. split; [done|].
    destruct Hpre as [Hcart _]. unfold saleRecords.
    destruct (cart st); [done | discriminate].
  - intros Hno. destruct (handleCheckout_not_succeeded _ _ _ _ Hno) as (msg & _ & [Hst|Hst]);
      unfold r; rewrite Hst; done.
  - intros Hok. destruct (handleCheckout_succeeded_inv _ _ _ _ Hok) as (_ & _ & _ & Heq).
    unfold r. rewrite Heq. done.
Qed.

Lemma flourPage_update_rejected :
  ∃ req, req ∈ inventoryUpdates flourPage ∧ updateFails serviceUpdatesDown req.1 = true.
Proof.
  assert (Hex : ∃ req, req ∈ inventoryUpdates flourPage).
  { destruct (inventoryUpdates flourPage) as [|req reqs] eqn:Hreqs.
    - exfalso. by vm_compute in Hreqs.
    - exists req. apply list_elem_of_here. }
  destruct Hex as [req Hin]. exists req. split; [done | reflexivity].
Qed.

Lemma checkout_partial_failure_witness :
  checkoutPreconditions flourPage
  ∧ insertFails serviceUpdatesDown = false
  ∧ (∃ req, req ∈ inventoryUpdates flourPage ∧ updateFails serviceUpdatesDown req.1 = true)
  ∧ checkoutFailed (handleCheckout serviceUpdatesDown "tx" flourPage flourDb)
  ∧ sales (handleCheckout serviceUpdatesDown "tx" flourPage flourDb).1.2
    = (sales flourDb ++ saleRecords flourPage "tx")%list.
Proof.
  split; [apply flourPage_preconditions|]. split; [reflexivity|].
  split; [apply flourPage_update_rejected|].
  destruct (proj1 (checkout_partial_failure serviceUpdatesDown "tx" flourPage flourDb)
              flourPage_preconditions eq_refl flourPage_update_rejected)
    as (Hfail & _ & Hsales & _).
  split; [exact Hfail | exact Hsales].
Defined.

(** * Cost snapshot of the sale records *)

Lemma canSellLoop_found st productId qty lines ing :
  canSellLoop st productId qty lines = true →
  ing ∈ lines →
  is_Some (findItem (inventoryItems st) (ProductIngredient.item_id ing)).
Proof.
  induction lines as [|l lines IH]; simpl; intros Hloop Hin.
  - by apply elem_of_nil in Hin.
  - destruct (findItem _ (ProductIngredient.item_id l)) as [item|] eqn:Hitem; [|done].
    case_decide; [done|].
    apply elem_of_cons in Hin as [->|Hin]; [by rewrite Hitem | by apply IH].
Qed.

Lemma canSellProduct_found st productId qty ing :
  canSellProduct st productId qty = true →
  ing ∈ ingredientsOf st productId →
  is_Some (findItem (inventoryItems st) (ProductIngredient.item_id ing)).
Proof.
  unfold canSellProduct. destruct (ingredientsOf st productId) as [|l lines] eqn:Hl.
  - done.
  - apply canSellLoop_found.
Qed.

Lemma calculateProductCost_spec st productId :
  (∀ ing, ing ∈ ingredientsOf st productId →
     is_Some (findItem (inventoryItems st) (ProductIngredient.item_id ing))) →
  productCost st productId = Some (calculateProductCost st productId).
Proof.
  intros Hall. unfold productCost, calculateProductCost.
  rewrite Qcsum_fold_left, Qcplus_0_l.
  set (term := fun ing : ProductIngredient.t =>
                 match findItem (inventoryItems st) (ProductIngredient.item_id ing) with
                 | Some item => InventoryItem.cost item * ProductIngredient.qty ing
                 | None => 0
                 end).
  assert (mapM (ingredientCost st) (ingredientsOf st productId)
          = Some (List.map term (ingredientsOf st productId))) as ->; [|done].
  apply mapM_Some_2.
  induction (ingredientsOf st productId) as [|ing lines IH]; simpl; constructor.
  - unfold ingredientCost, term.
    destruct (Hall ing) as [item ->]; [by left | done].
  - apply IH. intros ing' Hin. apply Hall. by right.
Qed.

Lemma saleRecords_cost st tx r :
  r ∈ saleRecords st tx →
  ∃ item, item ∈ cart st
          ∧ Sale.product_id r = cartId item
          ∧ Sale.cost r = calculateProductCost st (cartId item)
          ∧ Sale.qty r = CartItem.quantity item.
Proof.
  unfold saleRecords. intros Hin. apply list_elem_of_In, in_map_iff in Hin.
  destruct Hin as (item & <- & Hin). exists item.
  split; [by apply list_elem_of_In | done].
Qed.


Lemma flour_checkout_sales :
  sales (handleCheckout serviceOk "tx" flourPage flourDb).1.2 = saleRecords flourPage "tx".
Proof.
  destruct (handleCheckout_succeeded_inv _ _ _ _ flour_checkout_succeeded)
    as (_ & _ & _ & ->).
  reflexivity.
Qed.

Lemma flourSaleA_inserted :
  flourSaleA ∈ sales (handleCheckout serviceOk "tx" flourPage flourDb).1.2.
Proof. rewrite flour_checkout_sales. apply list_elem_of_here. Qed.

Lemma flourSaleA_cost : Sale.cost flourSaleA = Q2Qc 2.
Proof. qc_compute. Qed.


(** * The boolean check *)

Section CanSell.
Variable st : PageState.
Variable productId : string.
Variable qty : Qc.

Local Abbreviation lineFails := (lineFails st productId qty).

Lemma canSellLoop_false lines :
  canSellLoop st productId qty lines = false ↔ ∃ ing, ing ∈ lines ∧ lineFails ing.
Proof.
  induction lines as [|l lines IH]; simpl.
  - split; [done|]. intros (ing & Hin & _). by apply elem_of_nil in Hin.
  - unfold lineFails at 1.
    destruct (findItem _ (ProductIngredient.item_id l)) as [item|] eqn:Hitem.
    + rewrite getInventoryInIngredientUnit_spec, cartReserved_spec.
      case_decide as Hlt.
      * split; [|done]. intros _. exists l. split; [by left|].
        unfold lineFails. by rewrite Hitem.
      * rewrite IH. split.
        -- intros (ing & Hin & Hf). exists ing. split; [by right | done].
        -- intros (ing & Hin & Hf). apply elem_of_cons in Hin as [->|Hin]; [|eauto].
           unfold lineFails in Hf. by rewrite Hitem in Hf.
    + split; [|done]. intros _. exists l. split; [by left|].
      unfold lineFails. by rewrite Hitem.
Qed.

Lemma canSellProduct_false :
  canSellProduct st productId qty = false
  ↔ ingredientsOf st productId = []
    ∨ ∃ ing, ing ∈ ingredientsOf st productId ∧ lineFails ing.
Proof.
  unfold canSellProduct.
  destruct (ingredientsOf st productId) as [|l lines] eqn:Hl.
  - split; [by left | done].
  - rewrite canSellLoop_false. split; [by right|].
    by intros [?|?].
Qed.
End CanSell.

(** * The cart *)

(** ** What the availability functions read from the state *)

Lemma cartReserved_ext st1 st2 productId itemId :
  productIngredients st1 = productIngredients st2 →
  List.filter (fun c => negb (String.eqb (cartId c) productId)) (cart st1)
  = List.filter (fun c => negb (String.eqb (cartId c) productId)) (cart st2) →
  cartReserved st1 productId itemId = cartReserved st2 productId itemId.
Proof.
  intros Hrec Hcart. unfold cartReserved. rewrite Hcart.
  assert (Hstep : ∀ a c, reserveStep st1 itemId a c = reserveStep st2 itemId a c).
  { intros a c. unfold reserveStep, ingredientsOf. by rewrite Hrec. }
  clear Hcart. generalize (Q2Qc 0).
  induction (List.filter _ (cart st2)) as [|c l IH]; intros a; simpl; [done|].
  by rewrite IH, Hstep.
Qed.

Section Ext.
Variables st1 st2 : PageState.
Variable productId : string.
Hypothesis Hitems : inventoryItems st1 = inventoryItems st2.
Hypothesis Hrecipes : productIngredients st1 = productIngredients st2.
Hypothesis Hothers :
  List.filter (fun c => negb (String.eqb (cartId c) productId)) (cart st1)
  = List.filter (fun c => negb (String.eqb (cartId c) productId)) (cart st2).

Lemma ingredientsOf_ext p : ingredientsOf st1 p = ingredientsOf st2 p.
Proof. unfold ingredientsOf. by rewrite Hrecipes. Qed.

Lemma maxQtyLoop_ext lines acc :
  maxQtyLoop st1 productId lines acc = maxQtyLoop st2 productId lines acc.
Proof.
  revert acc. induction lines as [|ing rest IH]; intros acc; simpl; [done|].
  rewrite Hitems. destruct (findItem _ _); [|done]. case_decide; [done|].
  by rewrite IH, (cartReserved_ext st1 st2 _ _ Hrecipes Hothers).
Qed.

Lemma getMaxQuantity_ext :
  getMaxQuantity st1 productId = getMaxQuantity st2 productId.
Proof.
  unfold getMaxQuantity. rewrite ingredientsOf_ext.
  destruct (ingredientsOf st2 productId); [done|]. by rewrite maxQtyLoop_ext.
Qed.

Lemma canSellLoop_ext qty lines :
  canSellLoop st1 productId qty lines = canSellLoop st2 productId qty lines.
Proof.
  induction lines as [|ing rest IH]; simpl; [done|].
  rewrite Hitems. destruct (findItem _ _); [|done].
  by rewrite IH, (cartReserved_ext st1 st2 _ _ Hrecipes Hothers).
Qed.

Lemma canSellProduct_ext qty :
  canSellProduct st1 productId qty = canSellProduct st2 productId qty.
Proof.
  unfold canSellProduct. rewrite ingredientsOf_ext.
  destruct (ingredientsOf st2 productId); [done|]. by rewrite canSellLoop_ext.
Qed.
End Ext.

Lemma getMaxQuantity_setQuantity q st productId :
  getMaxQuantity (setQuantity q st) productId = getMaxQuantity st productId.
Proof. by apply getMaxQuantity_ext. Qed.

(** ** Self-exclusion *)

Lemma filter_others_own_line productId (pre post : list CartItem.t) (l l' : CartItem.t) :
  cartId l = productId → cartId l' = productId →
  List.filter (fun c => negb (String.eqb (cartId c) productId)) (pre ++ l' :: post)
  = List.filter (fun c => negb (String.eqb (cartId c) productId)) (pre ++ l :: post).
Proof.
  intros Hl Hl'. rewrite !List.filter_app. simpl.
  by rewrite Hl, Hl', String.eqb_refl.
Qed.

(** C5. For a cart with a line [l] for product P, the results of
    [getMaxQuantity] and [canSellProduct] for P are the same whatever the
    quantity of [l]: the reservations are summed over the lines of the other
    products only. *)
Theorem own_line_excluded (st : PageState) (pre post : list CartItem.t)
    (l : CartItem.t) (q' : Qc) :
  cart st = (pre ++ l :: post)%list →
  let st' := setCart (pre ++ withQuantity q' l :: post)%list st in
  getMaxQuantity st' (cartId l) = getMaxQuantity st (cartId l)
  ∧ ∀ q, canSellProduct st' (cartId l) q = canSellProduct st (cartId l) q.
Proof.
  intros Hcart st'.
  assert (Hothers :
    List.filter (fun c => negb (String.eqb (cartId c) (cartId l))) (cart st')
    = List.filter (fun c => negb (String.eqb (cartId c) (cartId l))) (cart st)).
  { rewrite Hcart. by apply filter_others_own_line. }
  split.
  - by apply getMaxQuantity_ext.
  - intros q. by apply canSellProduct_ext.
Qed.

Lemma own_line_excluded_witness :
  cart flourPage = ([] ++ CartItem.mk productA (Q2Qc 2) recipeA
                       :: [CartItem.mk productB 1 recipeB])%list
  ∧ getMaxQuantity
      (setCart [CartItem.mk productA (Q2Qc 5) recipeA; CartItem.mk productB 1 recipeB]
               flourPage) "A"
    = getMaxQuantity flourPage "A".
Proof.
  split; [reflexivity|].
  exact (proj1 (own_line_excluded flourPage [] [CartItem.mk productB 1 recipeB]
                  (CartItem.mk productA (Q2Qc 2) recipeA) (Q2Qc 5) eq_refl)).
Defined.

(** ** [addToCart] *)

Lemma getMaxQuantity_pos_lines st productId :
  0 < getMaxQuantity st productId → ingredientsOf st productId ≠ [].
Proof.
  intros Hpos Hnil. rewrite (getMaxQuantity_no_lines _ _ Hnil) in Hpos.
  by apply (Qclt_not_eq 0 0).
Qed.

Lemma addToCart_accepted st p :
  addToCartAccepts st p →
  addToCart st
  = match list_find (fun item => cartId item = FinishedProduct.id p) (cart st) with
    | Some (existingIndex, _) =>
      (closeProductModal
         (setCart (alter (withQuantity (quantity st)) existingIndex (cart st)) st),
       [toast_success "Cart updated"])
    | None =>
      (closeProductModal
         (setCart (cart st ++ [CartItem.mk p (quantity st)
                                 (ingredientsOf st (FinishedProduct.id p))])%list st),
       [toast_success "Added to cart"])
    end.
Proof.
  intros (Hsel & Hpos & Hmax). unfold addToCart. rewrite Hsel.
  case_decide as Hle. { exfalso. by apply (Qcle_not_lt _ _ Hle). }
  case_decide as Hlt. { exfalso. by apply (Qcle_not_lt _ _ Hmax). }
  assert (ingredientsOf st (FinishedProduct.id p) ≠ []) as Hlines.
  { apply getMaxQuantity_pos_lines. by eapply Qclt_le_trans. }
  destruct (ingredientsOf st (FinishedProduct.id p)); [done|].
  by destruct (list_find _ _) as [[i old]|].
Qed.

Lemma addToCart_rejected st p :
  selectedProduct st = Some p →
  quantity st ≤ 0 ∨ getMaxQuantity st (FinishedProduct.id p) < quantity st →
  ∃ msg, addToCart st = (st, [toast_error msg]).
Proof.
  intros Hsel Hq. unfold addToCart. rewrite Hsel.
  case_decide as Hle; [eauto|].
  case_decide as Hlt; [eauto|].
  by destruct Hq.
Qed.

Lemma Qclt_succ (m : Qc) : m < m + 1.
Proof.
  rewrite <- (Qcplus_0_r m) at 1. apply Qcplus_lt_mono_l. done.
Qed.

(** C4 (amended). With product P in the modal and M = getMaxQuantity(P):
    if M > 0, [addToCart] with the quantity M is accepted: a cart without a
    line for P gets the new line at its end, and otherwise the first line for
    P gets the quantity M; with the quantity M + 1, or a quantity <= 0,
    [addToCart] raises an error toast and leaves the whole state (cart,
    payment method, customer type, dine-in choice) as it was. *)
Theorem addToCart_at_the_limit (st : PageState) (p : FinishedProduct.t) :
  selectedProduct st = Some p →
  let m := getMaxQuantity st (FinishedProduct.id p) in
  (0 < m →
   let r := addToCart (setQuantity m st) in
   (∃ msg, r.2 = [toast_success msg])
   ∧ ((∀ item, item ∈ cart st → cartId item ≠ FinishedProduct.id p) →
      cart r.1 = (cart st ++ [CartItem.mk p m (ingredientsOf st (FinishedProduct.id p))])%list)
   ∧ (∀ i old,
        cart st !! i = Some old → cartId old = FinishedProduct.id p →
        (∀ j y, cart st !! j = Some y → (j < i)%nat → cartId y ≠ FinishedProduct.id p) →
        cart r.1 = <[i := withQuantity m old]> (cart st)))
  ∧ (∀ q, q = m + 1 ∨ q ≤ 0 →
       ∃ msg, addToCart (setQuantity q st) = (setQuantity q st, [toast_error msg])).
Proof.
  intros Hsel m. split.
  - intros Hpos r.
    assert (Hacc : addToCartAccepts (setQuantity m st) p).
    { split; [done|]. split; [done|]. simpl.
      rewrite getMaxQuantity_setQuantity. apply Qcle_refl. }
    unfold r. rewrite (addToCart_accepted _ _ Hacc). simpl.
    destruct (list_find _ (cart st)) as [[k old']|] eqn:Hfind; simpl.
    + apply list_find_Some in Hfind as (Hk & Hid & Hfirst).
      split; [eauto|]. split.
      * intros Hnone. exfalso. apply (Hnone old'); [|done].
        by eapply list_elem_of_lookup_2.
      * intros i old Hi Hold Hbefore.
        assert (i = k) as ->.
        { destruct (Nat.lt_trichotomy i k) as [Hlt|[?|Hlt]]; [|done|].
          - exfalso. by apply (Hfirst i old).
          - exfalso. by apply (Hbefore k old'). }
        assert (old' = old) as -> by congruence.
        rewrite list_insert_alter. apply list_eq. intros j.
        rewrite !list_lookup_alter. case_decide; [|done].
        subst j. by rewrite Hi.
    + apply list_find_None in Hfind. rewrite Forall_forall in Hfind.
      split; [eauto|]. split; [done|].
      intros i old Hi Hold _. exfalso. apply (Hfind old); [|done].
      by eapply list_elem_of_lookup_2.
  - intros q Hq. apply (addToCart_rejected _ p); [done|]. simpl.
    rewrite getMaxQuantity_setQuantity.
    destruct Hq as [-> | Hle]; [right; apply Qclt_succ | by left].
Qed.

Lemma flourPageA_max_pos : 0 < getMaxQuantity flourPageA "A".
Proof. unfold Qclt. vm_compute. reflexivity. Qed.

Lemma addToCart_at_the_limit_witness :
  selectedProduct flourPageA = Some productA
  ∧ 0 < getMaxQuantity flourPageA "A"
  ∧ ∃ msg, (addToCart (setQuantity (getMaxQuantity flourPageA "A") flourPageA)).2
           = [toast_success msg].
Proof.
  split; [reflexivity|]. split; [apply flourPageA_max_pos|].
  exact (proj1 (proj1 (addToCart_at_the_limit flourPageA productA eq_refl)
                  flourPageA_max_pos)).
Defined.

(** C4, as stated, fails when the maximum is 0: with 100 g of flour left the
    maximum of product A is 0, and [addToCart] with the quantity 0 is turned
    down by the check [quantity <= 0]. *)
Lemma addToCart_limit_zero_rejected :
  selectedProduct soldOutPage = Some productA
  ∧ quantity soldOutPage = getMaxQuantity soldOutPage "A"
  ∧ addToCart soldOutPage
    = (soldOutPage, [toast_error "Please enter a valid quantity"]).
Proof.
  split; [reflexivity|]. split.
  - qc_compute.
  - unfold addToCart. simpl selectedProduct. cbv iota.
    case_decide as Hle; [done|]. exfalso. apply Hle. apply Qcle_refl.
Qed.

(** ** One line per product *)

Lemma uniqueLines_filter (f : CartItem.t → bool) (c : list CartItem.t) :
  uniqueLines c → uniqueLines (List.filter f c).
Proof.
  unfold uniqueLines. induction c as [|x c IH]; simpl; [done|].
  rewrite NoDup_cons. intros [Hx Hc]. destruct (f x); [|by apply IH].
  simpl. apply NoDup_cons. split; [|by apply IH].
  intros Hin. apply Hx. apply list_elem_of_fmap in Hin as (y & Hy & Hin).
  apply list_elem_of_fmap. exists y. split; [done|].
  apply list_elem_of_In, List.filter_In in Hin as [Hin _]. by apply list_elem_of_In.
Qed.

Lemma cartId_map (g : CartItem.t → CartItem.t) (c : list CartItem.t) :
  (∀ x, cartId (g x) = cartId x) → cartId <$> List.map g c = cartId <$> c.
Proof.
  intros Hg. induction c as [|x c IH]; [done|].
  cbn [List.map]. rewrite !fmap_cons, Hg. by f_equal.
Qed.

Lemma cartId_alter q (i : nat) (c : list CartItem.t) :
  cartId <$> alter (withQuantity q) i c = cartId <$> c.
Proof.
  rewrite (list_fmap_alter cartId (withQuantity q) id).
  - apply list_eq. intros j. rewrite list_lookup_alter.
    case_decide; [|done]. subst j. by destruct (_ !! i).
  - by apply Forall_forall.
Qed.

Lemma addToCart_cart_cases st :
  cart (addToCart st).1 = cart st ∨ ∃ p, addToCartAccepts st p.
Proof.
  unfold addToCart. destruct (selectedProduct st) as [p|] eqn:Hsel; [|by left].
  case_decide as Hle; [by left|]. case_decide as Hlt; [by left|].
  right. exists p. split; [done|].
  split; [by apply Qcnot_le_lt | by apply Qcnot_lt_le].
Qed.

Lemma removeFromCart_cart st productId :
  cart (removeFromCart st productId).1
  = List.filter (fun item => negb (String.eqb (cartId item) productId)) (cart st).
Proof. reflexivity. Qed.

Lemma filter_removes productId (c : list CartItem.t) :
  productId ∉ cartId <$> List.filter (fun item => negb (String.eqb (cartId item) productId)) c.
Proof.
  intros Hin. apply list_elem_of_fmap in Hin as (item & Hid & Hin).
  apply list_elem_of_In, List.filter_In in Hin as [_ Hneq].
  rewrite <- Hid, String.eqb_refl in Hneq. done.
Qed.

Lemma updateCartQuantity_unique st productId newQuantity :
  uniqueLines (cart st) → uniqueLines (cart (updateCartQuantity st productId newQuantity).1).
Proof.
  intros Huniq. unfold updateCartQuantity.
  case_decide; [by apply uniqueLines_filter|].
  case_decide; [done|]. simpl. unfold uniqueLines.
  rewrite cartId_map; [done|]. intros x. by destruct (String.eqb _ _).
Qed.

Lemma addToCart_unique st :
  uniqueLines (cart st) → uniqueLines (cart (addToCart st).1).
Proof.
  intros Huniq. destruct (addToCart_cart_cases st) as [-> | [p Hacc]]; [done|].
  rewrite (addToCart_accepted _ _ Hacc).
  destruct (list_find _ (cart st)) as [[i old]|] eqn:Hfind; simpl; unfold uniqueLines.
  - by rewrite cartId_alter.
  - apply list_find_None in Hfind. rewrite Forall_forall in Hfind.
    rewrite fmap_app. apply NoDup_app. split; [done|]. split; [|apply NoDup_singleton].
    intros pid Hin Hnew. apply list_elem_of_singleton in Hnew. simpl in Hnew. subst pid.
    apply list_elem_of_fmap in Hin as (item & Hid & Hin). by apply (Hfind item).
Qed.

(** The accepted [addToCart] of a product that has a line: the product ids of
    the cart are the same, in the same order, and the line carries the new
    quantity. *)
Lemma addToCart_overwrites st p :
  uniqueLines (cart st) →
  addToCartAccepts st p →
  FinishedProduct.id p ∈ cartId <$> cart st →
  cartId <$> cart (addToCart st).1 = cartId <$> cart st
  ∧ ∀ item, item ∈ cart (addToCart st).1 → cartId item = FinishedProduct.id p →
      CartItem.quantity item = quantity st.
Proof.
  intros Huniq Hacc Hin. rewrite (addToCart_accepted _ _ Hacc).
  destruct (list_find _ (cart st)) as [[k old]|] eqn:Hfind; simpl.
  - apply list_find_Some in Hfind as (Hk & Hid & _).
    split; [apply cartId_alter|].
    intros item Hitem Hitemid.
    apply list_elem_of_lookup in Hitem as [j Hj].
    rewrite list_lookup_alter in Hj. case_decide as Hjk.
    + subst j. rewrite Hk in Hj. simpl in Hj. by injection Hj as <-.
    + exfalso. apply Hjk.
      apply (NoDup_lookup _ k j (FinishedProduct.id p) Huniq).
      * by rewrite list_lookup_fmap, Hk, <- Hid.
      * by rewrite list_lookup_fmap, Hj, <- Hitemid.
  - exfalso. apply list_find_None in Hfind. rewrite Forall_forall in Hfind.
    apply list_elem_of_fmap in Hin as (item & Hid & Hin). by apply (Hfind item).
Qed.

(** C9. From a cart with at most one line per product id, [addToCart],
    [updateCartQuantity], [removeFromCart] and [clearCart] all lead to such a
    cart.  An accepted [addToCart] of a product that is in the cart keeps the
    list of product ids and gives the line of the product the new quantity;
    [updateCartQuantity] with a quantity <= 0 leaves no line for the
    product. *)
Theorem cart_lines_stay_unique (st : PageState) :
  uniqueLines (cart st) →
  uniqueLines (cart (addToCart st).1)
  ∧ (∀ productId q, uniqueLines (cart (updateCartQuantity st productId q).1))
  ∧ (∀ productId, uniqueLines (cart (removeFromCart st productId).1))
  ∧ uniqueLines (cart (clearCart st))
  ∧ (∀ p, addToCartAccepts st p →
       FinishedProduct.id p ∈ cartId <$> cart st →
       cartId <$> cart (addToCart st).1 = cartId <$> cart st
       ∧ ∀ item, item ∈ cart (addToCart st).1 → cartId item = FinishedProduct.id p →
           CartItem.quantity item = quantity st)
  ∧ (∀ productId q, q ≤ 0 →
       productId ∉ cartId <$> cart (updateCartQuantity st productId q).1).
Proof.
  intros Huniq. split; [by apply addToCart_unique|].
  split; [intros; by apply updateCartQuantity_unique|].
  split; [intros; by apply uniqueLines_filter|].
  split; [apply NoDup_nil_2|].
  split; [intros; by apply addToCart_overwrites|].
  intros productId q Hq. unfold updateCartQuantity.
  case_decide; [|done]. apply filter_removes.
Qed.

Lemma flourCart_unique : uniqueLines (cart flourPageA).
Proof.
  unfold uniqueLines. simpl.
  apply NoDup_cons. split.
  - intros Hin. apply list_elem_of_singleton in Hin. discriminate.
  - apply NoDup_singleton.
Qed.

Lemma cart_lines_stay_unique_witness :
  uniqueLines (cart flourPageA) ∧ uniqueLines (cart (addToCart flourPageA).1).
Proof.
  split; [apply flourCart_unique|].
  exact (proj1 (cart_lines_stay_unique flourPageA flourCart_unique)).
Defined.

(** * Loading the recipes *)

Lemma groupStep_lookup acc ing p :
  groupStep acc ing !! p
  = if decide (ProductIngredient.product_id ing = p)
    then Some (default [] (acc !! p) ++ [ing])%list
    else acc !! p.
Proof.
  unfold groupStep. case_decide as Hp.
  - subst p. destruct (acc !! ProductIngredient.product_id ing) as [l|] eqn:Hl.
    + by rewrite lookup_alter_eq, Hl.
    + by rewrite lookup_alter_eq, lookup_insert_eq.
  - rewrite lookup_alter_ne by done.
    destruct (acc !! ProductIngredient.product_id ing); [done|].
    by rewrite lookup_insert_ne.
Qed.

Lemma groupStep_fold_lookup rows acc p :
  fold_left groupStep rows acc !! p
  = if existsb (fun ing => String.eqb (ProductIngredient.product_id ing) p) rows
    then Some (default [] (acc !! p)
               ++ List.filter (fun ing => String.eqb (ProductIngredient.product_id ing) p) rows)%list
    else acc !! p.
Proof.
  revert acc. induction rows as [|ing rows IH]; intros acc; simpl; [done|].
  rewrite IH, groupStep_lookup.
  destruct (String.eqb_spec (ProductIngredient.product_id ing) p) as [Heq|Hne]; simpl.
  - rewrite decide_True by done. simpl.
    destruct (existsb _ rows) eqn:Hex.
    + by rewrite <- List.app_assoc.
    + by rewrite (filter_existsb_false _ _ Hex).
  - by rewrite decide_False.
Qed.

Lemma ingredientsOf_grouped rows st p :
  ingredientsOf (setProductIngredients (groupIngredients rows) st) p
  = List.filter (fun ing => String.eqb (ProductIngredient.product_id ing) p) rows.
Proof.
  unfold ingredientsOf, groupIngredients. simpl.
  rewrite groupStep_fold_lookup, lookup_empty. simpl.
  destruct (existsb _ rows) eqn:Hex; [done|].
  by rewrite (filter_existsb_false _ _ Hex).
Qed.

(** X1. After [fetchData] has grouped the rows of [product_ingredients], the
    recipe of a product is the list of the rows with its product id, in the
    order of the rows; a product id is a key of the grouping exactly when some
    row carries it. *)
Theorem groupIngredients_lookup (rows : list ProductIngredient.t) (st : PageState)
    (p : string) :
  ingredientsOf (setProductIngredients (groupIngredients rows) st) p
  = List.filter (fun ing => String.eqb (ProductIngredient.product_id ing) p) rows
  ∧ (is_Some (groupIngredients rows !! p)
     ↔ ∃ ing, ing ∈ rows ∧ ProductIngredient.product_id ing = p).
Proof.
  split; [apply ingredientsOf_grouped|].
  unfold groupIngredients. rewrite groupStep_fold_lookup, lookup_empty.
  destruct (existsb _ rows) eqn:Hex.
  - split; [|eauto]. intros _.
    apply existsb_exists in Hex as (ing & Hin & Heq).
    exists ing. split; [by apply list_elem_of_In | by apply String.eqb_eq].
  - split.
    + by intros [? ?].
    + intros (ing & Hin & Heq). exfalso.
      assert (existsb (fun ing => String.eqb (ProductIngredient.product_id ing) p) rows = true)
        as Ht; [|congruence].
      apply existsb_exists. exists ing.
      split; [by apply list_elem_of_In | by apply String.eqb_eq].
Qed.

(** X2. A product none of the loaded rows belongs to is never available:
    its maximum is 0, [canSellProduct] refuses every quantity, its card is
    disabled and it is not among [availableProducts]. *)
Theorem product_without_rows_unavailable (rows : list ProductIngredient.t)
    (st : PageState) (p : FinishedProduct.t) (products : list FinishedProduct.t) :
  (∀ ing, ing ∈ rows → ProductIngredient.product_id ing ≠ FinishedProduct.id p) →
  let st' := setProductIngredients (groupIngredients rows) st in
  getMaxQuantity st' (FinishedProduct.id p) = 0
  ∧ (∀ q, canSellProduct st' (FinishedProduct.id p) q = false)
  ∧ isAvailable st' p = false
  ∧ p ∉ availableProducts st' products.
Proof.
  intros Hrows st'.
  assert (Hnil : ingredientsOf st' (FinishedProduct.id p) = []).
  { unfold st'. rewrite ingredientsOf_grouped.
    apply filter_existsb_false. apply not_true_is_false. intros Hex.
    apply existsb_exists in Hex as (ing & Hin & Heq).
    apply (Hrows ing); [by apply list_elem_of_In | by apply String.eqb_eq]. }
  assert (Hmax : getMaxQuantity st' (FinishedProduct.id p) = 0)
    by by apply getMaxQuantity_no_lines.
  split; [done|]. split; [|split].
  - intros q. apply canSellProduct_false. by left.
  - unfold isAvailable. rewrite Hmax. by apply bool_decide_eq_false_2.
  - intros Hin. unfold availableProducts in Hin.
    apply list_elem_of_In, List.filter_In in Hin as [_ Hf]. by rewrite Hnil in Hf.
Qed.

Lemma recipeRows_none_for_C ing :
  ing ∈ recipeRows → ProductIngredient.product_id ing ≠ FinishedProduct.id productC.
Proof.
  unfold recipeRows. intros Hin.
  apply elem_of_cons in Hin as [->|Hin]; [discriminate|].
  apply list_elem_of_singleton in Hin as ->. discriminate.
Qed.

Lemma product_without_rows_unavailable_witness :
  (∀ ing, ing ∈ recipeRows →
     ProductIngredient.product_id ing ≠ FinishedProduct.id productC)
  ∧ getMaxQuantity (setProductIngredients (groupIngredients recipeRows) flourPage)
                   (FinishedProduct.id productC) = 0.
Proof.
  split; [apply recipeRows_none_for_C|].
  exact (proj1 (product_without_rows_unavailable recipeRows flourPage productC []
                  recipeRows_none_for_C)).
Defined.

Lemma groupIngredients_lookup_witness :
  (∃ ing, ing ∈ recipeRows ∧ ProductIngredient.product_id ing = "A")
  ∧ is_Some (groupIngredients recipeRows !! "A").
Proof.
  assert (H : ∃ ing, ing ∈ recipeRows ∧ ProductIngredient.product_id ing = "A").
  { eexists. split; [apply list_elem_of_here | reflexivity]. }
  split; [exact H|].
  exact (proj2 (proj2 (groupIngredients_lookup recipeRows flourPage "A")) H).
Defined.

(** * The product modal *)

Lemma addToCartDisabled_false st p :
  selectedProduct st = Some p →
  addToCartDisabled st = false ↔ addToCartAccepts st p.
Proof.
  intros Hsel. unfold addToCartDisabled, addToCartAccepts. rewrite Hsel.
  rewrite orb_false_iff, !bool_decide_eq_false. split.
  - intros [Hpos Hmax]. split; [done|].
    split; [by apply Qcnot_le_lt | by apply Qcnot_lt_le].
  - intros (_ & Hpos & Hmax). split; [by apply Qclt_not_le | by apply Qcle_not_lt].
Qed.

Lemma addToCart_accepted_events st p :
  addToCartAccepts st p →
  (∃ msg, (addToCart st).2 = [toast_success msg])
  ∧ selectedProduct (addToCart st).1 = None
  ∧ quantity (addToCart st).1 = 1.
Proof.
  intros Hacc. rewrite (addToCart_accepted _ _ Hacc).
  destruct (list_find _ _) as [[i old]|]; simpl; eauto.
Qed.

(** X3. With a product in the modal, the button "Add to Cart" is enabled
    exactly when [addToCart] goes through: enabled, it raises a success toast
    and closes the modal; disabled, a call would raise an error toast and
    change nothing. *)
Theorem addToCart_agrees_with_button (st : PageState) (p : FinishedProduct.t) :
  selectedProduct st = Some p →
  (addToCartDisabled st = false →
   (∃ msg, (addToCart st).2 = [toast_success msg])
   ∧ selectedProduct (addToCart st).1 = None
   ∧ quantity (addToCart st).1 = 1)
  ∧ (addToCartDisabled st = true →
     ∃ msg, addToCart st = (st, [toast_error msg])).
Proof.
  intros Hsel. split.
  - intros Hen. apply (addToCart_accepted_events st p).
    by apply addToCartDisabled_false.
  - intros Hdis. apply (addToCart_rejected st p Hsel).
    unfold addToCartDisabled in Hdis. rewrite Hsel in Hdis.
    apply orb_true_iff in Hdis as [H|H]; apply bool_decide_eq_true in H; auto.
Qed.

Lemma flourPageA_enabled : addToCartDisabled flourPageA = false.
Proof. vm_compute. reflexivity. Qed.

Lemma addToCart_agrees_with_button_witness :
  selectedProduct flourPageA = Some productA
  ∧ addToCartDisabled flourPageA = false
  ∧ selectedProduct (addToCart flourPageA).1 = None.
Proof.
  split; [reflexivity|]. split; [apply flourPageA_enabled|].
  exact (proj1 (proj2 (proj1 (addToCart_agrees_with_button flourPageA productA eq_refl)
                         flourPageA_enabled))).
Defined.

(** X4. [addToCart] never raises the toast "This product has no ingredients
    configured": a product without recipe lines has the maximum 0, so the
    checks on the quantity turn the call down first. *)
Theorem addToCart_no_ingredients_toast_unreachable (st : PageState) :
  toast_error "This product has no ingredients configured" ∉ (addToCart st).2.
Proof.
  unfold addToCart. destruct (selectedProduct st) as [p|]; [|apply not_elem_of_nil].
  case_decide as Hle.
  { simpl. intros Hin. apply list_elem_of_singleton in Hin. discriminate. }
  case_decide as Hlt.
  { simpl. intros Hin. apply list_elem_of_singleton in Hin. discriminate. }
  destruct (ingredientsOf st (FinishedProduct.id p)) eqn:Hlines.
  - exfalso. apply Hle. apply Qcnot_lt_le in Hlt.
    by rewrite (getMaxQuantity_no_lines _ _ Hlines) in Hlt.
  - destruct (list_find _ _) as [[i old]|]; simpl; intros Hin;
      apply list_elem_of_singleton in Hin; discriminate.
Qed.

(** ** The quantity stepper *)

Lemma numMax_ge_l a b : a ≤ numMax a b.
Proof. unfold numMax. case_decide; [by apply Qclt_le_weak | apply Qcle_refl]. Qed.

Lemma numMax_lub a b c : a ≤ c → b ≤ c → numMax a b ≤ c.
Proof. unfold numMax. by case_decide. Qed.

Lemma numMin_le_l a b : numMin a b ≤ a.
Proof. unfold numMin. case_decide; [by apply Qclt_le_weak | apply Qcle_refl]. Qed.

Lemma numMin_glb a b c : c ≤ a → c ≤ b → c ≤ numMin a b.
Proof. unfold numMin. by case_decide. Qed.

Lemma Qcle_minus_1 (q : Qc) : q - 1 ≤ q.
Proof.
  rewrite <- (Qcplus_0_r q) at 2. unfold Qcminus. apply Qcplus_le_mono_l. done.
Qed.

Lemma Qcle_plus_1 (a q : Qc) : a ≤ q → a ≤ q + 1.
Proof.
  intros H. eapply Qcle_trans; [exact H|].
  rewrite <- (Qcplus_0_r q) at 1. apply Qcplus_le_mono_l. done.
Qed.

(** X5. The button [-] never takes the quantity below 1 and the button [+]
    never takes it above the maximum of the product in the modal.  When the
    maximum is at least 1 and the quantity is between 1 and the maximum, it
    stays there after either button, and "Add to Cart" stays enabled. *)
Theorem stepper_keeps_quantity_in_range (st : PageState) (p : FinishedProduct.t) :
  selectedProduct st = Some p →
  let m := getMaxQuantity st (FinishedProduct.id p) in
  1 ≤ quantity (decrementQuantity st)
  ∧ quantity (incrementQuantity st) ≤ m
  ∧ (1 ≤ quantity st → quantity st ≤ m →
     quantity (decrementQuantity st) ≤ m
     ∧ 1 ≤ quantity (incrementQuantity st)
     ∧ addToCartDisabled (decrementQuantity st) = false
     ∧ addToCartDisabled (incrementQuantity st) = false).
Proof.
  intros Hsel m.
  assert (Hdec : 1 ≤ quantity (decrementQuantity st)) by apply numMax_ge_l.
  assert (Hinc : quantity (incrementQuantity st) ≤ m).
  { unfold incrementQuantity. rewrite Hsel. apply numMin_le_l. }
  split; [done|]. split; [done|]. intros Hlo Hhi.
  assert (Hdec' : quantity (decrementQuantity st) ≤ m).
  { apply numMax_lub; [by eapply Qcle_trans|].
    eapply Qcle_trans; [apply Qcle_minus_1 | done]. }
  assert (Hinc' : 1 ≤ quantity (incrementQuantity st)).
  { unfold incrementQuantity. rewrite Hsel. simpl.
    apply numMin_glb; [by eapply Qcle_trans | by apply Qcle_plus_1]. }
  split; [done|]. split; [done|]. split.
  - apply (addToCartDisabled_false _ p); [done|]. split; [done|]. split.
    + eapply Qclt_le_trans; [|exact Hdec]. done.
    + unfold decrementQuantity. by rewrite getMaxQuantity_setQuantity.
  - apply (addToCartDisabled_false _ p).
    { unfold incrementQuantity. by rewrite Hsel. }
    split; [unfold incrementQuantity; by rewrite Hsel|]. split.
    + eapply Qclt_le_trans; [|exact Hinc']. done.
    + unfold incrementQuantity in *. rewrite Hsel in *.
      by rewrite getMaxQuantity_setQuantity.
Qed.

Lemma flourPageA_in_range :
  1 ≤ quantity flourPageA
  ∧ quantity flourPageA ≤ getMaxQuantity flourPageA (FinishedProduct.id productA).
Proof. split; intros H; vm_compute in H; discriminate. Qed.

Lemma stepper_keeps_quantity_in_range_witness :
  selectedProduct flourPageA = Some productA
  ∧ 1 ≤ quantity flourPageA
  ∧ quantity flourPageA ≤ getMaxQuantity flourPageA (FinishedProduct.id productA)
  ∧ addToCartDisabled (incrementQuantity flourPageA) = false.
Proof.
  destruct flourPageA_in_range as [Hlo Hhi].
  split; [reflexivity|]. split; [exact Hlo|]. split; [exact Hhi|].
  exact (proj2 (proj2 (proj2 (proj2 (proj2
           (stepper_keeps_quantity_in_range flourPageA productA eq_refl)) Hlo Hhi)))).
Defined.

(** ** Opening the modal from a product card *)

Lemma integer_pos_ge_1 (q : Qc) : is_integer q → 0 < q → 1 ≤ q.
Proof.
  destruct q as [[n d] Hc]. unfold is_integer, Qclt, Qcle, Qlt, Qle. simpl.
  intros ->. lia.
Qed.

Lemma getMaxQuantity_integer st productId : is_integer (getMaxQuantity st productId).
Proof.
  destruct (getMaxQuantity_cases st productId) as [-> | (ing & _ & Hu)].
  - apply is_integer_0.
  - by eapply possibleUnits_integer.
Qed.

Lemma find_list_find (productId : string) (c : list CartItem.t) :
  List.find (fun item => String.eqb (cartId item) productId) c
  = snd <$> list_find (fun item => cartId item = productId) c.
Proof.
  induction c as [|x c IH]; [done|]. simpl.
  destruct (String.eqb_spec (cartId x) productId) as [Heq|Hne]; case_decide; try done.
  rewrite IH. by destruct (list_find _ c) as [[i y]|].
Qed.

Lemma withQuantity_same item : withQuantity (CartItem.quantity item) item = item.
Proof. by destruct item. Qed.

Lemma handleProductClick_state st p :
  cart (handleProductClick st p) = cart st
  ∧ selectedProduct (handleProductClick st p) = Some p
  ∧ inventoryItems (handleProductClick st p) = inventoryItems st
  ∧ productIngredients (handleProductClick st p) = productIngredients st.
Proof. unfold handleProductClick. by destruct (List.find _ _). Qed.

Lemma getMaxQuantity_handleProductClick st p productId :
  getMaxQuantity (handleProductClick st p) productId = getMaxQuantity st productId.
Proof.
  destruct (handleProductClick_state st p) as (Hcart & _ & Hitems & Hrec).
  apply getMaxQuantity_ext; [done | done | by rewrite Hcart].
Qed.

(** X6. Clicking the card of an available product that has no line in the
    cart opens the modal with the quantity 1 and "Add to Cart" enabled;
    confirming appends one unit of the product, with its recipe, at the end
    of the cart. *)
Theorem click_then_add_appends_one_unit (st : PageState) (p : FinishedProduct.t) :
  isAvailable st p = true →
  (∀ item, item ∈ cart st → cartId item ≠ FinishedProduct.id p) →
  let st1 := productCardClick st p in
  quantity st1 = 1
  ∧ addToCartDisabled st1 = false
  ∧ cart (addToCart st1).1
    = (cart st ++ [CartItem.mk p 1 (ingredientsOf st (FinishedProduct.id p))])%list.
Proof.
  intros Hav Hnew st1. unfold st1, productCardClick. rewrite Hav.
  apply bool_decide_eq_true in Hav.
  assert (Hfind : List.find (fun item => String.eqb (cartId item) (FinishedProduct.id p))
                            (cart st) = None).
  { destruct (List.find _ _) as [item|] eqn:Hf; [|done].
    apply List.find_some in Hf as [Hin Heq]. exfalso.
    apply (Hnew item); [by apply list_elem_of_In | by apply String.eqb_eq]. }
  assert (Hq : quantity (handleProductClick st p) = 1).
  { unfold handleProductClick. by rewrite Hfind. }
  destruct (handleProductClick_state st p) as (Hcart & Hsel & _ & Hrec).
  assert (Hacc : addToCartAccepts (handleProductClick st p) p).
  { split; [done|]. rewrite Hq, getMaxQuantity_handleProductClick.
    split; [done|]. apply integer_pos_ge_1; [apply getMaxQuantity_integer | done]. }
  split; [done|]. split; [by apply (addToCartDisabled_false _ p)|].
  rewrite (addToCart_accepted _ _ Hacc), Hcart, Hq.
  rewrite find_list_find in Hfind.
  destruct (list_find _ (cart st)) as [[i old]|]; [done|]. simpl.
  rewrite ?Hcart. do 3 f_equal. unfold ingredientsOf. by rewrite Hrec.
Qed.

Lemma flourPage_C_available :
  isAvailable (pageWith [flour] (<["C" := recipeA]> recipes) flourCart None 1) productC
  = true.
Proof. vm_compute. reflexivity. Qed.

Lemma flourCart_no_C item : item ∈ flourCart → cartId item ≠ FinishedProduct.id productC.
Proof.
  unfold flourCart. intros Hin.
  apply elem_of_cons in Hin as [->|Hin]; [discriminate|].
  apply list_elem_of_singleton in Hin as ->. discriminate.
Qed.

Lemma click_then_add_appends_one_unit_witness :
  isAvailable (pageWith [flour] (<["C" := recipeA]> recipes) flourCart None 1) productC
  = true
  ∧ (∀ item, item ∈ flourCart → cartId item ≠ FinishedProduct.id productC)
  ∧ quantity (productCardClick
                (pageWith [flour] (<["C" := recipeA]> recipes) flourCart None 1)
                productC) = 1.
Proof.
  split; [apply flourPage_C_available|]. split; [apply flourCart_no_C|].
  exact (proj1 (click_then_add_appends_one_unit _ productC
                  flourPage_C_available flourCart_no_C)).
Defined.

(** X7. Opening the modal for a product that has a line in the cart shows
    the quantity of that line, and "Add to Cart" pressed without editing
    leaves the cart as it was, whether the call goes through or is turned
    down. *)
Theorem reopen_and_confirm_keeps_cart (st : PageState) (p : FinishedProduct.t) :
  (∃ item, item ∈ cart st ∧ cartId item = FinishedProduct.id p) →
  (∃ item, item ∈ cart st ∧ cartId item = FinishedProduct.id p
           ∧ quantity (handleProductClick st p) = CartItem.quantity item)
  ∧ cart (addToCart (handleProductClick st p)).1 = cart st.
Proof.
  intros (item & Hin & Hid).
  destruct (handleProductClick_state st p) as (Hcart & Hsel & _ & _).
  assert (Hfind : ∃ k old,
             list_find (fun item => cartId item = FinishedProduct.id p) (cart st)
             = Some (k, old)).
  { destruct (list_find_elem_of (fun item => cartId item = FinishedProduct.id p)
                (cart st) item Hin Hid) as [[k old] Hk]. eauto. }
  destruct Hfind as (k & old & Hfind).
  assert (Hq : quantity (handleProductClick st p) = CartItem.quantity old).
  { unfold handleProductClick. by rewrite find_list_find, Hfind. }
  pose proof (proj1 (list_find_Some _ _ _ _) Hfind) as (Hk & Hold & _).
  split.
  { exists old. split; [by eapply list_elem_of_lookup_2 | done]. }
  destruct (addToCart_cart_cases (handleProductClick st p)) as [-> | [p' Hacc]]; [done|].
  assert (p' = p) as ->. { destruct Hacc as [Hs _]. congruence. }
  rewrite (addToCart_accepted _ _ Hacc), Hcart, Hfind, Hq. simpl.
  apply list_eq. intros j. rewrite list_lookup_alter.
  case_decide; [|done]. subst j. rewrite Hk. simpl. by rewrite withQuantity_same.
Qed.

Lemma reopen_and_confirm_keeps_cart_witness :
  (∃ item, item ∈ cart flourPage ∧ cartId item = FinishedProduct.id productA)
  ∧ cart (addToCart (handleProductClick flourPage productA)).1 = cart flourPage.
Proof.
  assert (H : ∃ item, item ∈ cart flourPage ∧ cartId item = FinishedProduct.id productA).
  { exists (CartItem.mk productA (Q2Qc 2) recipeA). split; [apply list_elem_of_here | done]. }
  split; [exact H|].
  exact (proj2 (reopen_and_confirm_keeps_cart flourPage productA H)).
Defined.

Lemma addToCart_no_ingredients_toast_unreachable_witness :
  toast_error "This product has no ingredients configured" ∉ (addToCart soldOutPage).2.
Proof. exact (addToCart_no_ingredients_toast_unreachable soldOutPage). Defined.

(** * More on the checkout *)

Lemma cartTotal_records st tx :
  cartTotal (cart st) = Qcsum (List.map Sale.total (saleRecords st tx)).
Proof.
  unfold cartTotal, saleRecords.
  rewrite (Qcsum_fold_left
             (fun item => CartItem.quantity item
                          * FinishedProduct.selling_price (CartItem.product item))).
  by rewrite Qcplus_0_l, List.map_map.
Qed.

(** X8. After a successful checkout the records appended to [sales] all carry
    the transaction id of the checkout, the payment method and customer type
    selected, the unit type 'quantity' and a total equal to quantity x selling
    price; the amount shown in the success toast is the sum of their
    totals. *)
Theorem checkout_total_matches_records (svc : Service) (tx : string)
    (st : PageState) (db : Db) :
  checkoutSucceeded (handleCheckout svc tx st db) →
  ∃ news,
    sales (handleCheckout svc tx st db).1.2 = (sales db ++ news)%list
    ∧ toast_sale_completed (Qcsum (List.map Sale.total news))
      ∈ (handleCheckout svc tx st db).2
    ∧ ∀ s, s ∈ news →
        Sale.transaction_id s = tx
        ∧ Sale.total s = Sale.qty s * Sale.selling_price s
        ∧ Sale.unit_type s = unit_quantity
        ∧ Sale.payment_method s = selectedPaymentMethod st
        ∧ Sale.customer_type s = selectedCustomerType st.
Proof.
  intros Hok. destruct (handleCheckout_succeeded_inv _ _ _ _ Hok) as (_ & _ & _ & ->).
  exists (saleRecords st tx). simpl. split; [done|]. split.
  - rewrite <- cartTotal_records. apply elem_of_app. right. apply list_elem_of_here.
  - intros s Hin. unfold saleRecords in Hin.
    apply list_elem_of_In, in_map_iff in Hin as (item & <- & _). done.
Qed.

Lemma checkout_total_matches_records_witness :
  checkoutSucceeded (handleCheckout serviceOk "tx" flourPage flourDb)
  ∧ ∃ news,
      sales (handleCheckout serviceOk "tx" flourPage flourDb).1.2
      = (sales flourDb ++ news)%list
      ∧ toast_sale_completed (Qcsum (List.map Sale.total news))
        ∈ (handleCheckout serviceOk "tx" flourPage flourDb).2.
Proof.
  split; [apply flour_checkout_succeeded|].
  destruct (checkout_total_matches_records serviceOk "tx" flourPage flourDb
              flour_checkout_succeeded) as (news & Hsales & Htoast & _).
  exists news. split; [exact Hsales | exact Htoast].
Defined.

(** X9. The table [products] is written only after the sale records have been
    inserted: if a checkout changes it, the preconditions held, the insert
    was accepted and [sales] holds the new records.  A checkout that fails
    its validation, or whose insert is rejected, leaves both tables as they
    were. *)
Theorem inventory_written_only_after_sale (svc : Service) (tx : string)
    (st : PageState) (db : Db) :
  let r := handleCheckout svc tx st db in
  (products r.1.2 ≠ products db →
   checkoutPreconditions st
   ∧ insertFails svc = false
   ∧ sales r.1.2 = (sales db ++ saleRecords st tx)%list
   ∧ saleRecords st tx ≠ [])
  ∧ (¬ checkoutPreconditions st ∨ insertFails svc = true → r.1.2 = db).
Proof.
  intros r. unfold r, handleCheckout.
  destruct (checkoutValidation st) as [msg|] eqn:Hv.
  { split; [done|]. done. }
  apply checkoutValidation_None in Hv. unfold checkoutCommit.
  destruct (insertFails svc) eqn:Hins.
  { split; [done|]. done. }
  split.
  - intros _. split; [done|]. split; [done|].
    split; [by destruct (existsb _ _)|].
    destruct Hv as [Hcart _]. unfold saleRecords. by destruct (cart st).
  - intros [Hno | Hfail]; [done | discriminate].
Qed.

Lemma flour_checkout_changes_products :
  products (handleCheckout serviceOk "tx" flourPage flourDb).1.2 ≠ products flourDb.
Proof.
  rewrite (handleCheckout_succeeded_products _ _ _ _ flour_checkout_succeeded).
  intros Heq.
  apply (f_equal (List.map (fun row => this (getInventoryInIngredientUnit row)))) in Heq.
  vm_compute in Heq. discriminate.
Qed.

Lemma inventory_written_only_after_sale_witness :
  products (handleCheckout serviceOk "tx" flourPage flourDb).1.2 ≠ products flourDb
  ∧ sales (handleCheckout serviceOk "tx" flourPage flourDb).1.2
    = (sales flourDb ++ saleRecords flourPage "tx")%list.
Proof.
  split; [apply flour_checkout_changes_products|].
  exact (proj1 (proj2 (proj2
           (proj1 (inventory_written_only_after_sale serviceOk "tx" flourPage flourDb)
              flour_checkout_changes_products)))).
Defined.

(** * Division and order over the rationals *)

Lemma Qcpos_neq_0 (d : Qc) : 0 < d → d ≠ 0.
Proof. intros Hd ->. by apply (Qclt_not_eq 0 0). Qed.

Lemma Qcle_div_iff (q a d : Qc) : 0 < d → q ≤ a / d ↔ q * d ≤ a.
Proof.
  intros Hd. pose proof (Qcpos_neq_0 d Hd) as Hne.
  assert (Ha : a / d * d = a) by (by rewrite Qcmult_comm, Qcmult_div_r).
  split; intros H.
  - rewrite <- Ha. apply Qcmult_le_compat_r; [done | by apply Qclt_le_weak].
  - apply (Qcmult_lt_0_le_reg_r _ _ d Hd). by rewrite Ha.
Qed.

(** * Stock after a checkout *)

Lemma Qcsum_app (l k : list Qc) : Qcsum (l ++ k) = Qcsum l + Qcsum k.
Proof.
  induction l as [|x l IH]; simpl; [by rewrite Qcplus_0_l|].
  by rewrite IH, Qcplus_assoc.
Qed.

Lemma filter_others_absent productId (c : list CartItem.t) :
  productId ∉ cartId <$> c →
  List.filter (fun x => bool_decide (cartId x ≠ productId)) c = c.
Proof.
  induction c as [|x c IH]; simpl; [done|]. intros Hnot.
  apply not_elem_of_cons in Hnot as [Hx Hc].
  rewrite bool_decide_eq_true_2 by done. by rewrite IH.
Qed.

Lemma filter_others_unique (pre post : list CartItem.t) (x : CartItem.t) :
  uniqueLines (pre ++ x :: post) →
  List.filter (fun c => bool_decide (cartId c ≠ cartId x)) (pre ++ x :: post)
  = (pre ++ post)%list.
Proof.
  unfold uniqueLines. rewrite fmap_app, fmap_cons.
  intros Hnd. apply NoDup_app in Hnd as (_ & Hpre & Hpost).
  apply NoDup_cons in Hpost as [Hpost _].
  rewrite List.filter_app. simpl. rewrite bool_decide_eq_false_2 by (by intros H; apply H).
  rewrite !filter_others_absent; [done | done |].
  intros Hin. apply (Hpre _ Hin). apply list_elem_of_here.
Qed.

Section Reservations.
Variable st : PageState.
Variable itemId : string.

(** Under one line per product, what the whole cart reserves is what a line
    reserves plus what the other lines reserve. *)
Lemma totalReserved_split c :
  uniqueLines (cart st) → c ∈ cart st →
  totalReserved st itemId
  = lineReservation st itemId c + reservedByOtherCartLines st (cartId c) itemId.
Proof.
  intros Huniq Hin. unfold totalReserved, reservedByOtherCartLines.
  apply list_elem_of_split in Hin as (pre & post & Hcart). rewrite Hcart in *.
  rewrite (filter_others_unique _ _ _ Huniq).
  rewrite !List.map_app, !Qcsum_app. simpl. fold (lineReservation st itemId c).
  fold (lineReservation st itemId). ring.
Qed.

Lemma reserved_absent productId :
  productId ∉ cartId <$> cart st →
  reservedByOtherCartLines st productId itemId = totalReserved st itemId.
Proof.
  intros Hnot. unfold reservedByOtherCartLines, totalReserved.
  by rewrite (filter_others_absent _ _ Hnot).
Qed.
End Reservations.

Lemma NoDup_fmap_eq {A B} (f : A → B) (l : list A) (x y : A) :
  NoDup (f <$> l) → x ∈ l → y ∈ l → f x = f y → x = y.
Proof.
  intros Hnd Hx Hy Hf.
  apply list_elem_of_lookup in Hx as [i Hi]. apply list_elem_of_lookup in Hy as [j Hj].
  assert (i = j) as ->; [|congruence].
  apply (NoDup_lookup _ i j (f x) Hnd); rewrite list_lookup_fmap.
  - by rewrite Hi.
  - by rewrite Hj, Hf.
Qed.

Section NameOnce.
Variable st : PageState.
Hypothesis Honce : recipesNameOnce st.

Lemma recipeQuantityFor_line productId ing :
  ing ∈ ingredientsOf st productId →
  recipeQuantityFor st productId (ProductIngredient.item_id ing)
  = ProductIngredient.qty ing.
Proof.
  intros Hin. unfold recipeQuantityFor.
  destruct (List.find _ _) as [m|] eqn:Hfind.
  - apply List.find_some in Hfind as [Hm Heq].
    apply String.eqb_eq in Heq. apply list_elem_of_In in Hm.
    by rewrite (NoDup_fmap_eq _ _ m ing (Honce productId) Hm Hin Heq).
  - exfalso. apply list_elem_of_In in Hin.
    pose proof (List.find_none _ _ Hfind ing Hin) as Hne. simpl in Hne.
    by rewrite String.eqb_refl in Hne.
Qed.

Lemma lineRequirement_once itemId c :
  lineRequirement st itemId c = lineReservation st itemId c.
Proof.
  apply lineRequirement_single.
  pose proof (Honce (cartId c)) as Hnd.
  induction (ingredientsOf st (cartId c)) as [|ing l IH]; simpl; [lia|].
  rewrite fmap_cons in Hnd. apply NoDup_cons in Hnd as [Hing Hl].
  destruct (String.eqb_spec (ProductIngredient.item_id ing) itemId) as [Heq|Hne];
    [|by apply IH].
  simpl. rewrite filter_existsb_false; [simpl; lia|].
  apply not_true_is_false. intros Hex.
  apply existsb_exists in Hex as (m & Hm & Hmeq). apply String.eqb_eq in Hmeq.
  apply Hing. apply list_elem_of_fmap. exists m.
  split; [congruence | by apply list_elem_of_In].
Qed.

Lemma totalDeduction_once itemId : totalDeduction st itemId = totalReserved st itemId.
Proof.
  unfold totalDeduction, totalReserved. f_equal.
  apply List.map_ext. intros c. apply lineRequirement_once.
Qed.

(** A cart line that passes [canSellProduct] has, for each ingredient of its
    recipe, the whole reservation of the cart covered by the stock. *)
Lemma canSell_covers c ing :
  uniqueLines (cart st) → c ∈ cart st →
  canSellProduct st (cartId c) (CartItem.quantity c) = true →
  ing ∈ ingredientsOf st (cartId c) →
  ∃ item, findItem (inventoryItems st) (ProductIngredient.item_id ing) = Some item
          ∧ totalReserved st (ProductIngredient.item_id ing) ≤ stockInRecipeUnit item.
Proof.
  intros Huniq Hc Hsell Hin.
  destruct (canSellProduct_found _ _ _ ing Hsell Hin) as [item Hitem].
  exists item. split; [done|].
  assert (Hpass : ¬ lineFails st (cartId c) (CartItem.quantity c) ing).
  { intros Hfail.
    assert (canSellProduct st (cartId c) (CartItem.quantity c) = false) as Hf;
      [|congruence].
    apply canSellProduct_false. right. eauto. }
  unfold lineFails in Hpass. rewrite Hitem in Hpass. apply Qcle_ngt in Hpass.
  rewrite (totalReserved_split st _ c Huniq Hc). unfold lineReservation.
  by rewrite (recipeQuantityFor_line _ _ Hin).
Qed.
End NameOnce.

Lemma ingredientUsed_true st itemId :
  ingredientUsed st itemId = true →
  ∃ c ing, c ∈ cart st ∧ ing ∈ ingredientsOf st (cartId c)
           ∧ ProductIngredient.item_id ing = itemId.
Proof.
  unfold ingredientUsed. intros Hex.
  apply existsb_exists in Hex as (c & Hc & Hex).
  apply existsb_exists in Hex as (ing & Hing & Heq).
  exists c, ing. split; [by apply list_elem_of_In|].
  split; [by apply list_elem_of_In | by apply String.eqb_eq].
Qed.

Lemma Qcdiv_le_iff (a b d : Qc) : 0 < d → a / d ≤ b ↔ a ≤ b * d.
Proof.
  intros Hd. pose proof (Qcpos_neq_0 d Hd) as Hne.
  assert (Ha : a / d * d = a) by (by rewrite Qcmult_comm, Qcmult_div_r).
  rewrite (Qcmult_le_mono_pos_r _ _ d Hd). by rewrite Ha.
Qed.

Lemma Qc1000_pos : 0 < Q2Qc 1000.
Proof. reflexivity. Qed.

(** X11. When no recipe names an ingredient twice and the cart has one line
    per product, a successful checkout writes no negative quantity: if no row
    of [products] was below zero before, none is afterwards. *)
Theorem checkout_keeps_stock_nonnegative (svc : Service) (tx : string)
    (st : PageState) (db : Db) :
  recipesNameOnce st →
  uniqueLines (cart st) →
  checkoutSucceeded (handleCheckout svc tx st db) →
  noNegativeStock (products db) →
  noNegativeStock (products (handleCheckout svc tx st db).1.2).
Proof.
  intros Honce Huniq Hok Hdb row' Hrow'.
  rewrite (handleCheckout_succeeded_products _ _ _ _ Hok) in Hrow'.
  apply list_elem_of_In, in_map_iff in Hrow' as (row & <- & Hrow).
  apply list_elem_of_In in Hrow.
  destruct (handleCheckout_succeeded_inv _ _ _ _ Hok) as ((_ & _ & _ & _ & Hsell) & _).
  unfold rowAfterCheckout.
  destruct (findItem _ _) as [item|] eqn:Hitem; [|by apply Hdb].
  destruct (ingredientUsed st (InventoryItem.id row)) eqn:Hused; [|by apply Hdb].
  apply ingredientUsed_true in Hused as (c & ing & Hc & Hing & Hid).
  destruct (canSell_covers st Honce c ing Huniq Hc (Hsell c Hc) Hing)
    as (item' & Hitem' & Hcov).
  rewrite Hid, Hitem in Hitem'. injection Hitem' as <-.
  rewrite Hid, <- (totalDeduction_once st Honce) in Hcov.
  simpl. unfold stockInRecipeUnit in Hcov. unfold Qcminus. rewrite <- Qcle_minus_iff.
  destruct (InventoryItem.unit_type item); [|done].
  apply Qcdiv_le_iff; [apply Qc1000_pos | done].
Qed.

Lemma flourPage_lines_cases productId :
  ingredientsOf flourPage productId = recipeA
  ∨ ingredientsOf flourPage productId = recipeB
  ∨ ingredientsOf flourPage productId = [].
Proof.
  unfold ingredientsOf. change (productIngredients flourPage) with recipes.
  unfold recipes.
  destruct (decide (productId = "A")) as [->|HA].
  { left. by rewrite lookup_insert_eq. }
  rewrite lookup_insert_ne by done.
  destruct (decide (productId = "B")) as [->|HB].
  { right. left. by rewrite lookup_insert_eq. }
  right. right. by rewrite lookup_insert_ne, lookup_empty.
Qed.

Lemma flourPage_nameOnce : recipesNameOnce flourPage.
Proof.
  intros productId.
  destruct (flourPage_lines_cases productId) as [-> | [-> | ->]]; simpl.
  - apply NoDup_singleton.
  - apply NoDup_singleton.
  - apply NoDup_nil_2.
Qed.

Lemma flourCart_uniqueLines : uniqueLines (cart flourPage).
Proof. exact flourCart_unique. Qed.

Lemma flourDb_nonnegative : noNegativeStock (products flourDb).
Proof.
  intros row Hin. apply list_elem_of_singleton in Hin as ->.
  intros H. vm_compute in H. discriminate.
Qed.

Lemma checkout_keeps_stock_nonnegative_witness :
  recipesNameOnce flourPage
  ∧ uniqueLines (cart flourPage)
  ∧ checkoutSucceeded (handleCheckout serviceOk "tx" flourPage flourDb)
  ∧ noNegativeStock (products flourDb)
  ∧ noNegativeStock (products (handleCheckout serviceOk "tx" flourPage flourDb).1.2).
Proof.
  split; [apply flourPage_nameOnce|]. split; [apply flourCart_uniqueLines|].
  split; [apply flour_checkout_succeeded|]. split; [apply flourDb_nonnegative|].
  exact (checkout_keeps_stock_nonnegative serviceOk "tx" flourPage flourDb
           flourPage_nameOnce flourCart_uniqueLines flour_checkout_succeeded
           flourDb_nonnegative).
Defined.

(** The condition on the recipes is needed: product D names flour twice, 300 g
    each time; with 1000 g in stock three units pass the validation (each line
    is checked alone, 900 g), and the checkout deducts 1800 g. *)
Lemma doubled_recipe_overdraws :
  checkoutPreconditions doubledPage
  ∧ List.map (fun row => this (getInventoryInIngredientUnit row))
             (products (handleCheckout serviceOk "tx" doubledPage flourDb).1.2)
    = [(-800)%Q].
Proof.
  split.
  - apply checkoutValidation_None. vm_compute. reflexivity.
  - vm_compute. reflexivity.
Qed.

(** * States that carry the same snapshot *)

Lemma recipeQuantityFor_nonneg st productId itemId :
  positiveRecipe st productId → 0 ≤ recipeQuantityFor st productId itemId.
Proof.
  intros Hpos. unfold recipeQuantityFor.
  destruct (List.find _ _) as [m|] eqn:Hfind; [|done].
  apply List.find_some in Hfind as [Hm _]. apply Qclt_le_weak, Hpos.
  by apply list_elem_of_In.
Qed.

Section Transfer.
Variables st st' : PageState.
Hypothesis Hrecipes : productIngredients st' = productIngredients st.

Lemma ingredientsOf_same productId :
  ingredientsOf st' productId = ingredientsOf st productId.
Proof. unfold ingredientsOf. by rewrite Hrecipes. Qed.

Lemma lineReservation_same itemId c :
  lineReservation st' itemId c = lineReservation st itemId c.
Proof.
  unfold lineReservation, recipeQuantityFor. by rewrite ingredientsOf_same.
Qed.

End Transfer.

Lemma others_eqb_decide productId (c : list CartItem.t) :
  List.filter (fun x => negb (String.eqb (cartId x) productId)) c
  = List.filter (fun x => bool_decide (cartId x ≠ productId)) c.
Proof.
  apply List.filter_ext. intros x. by rewrite String_eqb_decide, bool_decide_not.
Qed.

(** ** The handlers *)

Lemma map_own_line productId (g : CartItem.t → CartItem.t) (l : list CartItem.t) :
  productId ∉ cartId <$> l →
  List.map (fun item => if String.eqb (cartId item) productId then g item else item) l = l.
Proof.
  induction l as [|x l IH]; simpl; [done|]. intros Hnot.
  apply not_elem_of_cons in Hnot as [Hx Hl].
  destruct (String.eqb_spec (cartId x) productId); [congruence|]. by rewrite IH.
Qed.

Lemma addToCart_fields st :
  inventoryItems (addToCart st).1 = inventoryItems st
  ∧ productIngredients (addToCart st).1 = productIngredients st.
Proof.
  unfold addToCart. destruct (selectedProduct st); [|done].
  case_decide; [done|]. case_decide; [done|].
  destruct (ingredientsOf st _); [done|].
  by destruct (list_find _ _) as [[i old]|].
Qed.

(** * The simple-product component *)

Lemma riceCart_unique : simpleUniqueLines (SimpleSales.cart ricePage).
Proof. apply NoDup_singleton. Qed.

Section SimpleCart.
Import SimpleSales.

Lemma simple_filter_invariant (f : CartItem.t → bool) (c : list CartItem.t) :
  simpleInvariant c → simpleInvariant (List.filter f c).
Proof.
  intros [Huniq Hstock]. split.
  - unfold simpleUniqueLines in *. clear Hstock.
    induction c as [|x c IH]; simpl; [done|].
    rewrite fmap_cons in Huniq. apply NoDup_cons in Huniq as [Hx Hc].
    destruct (f x); [|by apply IH]. rewrite fmap_cons. apply NoDup_cons.
    split; [|by apply IH]. intros Hin. apply Hx.
    apply list_elem_of_fmap in Hin as (y & Hy & Hin).
    apply list_elem_of_fmap. exists y. split; [done|].
    apply list_elem_of_In, List.filter_In in Hin as [Hin _]. by apply list_elem_of_In.
  - intros x Hx. apply Hstock.
    apply list_elem_of_In, List.filter_In in Hx as [Hx _]. by apply list_elem_of_In.
Qed.

Lemma simple_cartId_map (g : CartItem.t → CartItem.t) (c : list CartItem.t) :
  (∀ x, cartId (g x) = cartId x) → cartId <$> List.map g c = cartId <$> c.
Proof.
  intros Hg. induction c as [|x c IH]; [done|].
  cbn [List.map]. rewrite !fmap_cons, Hg. by f_equal.
Qed.

Lemma simple_find_unique (c : list CartItem.t) x :
  simpleUniqueLines c → x ∈ c →
  List.find (fun item => String.eqb (cartId item) (cartId x)) c = Some x.
Proof.
  unfold simpleUniqueLines. induction c as [|y c IH]; intros Hnd Hx.
  - by apply elem_of_nil in Hx.
  - rewrite fmap_cons in Hnd. apply NoDup_cons in Hnd as [Hy Hc]. simpl.
    apply elem_of_cons in Hx as [->|Hx]; [by rewrite String.eqb_refl|].
    destruct (String.eqb_spec (cartId y) (cartId x)) as [Heq|Hne]; [|by apply IH].
    exfalso. apply Hy. rewrite Heq. apply list_elem_of_fmap. eauto.
Qed.

Lemma simple_update_invariant st productId q :
  simpleInvariant (cart st) →
  simpleInvariant (cart (updateCartQuantity st productId q).1).
Proof.
  intros Hinv. pose proof Hinv as [Huniq Hstock]. unfold updateCartQuantity.
  case_decide as Hle; [by apply simple_filter_invariant|].
  assert (Hq : 0 < q) by by apply Qcnot_le_lt.
  set (g := fun item : CartItem.t =>
              if String.eqb (cartId item) productId then withQuantity q item else item).
  assert (Hids : cartId <$> List.map g (cart st) = cartId <$> cart st).
  { apply simple_cartId_map. intros x. unfold g. by destruct (String.eqb _ _). }
  destruct (List.find _ (cart st)) as [found|] eqn:Hfind; simpl.
  - case_decide as Hlt; [done|]. simpl. fold g. split; [unfold simpleUniqueLines; by rewrite Hids|].
    intros x Hx. apply list_elem_of_In, in_map_iff in Hx as (y & <- & Hy).
    apply list_elem_of_In in Hy. unfold g.
    destruct (String.eqb_spec (cartId y) productId) as [Heq|Hne]; [|by apply Hstock].
    simpl. split; [done|].
    rewrite <- Heq, (simple_find_unique _ _ Huniq Hy) in Hfind. injection Hfind as <-.
    by apply Qcnot_lt_le.
  - fold g. split; [unfold simpleUniqueLines; by rewrite Hids|].
    intros x Hx. apply list_elem_of_In, in_map_iff in Hx as (y & <- & Hy).
    unfold g. destruct (String.eqb_spec (cartId y) productId) as [Heq|Hne].
    + pose proof (List.find_none _ _ Hfind y Hy) as Hno. simpl in Hno.
      rewrite Heq, String.eqb_refl in Hno. done.
    + by apply Hstock, list_elem_of_In.
Qed.

Lemma simple_add_invariant st :
  sameSnapshot st →
  simpleInvariant (cart st) →
  simpleInvariant (cart (addToCart st).1).
Proof.
  intros Hsnap Hinv. pose proof Hinv as [Huniq Hstock]. unfold addToCart.
  destruct (selectedProduct st) as [p|] eqn:Hsel; [|done].
  case_decide as Hle; [done|]. case_decide as Hlt; [done|].
  assert (Hq : 0 < quantity st) by by apply Qcnot_le_lt.
  assert (Hmax : quantity st ≤ Product.qty p) by by apply Qcnot_lt_le.
  destruct (list_find _ (cart st)) as [[k old]|] eqn:Hfind; simpl.
  - apply list_find_Some in Hfind as (Hk & Hid & _). split.
    + unfold simpleUniqueLines.
      rewrite (list_fmap_alter cartId (withQuantity (quantity st)) id);
        [|by apply Forall_forall].
      by rewrite list_alter_id.
    + intros x Hx. apply list_elem_of_lookup in Hx as [j Hj].
      rewrite list_lookup_alter in Hj. case_decide.
      * subst j. rewrite Hk in Hj. simpl in Hj. injection Hj as <-. simpl.
        split; [done|]. rewrite (Hsnap p old Hsel); [done | | done].
        by eapply list_elem_of_lookup_2.
      * apply Hstock. by eapply list_elem_of_lookup_2.
  - apply list_find_None in Hfind. rewrite Forall_forall in Hfind. split.
    + unfold simpleUniqueLines. rewrite fmap_app. apply NoDup_app.
      split; [done|]. split; [|apply NoDup_singleton].
      intros pid Hin Hnew. apply list_elem_of_singleton in Hnew. simpl in Hnew. subst pid.
      apply list_elem_of_fmap in Hin as (item & Hid & Hin). by apply (Hfind item).
    + intros x Hx. apply elem_of_app in Hx as [Hx|Hx]; [by apply Hstock|].
      by apply list_elem_of_singleton in Hx as ->.
Qed.
End SimpleCart.

(** X15. Simple-product cart: the handlers keep one line per product and keep
    every line's quantity positive and within the stock that the line
    remembers; for [addToCart] this needs the product in the modal to carry the
    same stock as the cart line of that product. *)
Theorem simple_cart_invariant_preserved (st : SimpleSales.PageState) :
  simpleInvariant (SimpleSales.cart st) →
  (sameSnapshot st → simpleInvariant (SimpleSales.cart (SimpleSales.addToCart st).1))
  ∧ (∀ productId q,
       simpleInvariant (SimpleSales.cart (SimpleSales.updateCartQuantity st productId q).1))
  ∧ (∀ productId,
       simpleInvariant (SimpleSales.cart (SimpleSales.removeFromCart st productId).1))
  ∧ simpleInvariant (SimpleSales.cart (SimpleSales.clearCart st)).
Proof.
  intros Hinv. split; [|split; [|split]].
  - intros Hsnap. by apply simple_add_invariant.
  - intros productId q. by apply simple_update_invariant.
  - intros productId. by apply simple_filter_invariant.
  - split; [apply NoDup_nil_2|]. intros x Hx. by apply elem_of_nil in Hx.
Qed.

Lemma riceCart_invariant : simpleInvariant (SimpleSales.cart ricePage).
Proof.
  split; [apply riceCart_unique|]. intros x Hx.
  apply list_elem_of_singleton in Hx as ->. split.
  - reflexivity.
  - intros H. vm_compute in H. discriminate.
Qed.

Lemma simple_cart_invariant_preserved_witness :
  simpleInvariant (SimpleSales.cart ricePage)
  ∧ simpleInvariant
      (SimpleSales.cart (SimpleSales.updateCartQuantity ricePage "rice" (Q2Qc 4)).1).
Proof.
  split; [apply riceCart_invariant|].
  exact (proj1 (proj2 (simple_cart_invariant_preserved ricePage riceCart_invariant))
           "rice" (Q2Qc 4)).
Defined.

(** * The recipe form against the sales page *)

Lemma cost_folds_agree items (rows : list ProductIngredient.t)
    (form : list ProductsPage.FormIngredient.t) (a : Qc) :
  Forall2 (fun r f => ProductIngredient.item_id r = ProductsPage.FormIngredient.item_id f
                      ∧ ProductIngredient.qty r = ProductsPage.FormIngredient.qty f)
          rows form →
  fold_left
    (fun total ing =>
       total + match findItem items (ProductIngredient.item_id ing) with
               | Some item => InventoryItem.cost item * ProductIngredient.qty ing
               | None => 0
               end) rows a
  = fold_left
      (fun total ing =>
         match findItem items (ProductsPage.FormIngredient.item_id ing) with
         | None => total
         | Some item => total + InventoryItem.cost item * ProductsPage.FormIngredient.qty ing
         end) form a.
Proof.
  intros Hrel. revert a. induction Hrel as [|r f rows form [Hid Hq] _ IH]; intros a; [done|].
  simpl. rewrite IH, Hid, Hq.
  destruct (findItem items _); [done|]. by rewrite Qcplus_0_r.
Qed.

Lemma records_related productId (rows : list ProductIngredient.t)
    (form : list ProductsPage.FormIngredient.t) :
  List.map (fun r => (ProductIngredient.product_id r, ProductIngredient.item_id r,
                      ProductIngredient.qty r)) rows
  = ProductsPage.ingredientRecords productId form →
  Forall2 (fun r f => ProductIngredient.item_id r = ProductsPage.FormIngredient.item_id f
                      ∧ ProductIngredient.qty r = ProductsPage.FormIngredient.qty f)
          rows form.
Proof.
  unfold ProductsPage.ingredientRecords. revert form.
  induction rows as [|r rows IH]; intros [|f form] Heq; simpl in Heq;
    try discriminate; [constructor|].
  injection Heq as _ Hid Hq Hrest. constructor; [done | by apply IH].
Qed.

(** X17. When the rows of a product's recipe on the sales page are the rows
    that the products page sent for a form, the cost written into the sale
    records is the cost the form previewed ([calculateTotalCost]), the edit
    modal rebuilds that form from the rows, and, the form having passed the
    validation of [handleSubmit], the recipe is not empty and all its
    quantities per unit are positive. *)
Theorem saved_recipe_agrees_with_form (trim : string → string) (st : PageState)
    (name productId : string) (form : list ProductsPage.FormIngredient.t) :
  List.map (fun r => (ProductIngredient.product_id r, ProductIngredient.item_id r,
                      ProductIngredient.qty r)) (ingredientsOf st productId)
  = ProductsPage.ingredientRecords productId form →
  calculateProductCost st productId
  = ProductsPage.calculateTotalCost (inventoryItems st) form
  ∧ ProductsPage.formOfRows (ingredientsOf st productId) = form
  ∧ (ProductsPage.submitValidation trim name form = None →
     ingredientsOf st productId ≠ [] ∧ positiveRecipe st productId).
Proof.
  intros Hrows. pose proof (records_related _ _ _ Hrows) as Hrel.
  split; [by apply cost_folds_agree|]. split.
  - unfold ProductsPage.formOfRows. clear Hrows.
    induction Hrel as [|r [i q] rows form [Hid Hq] _ IH]; [done|].
    simpl in *. by rewrite IH, Hid, Hq.
  - unfold ProductsPage.submitValidation. case_decide; [done|].
    destruct form as [|f0 form0] eqn:Hform; [done|]. rewrite <- Hform in *.
    destruct (List.filter _ form) as [|bad ?] eqn:Hfilter; [|done]. intros _. split.
    + intros Hnil. rewrite Hnil, Hform in Hrel. inversion Hrel.
    + intros ing Hin.
      apply list_elem_of_lookup in Hin as [k Hk].
      destruct (Forall2_lookup_l _ _ _ _ _ Hrel Hk) as (f & Hf & _ & Hq).
      rewrite Hq. apply Qcnot_le_lt. intros Hle.
      assert (Hbad : In f (List.filter
                (fun ing => String.eqb (ProductsPage.FormIngredient.item_id ing) ""
                            || bool_decide (ProductsPage.FormIngredient.qty ing ≤ 0)) form)).
      { apply List.filter_In. split.
        - apply list_elem_of_In. by eapply list_elem_of_lookup_2.
        - apply orb_true_iff. right. by apply bool_decide_eq_true. }
      by rewrite Hfilter in Hbad.
Qed.

Lemma flourPage_rows_of_formA :
  List.map (fun r => (ProductIngredient.product_id r, ProductIngredient.item_id r,
                      ProductIngredient.qty r)) (ingredientsOf flourPage "A")
  = ProductsPage.ingredientRecords "A" formA.
Proof. rewrite flourPage_lines_A. reflexivity. Qed.

Lemma saved_recipe_agrees_with_form_witness :
  List.map (fun r => (ProductIngredient.product_id r, ProductIngredient.item_id r,
                      ProductIngredient.qty r)) (ingredientsOf flourPage "A")
  = ProductsPage.ingredientRecords "A" formA
  ∧ calculateProductCost flourPage "A"
    = ProductsPage.calculateTotalCost (inventoryItems flourPage) formA.
Proof.
  split; [apply flourPage_rows_of_formA|].
  exact (proj1 (saved_recipe_agrees_with_form sampleTrim flourPage "Product A" "A" formA
                  flourPage_rows_of_formA)).
Defined.

(** * Handlers called for a product without a cart line *)

Lemma filter_others_absent_eqb productId (c : list CartItem.t) :
  productId ∉ cartId <$> c →
  List.filter (fun item => negb (String.eqb (cartId item) productId)) c = c.
Proof.
  intros Hnot. rewrite others_eqb_decide. by apply filter_others_absent.
Qed.

Lemma simple_absent productId (g : SimpleSales.CartItem.t → SimpleSales.CartItem.t)
    (c : list SimpleSales.CartItem.t) :
  productId ∉ SimpleSales.cartId <$> c →
  List.filter (fun item => negb (String.eqb (SimpleSales.cartId item) productId)) c = c
  ∧ List.map (fun item => if String.eqb (SimpleSales.cartId item) productId
                          then g item else item) c = c
  ∧ List.find (fun item => String.eqb (SimpleSales.cartId item) productId) c = None.
Proof.
  induction c as [|x c IH]; [done|]. rewrite fmap_cons. intros Hnot.
  apply not_elem_of_cons in Hnot as [Hx Hc]. destruct (IH Hc) as (Hf & Hm & Hn).
  simpl. destruct (String.eqb_spec (SimpleSales.cartId x) productId); [congruence|].
  simpl. by rewrite Hf, Hm, Hn.
Qed.

(** X19. [updateCartQuantity] and [removeFromCart] called for a product that
    has no line leave the cart as it is, whatever the quantity, in the
    recipe-based component and in the simple-product one (where the stock
    check is skipped for want of a line). *)
Theorem absent_product_keeps_cart (productId : string) (q : Qc) :
  (∀ st : PageState,
     productId ∉ cartId <$> cart st →
     cart (updateCartQuantity st productId q).1 = cart st
     ∧ cart (removeFromCart st productId).1 = cart st)
  ∧ (∀ st : SimpleSales.PageState,
       productId ∉ SimpleSales.cartId <$> SimpleSales.cart st →
       SimpleSales.cart (SimpleSales.updateCartQuantity st productId q).1
       = SimpleSales.cart st
       ∧ SimpleSales.cart (SimpleSales.removeFromCart st productId).1
         = SimpleSales.cart st).
Proof.
  split.
  - intros st Hnot.
    assert (Hrem : cart (removeFromCart st productId).1 = cart st)
      by (by apply filter_others_absent_eqb).
    split; [|done]. unfold updateCartQuantity.
    case_decide; [done|]. case_decide; [done|]. simpl. by apply map_own_line.
  - intros st Hnot.
    destruct (simple_absent productId (SimpleSales.withQuantity q) _ Hnot)
      as (Hf & Hm & Hn).
    split; [|done]. unfold SimpleSales.updateCartQuantity.
    case_decide; [done|]. rewrite Hn. done.
Qed.

Lemma flourCart_no_C_id : "C" ∉ cartId <$> cart flourPage.
Proof.
  intros Hin. apply list_elem_of_fmap in Hin as (item & Hid & Hin).
  by apply (flourCart_no_C item Hin).
Qed.

Lemma absent_product_keeps_cart_witness :
  ("C" ∉ cartId <$> cart flourPage)
  ∧ cart (updateCartQuantity flourPage "C" (Q2Qc 2)).1 = cart flourPage.
Proof.
  split; [apply flourCart_no_C_id|].
  exact (proj1 (proj1 (absent_product_keeps_cart "C" (Q2Qc 2)) flourPage
                  flourCart_no_C_id)).
Defined.

(** * Filling the cart lowers the maxima *)

Lemma Math_floor_mono (x y : Qc) : x ≤ y → Math_floor x ≤ Math_floor y.
Proof.
  intros Hle. unfold Math_floor, Qcle. simpl. rewrite !inject_Z_Qred.
  rewrite <- Zle_Qle. by apply Qfloor_resp_le.
Qed.

Lemma Qcdiv_le_mono (a b d : Qc) : 0 < d → a ≤ b → a / d ≤ b / d.
Proof.
  intros Hd Hle. apply Qcle_div_iff; [done|].
  by rewrite Qcmult_comm, Qcmult_div_r by by apply Qcpos_neq_0.
Qed.

Section Monotone.
Variables st st' : PageState.
Variable productId : string.
Hypothesis Hitems : inventoryItems st' = inventoryItems st.
Hypothesis Hrecipes : productIngredients st' = productIngredients st.
Hypothesis Hpos : positiveRecipe st productId.
Hypothesis Hmore :
  ∀ itemId, reservedByOtherCartLines st productId itemId
            ≤ reservedByOtherCartLines st' productId itemId.

Lemma units_more ing :
  ing ∈ ingredientsOf st productId →
  match possibleUnitsFromThisIngredient st productId ing,
        possibleUnitsFromThisIngredient st' productId ing with
  | Some u, Some u' => u' ≤ u
  | None, None => True
  | _, _ => False
  end.
Proof.
  intros Hin. unfold possibleUnitsFromThisIngredient. rewrite Hitems.
  destruct (findItem _ _) as [item|]; [|done]. case_decide; [done|].
  apply Math_floor_mono, Qcdiv_le_mono; [by apply Hpos|].
  unfold Qcminus. apply Qcplus_le_mono_l, Qcopp_le_compat, Hmore.
Qed.

Lemma getMaxQuantity_antitone :
  getMaxQuantity st' productId ≤ getMaxQuantity st productId.
Proof.
  pose proof (ingredientsOf_same st st' Hrecipes productId) as Hlines.
  destruct (ingredientsOf st productId) as [|l0 ls] eqn:Hl.
  { rewrite (getMaxQuantity_no_lines st' _ Hlines), (getMaxQuantity_no_lines st _ Hl).
    apply Qcle_refl. }
  destruct (decide (Forall (fun ing => is_Some (possibleUnitsFromThisIngredient st productId ing))
                           (ingredientsOf st productId))) as [Hall|Hbad].
  - rewrite Forall_forall in Hall.
    assert (Hall' : ∀ ing, ing ∈ ingredientsOf st' productId →
                      is_Some (possibleUnitsFromThisIngredient st' productId ing)).
    { intros ing Hin. rewrite Hlines, <- Hl in Hin.
      pose proof (units_more ing Hin) as Hu. destruct (Hall ing Hin) as [u Hq].
      rewrite Hq in Hu. destruct (possibleUnitsFromThisIngredient st' _ _); [eauto|done]. }
    assert (Hne : ingredientsOf st productId ≠ []) by by rewrite Hl.
    assert (Hne' : ingredientsOf st' productId ≠ []) by by rewrite Hlines.
    destruct (proj1 (getMaxQuantity_good st productId Hne Hall)) as (ing & Hin & Hu).
    pose proof (units_more ing Hin) as Hcmp. rewrite Hu in Hcmp.
    destruct (possibleUnitsFromThisIngredient st' productId ing) as [u'|] eqn:Hu'; [|done].
    eapply Qcle_trans; [|exact Hcmp].
    apply (proj2 (getMaxQuantity_good st' productId Hne' Hall') ing u'); [|done].
    by rewrite Hlines, <- Hl.
  - apply not_Forall_Exists in Hbad; [|apply _].
    apply Exists_exists in Hbad as (bad & Hbin & Hnone).
    pose proof (units_more bad Hbin) as Hu.
    destruct (possibleUnitsFromThisIngredient st productId bad) eqn:Hq.
    { exfalso. apply Hnone. eauto. }
    destruct (possibleUnitsFromThisIngredient st' productId bad) eqn:Hq'; [done|].
    rewrite (getMaxQuantity_bad_line st productId), (getMaxQuantity_bad_line st' productId).
    + apply Qcle_refl.
    + exists bad. split; [by rewrite Hlines, <- Hl | done].
    + exists bad. split; [done | done].
Qed.
End Monotone.

(** X20. Adding a product that has no line in the cart never raises the
    maximum of any product: whether [addToCart] goes through or not,
    [getMaxQuantity] of a product with positive quantities per unit is
    afterwards at most what it was (the recipe of the product added having
    positive quantities as well). *)
Theorem addToCart_never_raises_maxima (st : PageState) (p : FinishedProduct.t)
    (productId : string) :
  selectedProduct st = Some p →
  FinishedProduct.id p ∉ cartId <$> cart st →
  positiveRecipe st productId →
  positiveRecipe st (FinishedProduct.id p) →
  getMaxQuantity (addToCart st).1 productId ≤ getMaxQuantity st productId.
Proof.
  intros Hsel Hfresh Hpos Hposp.
  destruct (addToCart_fields st) as [Hitems Hrec].
  apply getMaxQuantity_antitone; try done.
  intros itemId. unfold reservedByOtherCartLines.
  destruct (addToCart_cart_cases st) as [Hsame | [p' Hacc]].
  { rewrite Hsame. erewrite List.map_ext; [apply Qcle_refl|].
    intros c. simpl. symmetry. by apply lineReservation_same. }
  assert (p' = p) as ->. { destruct Hacc as [Hs _]. congruence. }
  rewrite (addToCart_accepted _ _ Hacc).
  destruct (list_find _ (cart st)) as [[k old]|] eqn:Hfind.
  { exfalso. apply list_find_Some in Hfind as (Hk & Hid & _).
    apply Hfresh. apply list_elem_of_fmap. exists old.
    split; [done | by eapply list_elem_of_lookup_2]. }
  simpl. rewrite List.filter_app, List.map_app, Qcsum_app.
  rewrite <- (Qcplus_0_r (Qcsum _)) at 1. apply Qcplus_le_mono_l.
  simpl. case_bool_decide; simpl; [|done].
  rewrite Qcplus_0_r. apply Qcmult_nonneg_nonneg.
  - by apply recipeQuantityFor_nonneg.
  - destruct Hacc as (_ & Hq & _). by apply Qclt_le_weak.
Qed.

Lemma flourPageC_positive productId : positiveRecipe flourPageC productId.
Proof.
  intros ing Hin. unfold ingredientsOf in Hin.
  change (productIngredients flourPageC) with (<["C" := recipeA]> recipes) in Hin.
  unfold recipes in Hin.
  destruct (decide (productId = "C")) as [->|HC].
  { rewrite lookup_insert_eq in Hin. simpl in Hin.
    apply list_elem_of_singleton in Hin as ->. reflexivity. }
  rewrite lookup_insert_ne in Hin by done.
  destruct (decide (productId = "A")) as [->|HA].
  { rewrite lookup_insert_eq in Hin. simpl in Hin.
    apply list_elem_of_singleton in Hin as ->. reflexivity. }
  rewrite lookup_insert_ne in Hin by done.
  destruct (decide (productId = "B")) as [->|HB].
  { rewrite lookup_insert_eq in Hin. simpl in Hin.
    apply list_elem_of_singleton in Hin as ->. reflexivity. }
  rewrite lookup_insert_ne, lookup_empty in Hin by done.
  by apply elem_of_nil in Hin.
Qed.

Lemma flourPageC_fresh : FinishedProduct.id productC ∉ cartId <$> cart flourPageC.
Proof.
  intros Hin. apply list_elem_of_fmap in Hin as (item & Hid & Hin).
  by apply (flourCart_no_C item Hin).
Qed.

Lemma addToCart_never_raises_maxima_witness :
  selectedProduct flourPageC = Some productC
  ∧ (FinishedProduct.id productC ∉ cartId <$> cart flourPageC)
  ∧ positiveRecipe flourPageC "A"
  ∧ positiveRecipe flourPageC (FinishedProduct.id productC)
  ∧ getMaxQuantity (addToCart flourPageC).1 "A" ≤ getMaxQuantity flourPageC "A".
Proof.
  split; [reflexivity|]. split; [apply flourPageC_fresh|].
  split; [apply flourPageC_positive|]. split; [apply flourPageC_positive|].
  exact (addToCart_never_raises_maxima flourPageC productC "A" eq_refl
           flourPageC_fresh (flourPageC_positive "A")
           (flourPageC_positive (FinishedProduct.id productC))).
Defined.

(** * Part II. Properties over binary64 *)

Import Binary64.
Local Open Scope num_scope.

(** ** Signs *)

Lemma shr_1_nonneg mrs : (0 ≤ shr_m mrs)%Z → (0 ≤ shr_m (shr_1 mrs))%Z.
Proof. destruct mrs as [[|[p|p|]|p] r s]; simpl; lia. Qed.

Lemma iter_pos_shr_1_nonneg p mrs :
  (0 ≤ shr_m mrs)%Z → (0 ≤ shr_m (SpecFloat.iter_pos shr_1 p mrs))%Z.
Proof.
  revert mrs. induction p as [p IH|p IH|]; intros mrs Hm; simpl.
  - apply IH, IH. by apply shr_1_nonneg.
  - by apply IH, IH.
  - by apply shr_1_nonneg.
Qed.

Lemma shr_nonneg mrs e n : (0 ≤ shr_m mrs)%Z → (0 ≤ shr_m (shr mrs e n).1)%Z.
Proof.
  intros Hm. destruct n as [|p|p]; simpl; [done| |done].
  by apply iter_pos_shr_1_nonneg.
Qed.

Lemma shr_record_of_loc_m m l : shr_m (shr_record_of_loc m l) = m.
Proof. by destruct l as [|[]]. Qed.

Lemma round_nearest_even_nonneg m l : (0 ≤ m)%Z → (0 ≤ round_nearest_even m l)%Z.
Proof. intros Hm. destruct l as [|[]]; simpl; try lia. destruct (Z.even m); lia. Qed.

Lemma binary_round_aux_signed s m e l :
  (0 ≤ m)%Z → signed s (binary_round_aux prec emax s m e l).
Proof.
  intros Hm. unfold binary_round_aux, shr_fexp.
  destruct (shr (shr_record_of_loc m l) e _) as [mrs' e'] eqn:H1.
  assert (0 ≤ shr_m mrs')%Z as Hm'.
  { change mrs' with (mrs', e').1. rewrite <- H1.
    apply shr_nonneg. by rewrite shr_record_of_loc_m. }
  destruct (shr (shr_record_of_loc _ loc_Exact) e' _) as [mrs'' e''] eqn:H2.
  assert (0 ≤ shr_m mrs'')%Z as Hm''.
  { change mrs'' with (mrs'', e'').1. rewrite <- H2.
    apply shr_nonneg. rewrite shr_record_of_loc_m.
    by apply round_nearest_even_nonneg. }
  destruct (shr_m mrs'') as [|p|p]; simpl; [done| |lia].
  by destruct (_ <=? _)%Z.
Qed.

Lemma signed_false_nonnegExt x : signed false x → nonnegExt x = true.
Proof. destruct x as [[]|[]| |[] ? ?]; simpl; done. Qed.

Lemma mul_nonneg x y : nonneg x = true → nonneg y = true → nonnegExt (x * y) = true.
Proof.
  destruct x as [[]|[]| |[] mx ex], y as [[]|[]| |[] my ey]; try done.
  intros _ _. apply signed_false_nonnegExt.
  apply (binary_round_aux_signed false). lia.
Qed.

Lemma add_nonnegExt x y :
  nonnegExt x = true → nonnegExt y = true → nonnegExt (x + y) = true.
Proof.
  destruct x as [[]|[]| |[] mx ex], y as [[]|[]| |[] my ey]; try done.
  intros _ _. apply signed_false_nonnegExt.
  unfold add, SFadd, binary_normalize. simpl cond_Zopp.
  destruct (shl_align mx ex _) as [mx' ex'], (shl_align my ey _) as [my' ey']. simpl.
  unfold binary_round. destruct (shl_align _ _ _) as [mz ez].
  apply (binary_round_aux_signed false). lia.
Qed.

Lemma add_zero_r x : nonnegExt x = true → x + zero = x.
Proof. by destruct x as [[]|[]| |[] mx ex]. Qed.

Lemma orZero_nonnegExt x : nonnegExt x = true → orZero (Some x) = x.
Proof. by destruct x as [[]|[]| |[] mx ex]. Qed.

Lemma sumOf_nonnegExt_from (l : list number) (a : number) :
  nonnegExt a = true → Forall (fun t => nonnegExt t = true) l →
  nonnegExt (fold_left add l a) = true.
Proof.
  revert a. induction l as [|t l IH]; intros a Ha Hl; simpl; [done|].
  apply Forall_cons in Hl as [Ht Hl]. apply IH; [|done]. by apply add_nonnegExt.
Qed.

(** ** The order *)

Lemma is_finite_notNaN x : is_finite x = true → notNaN x = true.
Proof. by destruct x. Qed.

Ltac order_cases :=
  repeat match goal with
         | |- context [Pos.compare_cont Eq ?a ?b] =>
           change (Pos.compare_cont Eq a b) with (Pos.compare a b)
         | H : context [Pos.compare_cont Eq ?a ?b] |- _ =>
           change (Pos.compare_cont Eq a b) with (Pos.compare a b) in H
         end;
  repeat match goal with
         | H : context [Z.compare ?a ?b] |- _ =>
           destruct (Z.compare_spec a b); simpl in H; try discriminate H
         | H : context [Pos.compare ?a ?b] |- _ =>
           destruct (Pos.compare_spec a b); simpl in H; try discriminate H
         end;
  repeat match goal with
         | |- context [Z.compare ?a ?b] => destruct (Z.compare_spec a b); simpl
         | |- context [Pos.compare ?a ?b] => destruct (Pos.compare_spec a b); simpl
         end;
  try done; try lia.

Lemma leb_refl x : notNaN x = true → (x <=? x) = true.
Proof.
  destruct x as [[]|[]| |[] m e]; try done; intros _;
    unfold leb, SFleb; simpl; order_cases.
Qed.

Lemma leb_trans x y z : (x <=? y) = true → (y <=? z) = true → (x <=? z) = true.
Proof.
  unfold leb, SFleb.
  destruct x as [[]|[]| |[] mx ex], y as [[]|[]| |[] my ey], z as [[]|[]| |[] mz ez];
    simpl; try done; intros H1 H2; order_cases.
Qed.

(** Of two numbers, neither of them [NaN], one is at most the other. *)
Lemma ltb_false_leb x y :
  notNaN x = true → notNaN y = true → (y <? x) = false → (x <=? y) = true.
Proof.
  unfold leb, ltb, SFleb, SFltb.
  destruct x as [[]|[]| |[] mx ex], y as [[]|[]| |[] my ey];
    simpl; try done; intros _ _ H; order_cases.
Qed.

Lemma ltb_leb x y : (x <? y) = true → (x <=? y) = true.
Proof.
  unfold leb, ltb, SFleb, SFltb. by destruct (SFcompare x y) as [[]|].
Qed.

Lemma Math_min_notNaN a b :
  notNaN a = true → notNaN b = true → notNaN (Math_min a b) = true.
Proof.
  intros Ha Hb. unfold Math_min.
  destruct a as [sa|sa| |sa ma ea], b as [sb|sb| |sb mb eb]; try done;
    repeat match goal with |- context [if ?c then _ else _] => destruct c end; done.
Qed.

Lemma Math_min_cases_b64 a b :
  notNaN a = true → notNaN b = true → Math_min a b = a ∨ Math_min a b = b.
Proof.
  intros Ha Hb. unfold Math_min.
  destruct a as [sa|sa| |sa ma ea], b as [sb|sb| |sb mb eb]; try done;
    repeat match goal with |- context [if ?c then _ else _] => destruct c end;
    auto.
  destruct sa, sb; auto.
Qed.

Lemma Math_min_le_l_b64 a b :
  notNaN a = true → notNaN b = true → (Math_min a b <=? a) = true.
Proof.
  intros Ha Hb.
  assert (Math_min a b = (if b <? a then b else if a <? b then a
                          else match a, b with
                               | S754_zero sa, S754_zero sb => S754_zero (sa || sb)
                               | _, _ => a
                               end)) as ->.
  { unfold Math_min. by destruct a, b. }
  destruct (b <? a) eqn:Hba; [by apply ltb_leb|].
  destruct (a <? b) eqn:Hab; [by apply leb_refl|].
  destruct a as [sa|sa| |sa ma ea]; try done; try by apply leb_refl.
  destruct b as [sb|sb| |sb mb eb]; try done; by apply leb_refl.
Qed.

Lemma Math_min_le_r_b64 a b :
  notNaN a = true → notNaN b = true → (Math_min a b <=? b) = true.
Proof.
  intros Ha Hb.
  assert (Math_min a b = (if b <? a then b else if a <? b then a
                          else match a, b with
                               | S754_zero sa, S754_zero sb => S754_zero (sa || sb)
                               | _, _ => a
                               end)) as ->.
  { unfold Math_min. by destruct a, b. }
  destruct (b <? a) eqn:Hba; [by apply leb_refl|].
  destruct (a <? b) eqn:Hab; [by apply ltb_leb|].
  destruct a as [sa|sa| |sa ma ea]; try done;
    try (by apply ltb_false_leb).
  destruct b as [sb|sb| |sb mb eb]; try done; by apply ltb_false_leb.
Qed.

Lemma leb_finite_not_Infinity x u :
  (x <=? u) = true → is_finite u = true → (x =? Infinity) = false.
Proof.
  unfold leb, eqb, SFleb, SFeqb.
  destruct x as [[]|[]| |[] mx ex], u as [[]|[]| |[] mu eu]; simpl; done.
Qed.

(** ** How the operations round *)

Section Rounding.
Local Open Scope Z_scope.
Local Open Scope Q_scope.

Lemma pow2_pos (e : Z) : 0 < 2 ^ e.
Proof. apply Qpower_0_lt. reflexivity. Qed.

Lemma pow2_plus (a b : Z) : 2 ^ (a + b) == 2 ^ a * 2 ^ b.
Proof. apply Qpower_plus. discriminate. Qed.

Lemma pow2_succ (e : Z) : 2 ^ (e + 1) == 2 * 2 ^ e.
Proof. rewrite pow2_plus. change (2 ^ 1) with 2. ring. Qed.

Lemma scaled_succ (x : Q) (e : Z) : x / 2 ^ (e + 1) == x / 2 ^ e * (1 # 2).
Proof.
  rewrite pow2_succ. pose proof (pow2_pos e) as Hb.
  field. intros H. rewrite H in Hb. by apply Qlt_irrefl in Hb.
Qed.

Lemma inject_Z_xO p : inject_Z (Zpos p~0) == 2 * inject_Z (Zpos p).
Proof. change (Zpos p~0) with (2 * Zpos p)%Z. by rewrite inject_Z_mult. Qed.

Lemma inject_Z_xI p : inject_Z (Zpos p~1) == 2 * inject_Z (Zpos p) + 1.
Proof.
  change (Zpos p~1) with (2 * Zpos p + 1)%Z. by rewrite inject_Z_plus, inject_Z_mult.
Qed.

Lemma located_compat m l t t' : t == t' → located m l t → located m l t'.
Proof. intros Ht. destruct l as [|[]]; simpl; lra. Qed.

Lemma shr_1_located mrs t :
  (0 <= shr_m mrs)%Z →
  located (shr_m mrs) (loc_of_shr_record mrs) t →
  located (shr_m (shr_1 mrs)) (loc_of_shr_record (shr_1 mrs)) (t * (1 # 2)).
Proof.
  destruct mrs as [[|[p|p|]|p] r s]; simpl shr_m; intros Hm; try lia;
    destruct r, s; simpl;
    rewrite ?inject_Z_xO, ?inject_Z_xI;
    change (inject_Z 0) with 0; change (inject_Z 1) with 1;
    intros H; lra.
Qed.

Lemma shr_1_inb mrs e x :
  (0 <= shr_m mrs)%Z → inb mrs e x → inb (shr_1 mrs) (e + 1) x.
Proof.
  unfold inb, inbetween. intros Hm H.
  eapply located_compat; [symmetry; apply scaled_succ|].
  by apply shr_1_located.
Qed.

Lemma iter_shr_1_inb p : ∀ mrs e x,
  (0 <= shr_m mrs)%Z → inb mrs e x →
  (0 <= shr_m (SpecFloat.iter_pos shr_1 p mrs))%Z
  ∧ inb (SpecFloat.iter_pos shr_1 p mrs) (e + Zpos p) x.
Proof.
  induction p as [p IH|p IH|]; intros mrs e x Hm H; simpl SpecFloat.iter_pos.
  - destruct (IH (shr_1 mrs) (e + 1)%Z x) as [Hm1 H1].
    { destruct mrs as [[|[q|q|]|q] r s]; simpl in *; lia. }
    { by apply shr_1_inb. }
    destruct (IH _ _ x Hm1 H1) as [Hm2 H2]. split; [done|].
    replace (e + Zpos p~1)%Z with (e + 1 + Zpos p + Zpos p)%Z by lia. done.
  - destruct (IH mrs e x Hm H) as [Hm1 H1].
    destruct (IH _ _ x Hm1 H1) as [Hm2 H2]. split; [done|].
    replace (e + Zpos p~0)%Z with (e + Zpos p + Zpos p)%Z by lia. done.
  - split; [|by apply shr_1_inb].
    destruct mrs as [[|[q|q|]|q] r s]; simpl in *; lia.
Qed.

Lemma shr_inb mrs e n x :
  (0 <= n)%Z → (0 <= shr_m mrs)%Z → inb mrs e x →
  (0 <= shr_m (shr mrs e n).1)%Z
  ∧ (shr mrs e n).2 = (e + n)%Z
  ∧ inb (shr mrs e n).1 (e + n) x.
Proof.
  intros Hn Hm H. destruct n as [|p|p]; simpl; [ | | lia].
  - rewrite Z.add_0_r. done.
  - destruct (iter_shr_1_inb p mrs e x Hm H) as [? ?]. done.
Qed.

Lemma loc_of_shr_record_of_loc m l :
  loc_of_shr_record (shr_record_of_loc m l) = l.
Proof. by destruct l as [|[]]. Qed.

Lemma shr_record_of_loc_m' m l : shr_m (shr_record_of_loc m l) = m.
Proof. by destruct l as [|[]]. Qed.

(** *** The number of digits *)

Lemma digits2_pos_bounds (p : positive) :
  (2 ^ (Zpos (digits2_pos p) - 1) <= Zpos p < 2 ^ Zpos (digits2_pos p))%Z.
Proof.
  induction p as [p IH|p IH|]; simpl digits2_pos.
  - rewrite Pos2Z.inj_succ. replace (Z.succ (Zpos (digits2_pos p)) - 1)%Z
      with (Z.succ (Zpos (digits2_pos p) - 1)) by lia.
    rewrite !Z.pow_succ_r by lia. lia.
  - rewrite Pos2Z.inj_succ. replace (Z.succ (Zpos (digits2_pos p)) - 1)%Z
      with (Z.succ (Zpos (digits2_pos p) - 1)) by lia.
    rewrite !Z.pow_succ_r by lia. lia.
  - simpl. lia.
Qed.

Lemma digits2_pos_unique (p : positive) (k : Z) :
  (2 ^ (k - 1) <= Zpos p < 2 ^ k)%Z → Zpos (digits2_pos p) = k.
Proof.
  intros [Hlo Hhi]. pose proof (digits2_pos_bounds p) as [Hlo' Hhi'].
  assert (0 < k)%Z as Hk.
  { destruct (Z.lt_trichotomy 0 k) as [?|[<-|Hneg]]; [done| |].
    - simpl in Hhi. lia.
    - rewrite (Z.pow_neg_r 2 k Hneg) in Hhi. lia. }
  set (d := Zpos (digits2_pos p)) in *.
  destruct (Z.lt_trichotomy d k) as [Hlt|[Heq|Hgt]]; [|done|].
  - assert (2 ^ d <= 2 ^ (k - 1))%Z by (apply Z.pow_le_mono_r; lia). lia.
  - assert (2 ^ k <= 2 ^ (d - 1))%Z by (apply Z.pow_le_mono_r; lia). lia.
Qed.

(** *** Rounding to nearest *)

Lemma inject_Z_pow2 (n : Z) : (0 <= n)%Z → inject_Z (2 ^ n) == 2 ^ n.
Proof. intros Hn. by rewrite Zpower_Qpower. Qed.

Lemma located_bounds m l t : located m l t → inject_Z m <= t ∧ t < inject_Z m + 1.
Proof. destruct l as [|[]]; simpl; lra. Qed.

Lemma round_nearest_even_spec m l t :
  located m l t →
  (m <= round_nearest_even m l <= m + 1)%Z
  ∧ - (1 # 2) <= inject_Z (round_nearest_even m l) - t
  ∧ inject_Z (round_nearest_even m l) - t <= 1 # 2.
Proof.
  destruct l as [|[]]; simpl; intros H.
  - split; [lia|]. lra.
  - destruct (Z.even m).
    + split; [lia|]. lra.
    + split; [lia|]. rewrite inject_Z_plus. change (inject_Z 1) with 1. lra.
  - split; [lia|]. lra.
  - split; [lia|]. rewrite inject_Z_plus. change (inject_Z 1) with 1. lra.
Qed.

Lemma scaled_value (x : Q) (e : Z) : x == x / 2 ^ e * 2 ^ e.
Proof.
  pose proof (pow2_pos e) as Hb. field.
  intros H. rewrite H in Hb. by apply Qlt_irrefl in Hb.
Qed.

(** A number located at the scale [2^e] next to a mantissa of [d] digits
    lies in the binade of [2^(d - 1 + e)]. *)
Lemma inbetween_binade (m : positive) (e : Z) (l : location) (x : Q) :
  inbetween (Zpos m) e l x →
  2 ^ (Zpos (digits2_pos m) - 1 + e) <= x ∧ x < 2 ^ (Zpos (digits2_pos m) + e).
Proof.
  unfold inbetween. intros H. apply located_bounds in H as [Hlo Hhi].
  pose proof (digits2_pos_bounds m) as [Hdlo Hdhi].
  set (d := Zpos (digits2_pos m)) in *.
  pose proof (pow2_pos e) as Hb.
  rewrite !pow2_plus, <- (inject_Z_pow2 (d - 1)), <- (inject_Z_pow2 d) by lia.
  split.
  - rewrite (scaled_value x e) at 1.
    apply Qmult_le_compat_r; [|lra].
    apply Qle_trans with (inject_Z (Zpos m)); [|done]. by rewrite <- Zle_Qle.
  - rewrite (scaled_value x e) at 1.
    apply Qmult_lt_compat_r; [done|].
    apply Qlt_le_trans with (inject_Z (Zpos m) + 1); [done|].
    change 1 with (inject_Z 1). rewrite <- inject_Z_plus.
    rewrite <- Zle_Qle. lia.
Qed.

Lemma fexp_normal (k : Z) : (-1074 <= k - 53)%Z → fexp 53 1024 k = (k - 53)%Z.
Proof. intros H. unfold fexp, emin. lia. Qed.

(** The second alignment of [binary_round_aux]: a mantissa of 53 digits
    stays, 2^53 becomes 2^52 one exponent higher. *)
Lemma renormalize (sx : bool) (m2 e' : Z) :
  (2 ^ 52 <= m2 <= 2 ^ 53)%Z → (-1074 <= e')%Z → (e' + 1 <= 971)%Z →
  ∃ m' e'',
    (let '(mrs'', e'') := shr_fexp 53 1024 m2 e' loc_Exact in
     match shr_m mrs'' with
     | Z0 => S754_zero sx
     | Zpos m => if (e'' <=? 1024 - 53)%Z then S754_finite sx m e'' else S754_infinity sx
     | Zneg _ => S754_nan
     end) = S754_finite sx m' e''
    ∧ Zpos (digits2_pos m') = 53%Z
    ∧ (e' <= e'' <= e' + 1)%Z
    ∧ inject_Z (Zpos m') * 2 ^ e'' == inject_Z m2 * 2 ^ e'.
Proof.
  intros [Hlo Hhi] He1 He2.
  destruct m2 as [|p2|p2]; [lia| |lia].
  destruct (Z.eq_dec (Zpos p2) (2 ^ 53)%Z) as [Heq|Hne].
  - exists (4503599627370496)%positive, (e' + 1)%Z.
    assert (p2 = 9007199254740992%positive) as ->.
    { apply Pos2Z.inj. rewrite Heq. reflexivity. }
    clear Heq Hlo Hhi. unfold shr_fexp.
    change (Zdigits2 (Z.pos 9007199254740992)) with 54%Z.
    rewrite fexp_normal by lia.
    replace (54 + e' - 53 - e')%Z with 1%Z by lia. simpl.
    change (1024 - 53)%Z with 971%Z.
    destruct (Z.leb_spec (e' + 1) 971); [|lia].
    split; [done|]. split; [vm_compute; reflexivity|]. split; [lia|].
    rewrite pow2_succ. change (inject_Z (Zpos 9007199254740992)) with (2 * inject_Z (Zpos 4503599627370496)). ring.
  - assert (Zpos (digits2_pos p2) = 53%Z) as Hd.
    { apply digits2_pos_unique. change (53 - 1)%Z with 52%Z. lia. }
    exists p2, e'. unfold shr_fexp. simpl Zdigits2. rewrite Hd.
    rewrite fexp_normal by lia.
    replace (53 + e' - 53 - e')%Z with 0%Z by lia. simpl.
    change (1024 - 53)%Z with 971%Z.
    destruct (Z.leb_spec e' 971); [|lia].
    split; [done|]. split; [done|]. split; [lia|]. reflexivity.
Qed.

(** [binary_round_aux] on a positive mantissa of at least 53 digits whose
    result is a normal number: the result is within 2^-53 of the rounded
    number, relatively. *)
Lemma binary_round_aux_spec (sx : bool) (m : positive) (e : Z) (l : location) (x : Q) :
  let d := Zpos (digits2_pos m) in
  let e' := (e + d - 53)%Z in
  (53 <= d)%Z → (-1074 <= e')%Z → (e' + 1 <= 971)%Z →
  inbetween (Zpos m) e l x →
  ∃ m' e'',
    binary_round_aux 53 1024 sx (Zpos m) e l = S754_finite sx m' e''
    ∧ Zpos (digits2_pos m') = 53%Z
    ∧ (e' <= e'' <= e' + 1)%Z
    ∧ 0 < x
    ∧ - ((1 # 9007199254740992) * x) <= inject_Z (Zpos m') * 2 ^ e'' - x
    ∧ inject_Z (Zpos m') * 2 ^ e'' - x <= (1 # 9007199254740992) * x.
Proof.
  intros d e' Hd He1 He2 Hin.
  destruct (inbetween_binade m e l x Hin) as [Hxlo Hxhi]. fold d in Hxlo, Hxhi.
  replace (d - 1 + e)%Z with (52 + e')%Z in Hxlo by (unfold e'; lia).
  replace (d + e)%Z with (53 + e')%Z in Hxhi by (unfold e'; lia).
  rewrite pow2_plus in Hxlo, Hxhi.
  pose proof (pow2_pos e') as Hb.
  unfold binary_round_aux. unfold shr_fexp at 1. simpl Zdigits2. fold d.
  rewrite fexp_normal by lia. replace (d + e - 53 - e)%Z with (d - 53)%Z by lia.
  destruct (shr_inb (shr_record_of_loc (Zpos m) l) e (d - 53) x) as (Hm1 & He & H1).
  { lia. }
  { by rewrite shr_record_of_loc_m'. }
  { unfold inb. by rewrite shr_record_of_loc_m', loc_of_shr_record_of_loc. }
  destruct (shr (shr_record_of_loc (Zpos m) l) e (d - 53)) as [mrs1 e1].
  simpl in Hm1, He, H1. subst e1.
  replace (e + (d - 53))%Z with e' in * by (unfold e'; lia).
  unfold inb, inbetween in H1. set (t := x / 2 ^ e') in *.
  assert (Hx : x == t * 2 ^ e') by apply scaled_value.
  destruct (located_bounds _ _ _ H1) as [Htlo Hthi].
  destruct (round_nearest_even_spec _ _ _ H1) as (Hm2 & Herr1 & Herr2).
  set (m2 := round_nearest_even (shr_m mrs1) (loc_of_shr_record mrs1)) in *.
  set (B := 2 ^ e') in *.
  change (2 ^ 52) with 4503599627370496 in Hxlo.
  change (2 ^ 53) with 9007199254740992 in Hxhi.
  assert (4503599627370496 <= t) as Ht1.
  { apply Qmult_le_r with B; [done|]. by rewrite <- Hx. }
  assert (t < 9007199254740992) as Ht2.
  { apply Qmult_lt_r with B; [done|]. by rewrite <- Hx. }
  assert (2 ^ 52 <= shr_m mrs1 < 2 ^ 53)%Z as Hm1b.
  { split.
    - apply Z.lt_succ_r. rewrite Zlt_Qlt.
      unfold Z.succ. rewrite inject_Z_plus.
      change (inject_Z (2 ^ 52)) with 4503599627370496. change (inject_Z 1) with 1. lra.
    - rewrite Zlt_Qlt. change (inject_Z (2 ^ 53)) with 9007199254740992. lra. }
  destruct (renormalize sx m2 e') as (m' & e'' & Hres & Hdig & He'' & Hval);
    [lia | lia | lia |].
  exists m', e''. split; [exact Hres|]. split; [done|]. split; [done|].
  rewrite Hval. fold B.
  assert (inject_Z m2 * B - x == (inject_Z m2 - t) * B) as -> by (rewrite Hx; ring).
  assert (- (1 # 2) * B <= (inject_Z m2 - t) * B) as Hlo'.
  { apply Qmult_le_compat_r; lra. }
  assert ((inject_Z m2 - t) * B <= (1 # 2) * B) as Hhi'.
  { apply Qmult_le_compat_r; lra. }
  split; [lra|]. split; lra.
Qed.

(** *** Multiplication *)

Lemma pow2_nonzero (e : Z) : ¬ 2 ^ e == 0.
Proof. pose proof (pow2_pos e) as H. intros H0. rewrite H0 in H. by apply Qlt_irrefl in H. Qed.

Lemma inject_Z_pos (p : positive) : 0 < inject_Z (Zpos p).
Proof. change 0 with (inject_Z 0). rewrite <- Zlt_Qlt. lia. Qed.

Lemma magnitude_pos m e : 0 < magnitude m e.
Proof.
  unfold magnitude. apply Qmult_lt_0_compat; [apply inject_Z_pos | apply pow2_pos].
Qed.

Lemma mul_spec (sx sy : bool) (mx my : positive) (ex ey : Z) :
  Zpos (digits2_pos mx) = 53%Z → Zpos (digits2_pos my) = 53%Z →
  (-1074 <= ex + ey + 52)%Z → (ex + ey + 54 <= 971)%Z →
  ∃ m' e',
    SFmul 53 1024 (S754_finite sx mx ex) (S754_finite sy my ey)
    = S754_finite (xorb sx sy) m' e'
    ∧ Zpos (digits2_pos m') = 53%Z
    ∧ (ex + ey + 52 <= e' <= ex + ey + 54)%Z
    ∧ - ((1 # 9007199254740992) * (magnitude mx ex * magnitude my ey))
      <= magnitude m' e' - magnitude mx ex * magnitude my ey
    ∧ magnitude m' e' - magnitude mx ex * magnitude my ey
      <= (1 # 9007199254740992) * (magnitude mx ex * magnitude my ey).
Proof.
  intros Hdx Hdy He1 He2. simpl SFmul.
  pose proof (digits2_pos_bounds mx) as Hbx. rewrite Hdx in Hbx.
  pose proof (digits2_pos_bounds my) as Hby. rewrite Hdy in Hby.
  change (53 - 1)%Z with 52%Z in *.
  change (2 ^ 52)%Z with 4503599627370496%Z in *.
  change (2 ^ 53)%Z with 9007199254740992%Z in *.
  pose proof (digits2_pos_bounds (mx * my)) as Hb.
  set (d := Zpos (digits2_pos (mx * my))) in *.
  rewrite Pos2Z.inj_mul in Hb.
  assert (105 <= d <= 106)%Z as Hd.
  { split.
    - destruct (Z.le_gt_cases 105 d) as [|Hlt]; [done|]. exfalso.
      assert (2 ^ d <= 2 ^ 104)%Z as Hp by (apply Z.pow_le_mono_r; lia).
      change (2 ^ 104)%Z with (4503599627370496 * 4503599627370496)%Z in Hp. nia.
    - destruct (Z.le_gt_cases d 106) as [|Hgt]; [done|]. exfalso.
      assert (2 ^ 106 <= 2 ^ (d - 1))%Z as Hp by (apply Z.pow_le_mono_r; lia).
      change (2 ^ 106)%Z with (9007199254740992 * 9007199254740992)%Z in Hp. nia. }
  destruct (binary_round_aux_spec (xorb sx sy) (mx * my) (ex + ey) loc_Exact
              (magnitude mx ex * magnitude my ey))
    as (m' & e' & Hres & Hdig & He' & _ & Hlo & Hhi); fold d.
  - lia.
  - lia.
  - lia.
  - unfold inbetween, located, magnitude.
    rewrite Pos2Z.inj_mul, inject_Z_mult, pow2_plus.
    field. split; apply pow2_nonzero.
  - exists m', e'. split; [exact Hres|]. split; [done|]. split; [lia|]. done.
Qed.

(** *** Division *)

(** [new_location] places the remainder of a division. *)
Lemma new_location_spec (b r q : Z) :
  (0 <= r < b)%Z →
  located q (new_location b r) (inject_Z q + inject_Z r / inject_Z b).
Proof.
  intros [Hr Hb].
  assert (0 < inject_Z b) as Hb'.
  { change 0 with (inject_Z 0). rewrite <- Zlt_Qlt. lia. }
  set (ρ := inject_Z r / inject_Z b).
  assert (Hρ : inject_Z r == ρ * inject_Z b).
  { unfold ρ. field. intros H0. rewrite H0 in Hb'. by apply Qlt_irrefl in Hb'. }
  assert (∀ c : Z, (c * r < b)%Z → inject_Z c * ρ < 1) as Hlt.
  { intros c Hc. rewrite Zlt_Qlt, inject_Z_mult, Hρ in Hc.
    apply Qmult_lt_r with (inject_Z b); [done|]. lra. }
  assert (∀ c : Z, (b < c * r)%Z → 1 < inject_Z c * ρ) as Hgt.
  { intros c Hc. rewrite Zlt_Qlt, inject_Z_mult, Hρ in Hc.
    apply Qmult_lt_r with (inject_Z b); [done|]. lra. }
  assert (∀ c : Z, (b = c * r)%Z → 1 == inject_Z c * ρ) as Heq.
  { intros c Hc. apply (f_equal inject_Z) in Hc. rewrite inject_Z_mult in Hc.
    apply Qmult_inj_r with (inject_Z b).
    - intros H0. rewrite H0 in Hb'. by apply Qlt_irrefl in Hb'.
    - rewrite <- Qmult_assoc, <- Hρ, <- Hc. ring. }
  assert (r ≠ 0%Z → 0 < ρ) as Hpos.
  { intros Hr0. assert (0 < inject_Z r) as Hr'.
    { change 0 with (inject_Z 0). rewrite <- Zlt_Qlt. lia. }
    rewrite Hρ in Hr'. apply Qmult_lt_r with (inject_Z b); [done|]. lra. }
  unfold new_location, new_location_even, new_location_odd.
  destruct (Z.eq_dec r 0%Z) as [Hr0|Hr0].
  { assert (ρ == 0) as Hz.
    { unfold ρ. rewrite Hr0. change (inject_Z 0) with 0. field.
      intros H0. rewrite H0 in Hb'. by apply Qlt_irrefl in Hb'. }
    rewrite Hr0. destruct (Z.even b); simpl; lra. }
  specialize (Hpos Hr0).
  assert (∀ A (u v : A), (if IntDef.Z.eqb r 0%Z then u else v) = v) as Hif.
  { intros A u v. destruct r; [done| |]; reflexivity. }
  change 2 with (inject_Z 2) in Hlt, Hgt, Heq.
  destruct (Z.even b) eqn:Hev; cbv beta; rewrite Hif; clear Hif.
  - destruct (Z.compare_spec (2 * r) b) as [Hc|Hc|Hc]; simpl.
    + symmetry in Hc. apply Heq in Hc. change (inject_Z 2) with 2 in Hc. lra.
    + apply Hlt in Hc. change (inject_Z 2) with 2 in Hc. lra.
    + apply Hgt in Hc. change (inject_Z 2) with 2 in Hc.
      assert (inject_Z 1 * ρ < 1) as H1 by (apply Hlt; lia).
      change (inject_Z 1) with 1 in H1. lra.
  - assert (b ≠ 2 * r)%Z as Hodd.
    { intros ->. rewrite Z.even_mul in Hev. done. }
    assert (inject_Z 1 * ρ < 1) as H1 by (apply Hlt; lia).
    change (inject_Z 1) with 1 in H1.
    destruct (Z.compare_spec (2 * r + 1) b) as [Hc|Hc|Hc]; simpl.
    + assert (2 * r < b)%Z as Hc' by lia.
      apply Hlt in Hc'. change (inject_Z 2) with 2 in Hc'. lra.
    + assert (2 * r < b)%Z as Hc' by lia.
      apply Hlt in Hc'. change (inject_Z 2) with 2 in Hc'. lra.
    + assert (b < 2 * r)%Z as Hc' by lia.
      apply Hgt in Hc'. change (inject_Z 2) with 2 in Hc'. lra.
Qed.

Lemma div_spec (sx sy : bool) (mx my : positive) (ex ey : Z) :
  Zpos (digits2_pos mx) = 53%Z → Zpos (digits2_pos my) = 53%Z →
  (-1074 <= ex - ey - 53)%Z → (ex - ey - 51 <= 971)%Z →
  ∃ m' e',
    SFdiv 53 1024 (S754_finite sx mx ex) (S754_finite sy my ey)
    = S754_finite (xorb sx sy) m' e'
    ∧ Zpos (digits2_pos m') = 53%Z
    ∧ (ex - ey - 53 <= e' <= ex - ey - 51)%Z
    ∧ - ((1 # 9007199254740992) * (magnitude mx ex / magnitude my ey))
      <= magnitude m' e' - magnitude mx ex / magnitude my ey
    ∧ magnitude m' e' - magnitude mx ex / magnitude my ey
      <= (1 # 9007199254740992) * (magnitude mx ex / magnitude my ey).
Proof.
  intros Hdx Hdy He1 He2. unfold SFdiv, SFdiv_core_binary.
  simpl Zdigits2. rewrite Hdx, Hdy.
  replace (53 + ex - (53 + ey))%Z with (ex - ey)%Z by lia.
  rewrite fexp_normal by lia.
  rewrite Z.min_l by lia.
  replace (ex - ey - (ex - ey - 53))%Z with 53%Z by lia. cbv iota.
  rewrite Z.shiftl_mul_pow2 by lia.
  pose proof (digits2_pos_bounds mx) as Hbx. rewrite Hdx in Hbx.
  pose proof (digits2_pos_bounds my) as Hby. rewrite Hdy in Hby.
  change (53 - 1)%Z with 52%Z in *.
  change (2 ^ 52)%Z with 4503599627370496%Z in *.
  change (2 ^ 53)%Z with 9007199254740992%Z in *.
  pose proof (Z_div_mod (Zpos mx * 9007199254740992) (Zpos my) eq_refl) as Hdiv.
  destruct (Z.div_eucl (Zpos mx * 9007199254740992) (Zpos my)) as [q r].
  destruct Hdiv as [Hqr Hr].
  assert (4503599627370496 <= q < 18014398509481984)%Z as Hq by nia.
  destruct q as [|pq|pq]; [lia| |lia].
  pose proof (digits2_pos_bounds pq) as Hbq.
  set (d := Zpos (digits2_pos pq)) in *.
  assert (53 <= d <= 54)%Z as Hd.
  { split.
    - destruct (Z.le_gt_cases 53 d) as [|Hlt]; [done|]. exfalso.
      assert (2 ^ d <= 2 ^ 52)%Z as Hp by (apply Z.pow_le_mono_r; lia).
      change (2 ^ 52)%Z with 4503599627370496%Z in Hp. lia.
    - destruct (Z.le_gt_cases d 54) as [|Hgt]; [done|]. exfalso.
      assert (2 ^ 54 <= 2 ^ (d - 1))%Z as Hp by (apply Z.pow_le_mono_r; lia).
      change (2 ^ 54)%Z with 18014398509481984%Z in Hp. lia. }
  destruct (binary_round_aux_spec (xorb sx sy) pq (ex - ey - 53) (new_location (Zpos my) r)
              (magnitude mx ex / magnitude my ey))
    as (m' & e' & Hres & Hdig & He' & _ & Hlo & Hhi); fold d.
  - lia.
  - lia.
  - lia.
  - unfold inbetween.
    eapply located_compat; [|apply new_location_spec; exact Hr].
    assert (inject_Z (Zpos mx) * 9007199254740992
            == inject_Z (Zpos my) * inject_Z (Zpos pq) + inject_Z r) as Hqr'.
    { change 9007199254740992 with (inject_Z 9007199254740992).
      by rewrite <- !inject_Z_mult, <- inject_Z_plus, Hqr. }
    pose proof (inject_Z_pos my) as Hmy.
    assert (inject_Z (Zpos pq) + inject_Z r / inject_Z (Zpos my)
            == inject_Z (Zpos mx) * 9007199254740992 / inject_Z (Zpos my)) as ->.
    { rewrite Hqr'. field. intros H0. rewrite H0 in Hmy. by apply Qlt_irrefl in Hmy. }
    unfold magnitude.
    replace ex with ((ex - ey - 53) + 53 + ey)%Z at 1 by lia.
    rewrite !pow2_plus. change (2 ^ 53) with 9007199254740992.
    field. repeat split; try apply pow2_nonzero.
    intros H0. rewrite H0 in Hmy. by apply Qlt_irrefl in Hmy.
  - exists m', e'. split; [exact Hres|]. split; [done|]. split; [lia|]. done.
Qed.

End Rounding.

(** ** Reservations *)

Lemma String_eqb_bool_decide (a b : string) : String.eqb a b = bool_decide (a = b).
Proof.
  destruct (String.eqb_spec a b).
  - by rewrite bool_decide_eq_true_2.
  - by rewrite bool_decide_eq_false_2.
Qed.

Lemma others_filter st productId :
  List.filter (fun c => negb (String.eqb (cartId c) productId)) (cart st)
  = otherLines st productId.
Proof.
  unfold otherLines. apply List.filter_ext. intros c.
  rewrite String_eqb_bool_decide. apply eq_sym, bool_decide_not.
Qed.

Lemma getInventoryInIngredientUnit_spec_b64 item :
  getInventoryInIngredientUnit item = stockInRecipeUnit item.
Proof.
  unfold getInventoryInIngredientUnit, stockInRecipeUnit.
  destruct (InventoryItem.unit_type item); by case_decide.
Qed.

Lemma find_filter_head {A} (f : A → bool) (l : list A) :
  List.find f l = head (List.filter f l).
Proof. induction l as [|x l IH]; simpl; [done|]. by destruct (f x). Qed.

(** A recipe that names no ingredient twice has at most one line for each. *)
Lemma namesOnce_filter (recipe : list ProductIngredient.t) itemId :
  NoDup (ProductIngredient.item_id <$> recipe) →
  (length (List.filter (fun ing => String.eqb (ProductIngredient.item_id ing) itemId)
                       recipe) ≤ 1)%nat.
Proof.
  induction recipe as [|ing rest IH]; simpl; [lia|].
  rewrite ?fmap_cons. intros Hnd. apply NoDup_cons in Hnd as [Hing Hnd].
  destruct (String.eqb_spec (ProductIngredient.item_id ing) itemId) as [Heq|Hne];
    [|by apply IH].
  simpl. assert (List.filter (fun ing0 => String.eqb (ProductIngredient.item_id ing0) itemId) rest = []) as ->; [|simpl; lia].
  clear IH Hnd. induction rest as [|x rest IH]; simpl; [done|].
  rewrite ?fmap_cons in Hing. apply not_elem_of_cons in Hing as [Hx Hrest].
  destruct (String.eqb_spec (ProductIngredient.item_id x) itemId) as [Hx'|_];
    [congruence | by apply IH].
Qed.

Section Reserved.
Variable st : PageState.
Variable itemId : string.

Lemma lineCommitments_nonnegExt c :
  ordinaryLine st c → Forall (fun t => nonnegExt t = true) (lineCommitments st itemId c).
Proof.
  intros [Hq Hrec]. unfold lineCommitments.
  apply Forall_forall. intros t Ht. apply list_elem_of_In in Ht.
  apply in_map_iff in Ht as (ing & <- & Hing).
  apply filter_In in Hing as [Hing _]. apply list_elem_of_In in Hing.
  apply mul_nonneg; [by apply Hrec | done].
Qed.

(** One step of the reduction, for a line whose recipe names the ingredient
    at most once. *)
Lemma reserveStep_spec_b64 total c :
  nonnegExt total = true → ordinaryLine st c → namesOnce st c →
  reserveStep st itemId total c = fold_left add (lineCommitments st itemId c) total.
Proof.
  intros Htot Hord Hone. unfold reserveStep, lineCommitments.
  rewrite find_filter_head.
  pose proof (namesOnce_filter _ itemId Hone) as Hlen.
  destruct (List.filter _ _) as [|m [|m' l]]; simpl in *; [|done|lia].
  by apply add_zero_r.
Qed.

Lemma cartReserved_fold (lines : list CartItem.t) total :
  nonnegExt total = true →
  (∀ c, c ∈ lines → ordinaryLine st c ∧ namesOnce st c) →
  fold_left (reserveStep st itemId) lines total
  = fold_left add (flat_map (lineCommitments st itemId) lines) total.
Proof.
  revert total. induction lines as [|c lines IH]; intros total Htot Hall; simpl; [done|].
  destruct (Hall c) as [Hord Hone]; [apply list_elem_of_here|].
  rewrite fold_left_app, <- reserveStep_spec_b64 by done.
  apply IH.
  - rewrite reserveStep_spec_b64 by done.
    apply sumOf_nonnegExt_from; [done | by apply lineCommitments_nonnegExt].
  - intros c' Hc'. apply Hall. by apply list_elem_of_further.
Qed.
End Reserved.

(** The reservation the availability functions compute is the one of the
    specification when the other cart lines are ordinary and their recipes
    name no ingredient twice. *)
Lemma cartReserved_spec_b64 st productId itemId :
  (∀ c, c ∈ otherLines st productId → ordinaryLine st c ∧ namesOnce st c) →
  cartReserved st productId itemId = reservedByOtherCartLines st productId itemId.
Proof.
  intros Hall. unfold cartReserved, reservedByOtherCartLines, sumOf.
  rewrite others_filter. by apply cartReserved_fold.
Qed.

(** ** The availability calculator *)

Section MaxQty.
Variable st : PageState.
Variable productId : string.
Hypothesis Hothers :
  ∀ c, c ∈ otherLines st productId → ordinaryLine st c ∧ namesOnce st c.

Local Abbreviation units := (possibleUnitsFromThisIngredient st productId).

Lemma maxQtyLoop_cons_Some_b64 ing rest acc u :
  units ing = Some u →
  maxQtyLoop st productId (ing :: rest) acc
  = maxQtyLoop st productId rest (Math_min acc u).
Proof.
  unfold possibleUnitsFromThisIngredient. simpl.
  destruct (findItem _ _) as [item|]; [|done].
  destruct (_ =? zero); [done|]. intros [= <-].
  by rewrite getInventoryInIngredientUnit_spec_b64, cartReserved_spec_b64.
Qed.

Lemma maxQtyLoop_good_b64 lines acc :
  notNaN acc = true →
  (∀ ing, ing ∈ lines → ∃ u, units ing = Some u ∧ is_finite u = true) →
  let r := maxQtyLoop st productId lines acc in
  notNaN r = true
  ∧ (r = acc ∨ ∃ ing, ing ∈ lines ∧ units ing = Some r)
  ∧ (r <=? acc) = true
  ∧ ∀ ing u, ing ∈ lines → units ing = Some u → (r <=? u) = true.
Proof.
  revert acc. induction lines as [|ing rest IH]; intros acc Hacc Hall; simpl.
  { split; [done|]. split; [by left|]. split; [by apply leb_refl|].
    intros ing u Hin. by apply elem_of_nil in Hin. }
  destruct (Hall ing) as (u & Hu & Hfin); [apply list_elem_of_here|].
  pose proof (is_finite_notNaN _ Hfin) as Hun.
  pose proof (maxQtyLoop_cons_Some_b64 ing rest acc u Hu) as Hstep. simpl in Hstep.
  rewrite Hstep.
  destruct (IH (Math_min acc u)) as (Hr & Hatt & Hle & Hlow).
  { by apply Math_min_notNaN. }
  { intros ing' Hin'. apply Hall. by apply list_elem_of_further. }
  split; [done|]. split; [|split].
  - destruct Hatt as [-> | (ing' & Hin' & Hing')].
    + destruct (Math_min_cases_b64 acc u Hacc Hun) as [-> | ->]; [by left|].
      right. exists ing. split; [apply list_elem_of_here | done].
    + right. exists ing'. split; [by apply list_elem_of_further | done].
  - eapply leb_trans; [exact Hle|]. by apply Math_min_le_l_b64.
  - intros ing' u' Hin' Hu'. apply elem_of_cons in Hin' as [-> | Hin'].
    + rewrite Hu in Hu'. injection Hu' as <-.
      eapply leb_trans; [exact Hle|]. by apply Math_min_le_r_b64.
    + by eapply Hlow.
Qed.
End MaxQty.

Lemma maxQtyLoop_bad_b64 st productId lines acc :
  (∃ ing, ing ∈ lines ∧ possibleUnitsFromThisIngredient st productId ing = None) →
  maxQtyLoop st productId lines acc = zero.
Proof.
  revert acc. induction lines as [|ing rest IH]; intros acc (bad & Hin & Hbad).
  { by apply elem_of_nil in Hin. }
  simpl. apply elem_of_cons in Hin as [-> | Hin].
  - unfold possibleUnitsFromThisIngredient in Hbad.
    destruct (findItem _ _) as [item|]; [|done].
    destruct (ProductIngredient.qty ing =? zero); [done | discriminate Hbad].
  - destruct (findItem (inventoryItems st) (ProductIngredient.item_id ing)) as [item|];
      [|done].
    destruct (ProductIngredient.qty ing =? zero); [done|]. apply IH. eauto.
Qed.

(** X21. [getMaxQuantity] in the arithmetic of the program: 0 for a product
    without recipe lines; 0 as soon as a recipe line has its ingredient
    missing from the snapshot or a quantity per unit equal to 0; otherwise,
    when the other cart lines have quantities that are zero or positive and
    recipes that name no ingredient twice, and every line's
    floor((stock x 1000 - reservations) / quantity per unit) is a finite
    number, the minimum of these: attained by a line and at most the value
    of every line. *)
Theorem getMaxQuantity_min_ratio_binary64 (st : PageState) (productId : string) :
  let lines := ingredientsOf st productId in
  let units := possibleUnitsFromThisIngredient st productId in
  (lines = [] → getMaxQuantity st productId = zero)
  ∧ ((∃ ing, ing ∈ lines ∧ units ing = None) → getMaxQuantity st productId = zero)
  ∧ (lines ≠ [] →
     (∀ c, c ∈ otherLines st productId → ordinaryLine st c ∧ namesOnce st c) →
     (∀ ing, ing ∈ lines → ∃ u, units ing = Some u ∧ is_finite u = true) →
     (∃ ing, ing ∈ lines ∧ units ing = Some (getMaxQuantity st productId))
     ∧ (∀ ing u, ing ∈ lines → units ing = Some u →
          (getMaxQuantity st productId <=? u) = true)).
Proof.
  intros lines units. unfold getMaxQuantity. fold lines. split; [|split].
  - by intros ->.
  - intros Hbad. rewrite (maxQtyLoop_bad_b64 _ _ _ _ Hbad). by destruct lines.
  - intros Hne Hothers Hall.
    destruct (maxQtyLoop_good_b64 st productId Hothers lines Infinity eq_refl Hall)
      as (Hr & Hatt & _ & Hlow).
    destruct lines as [|ing0 rest] eqn:Hlines; [done|]. rewrite <- Hlines in *.
    assert (ing0 ∈ lines) as Hin0 by (rewrite Hlines; apply list_elem_of_here).
    destruct (Hall ing0 Hin0) as (u0 & Hu0 & Hfin0).
    rewrite (leb_finite_not_Infinity _ u0 (Hlow ing0 u0 Hin0 Hu0) Hfin0).
    split; [|done].
    destruct Hatt as [Heq | Hatt]; [|done].
    pose proof (leb_finite_not_Infinity _ u0 (Hlow ing0 u0 Hin0 Hu0) Hfin0) as Hinf.
    by rewrite Heq in Hinf.
Qed.

Lemma cakePage_lines : ingredientsOf cakePage "cake" = recipeCake.
Proof. vm_compute. reflexivity. Qed.

Lemma cakePage_others c :
  c ∈ otherLines cakePage "cake" → ordinaryLine cakePage c ∧ namesOnce cakePage c.
Proof.
  change (otherLines cakePage "cake") with [CartItem.mk productB (ofZ 1) recipeB].
  intros Hc. apply list_elem_of_singleton in Hc as ->.
  split; [split|].
  - reflexivity.
  - change (ingredientsOf cakePage (cartId (CartItem.mk productB (ofZ 1) recipeB)))
      with recipeB.
    intros ing Hing. apply list_elem_of_singleton in Hing as ->. reflexivity.
  - unfold namesOnce.
    change (ingredientsOf cakePage (cartId (CartItem.mk productB (ofZ 1) recipeB)))
      with recipeB.
    apply NoDup_singleton.
Qed.

Lemma cakePage_units ing :
  ing ∈ ingredientsOf cakePage "cake" →
  ∃ u, possibleUnitsFromThisIngredient cakePage "cake" ing = Some u ∧ is_finite u = true.
Proof.
  rewrite cakePage_lines. intros Hin.
  apply elem_of_cons in Hin as [-> | Hin];
    [|apply list_elem_of_singleton in Hin as ->];
    eexists; split; vm_compute; reflexivity.
Qed.

(** The cake of [cakePage]: the flour (2.01 kg less the 300 g that B
    reserves) is enough for 2, the eggs for 1, and the maximum is 1. *)
Lemma getMaxQuantity_min_ratio_binary64_witness :
  ingredientsOf cakePage "cake" ≠ []
  ∧ (∀ c, c ∈ otherLines cakePage "cake" → ordinaryLine cakePage c ∧ namesOnce cakePage c)
  ∧ (∀ ing, ing ∈ ingredientsOf cakePage "cake" →
       ∃ u, possibleUnitsFromThisIngredient cakePage "cake" ing = Some u
            ∧ is_finite u = true)
  ∧ List.map (possibleUnitsFromThisIngredient cakePage "cake") recipeCake
    = [Some (ofZ 2); Some (ofZ 1)]
  ∧ getMaxQuantity cakePage "cake" = ofZ 1
  ∧ (∃ ing, ing ∈ ingredientsOf cakePage "cake"
       ∧ possibleUnitsFromThisIngredient cakePage "cake" ing
         = Some (getMaxQuantity cakePage "cake")).
Proof.
  assert (H1 : ingredientsOf cakePage "cake" ≠ []).
  { rewrite cakePage_lines. discriminate. }
  split; [exact H1|]. split; [exact cakePage_others|].
  split; [exact cakePage_units|].
  split; [vm_compute; reflexivity|]. split; [vm_compute; reflexivity|].
  exact (proj1 (proj2 (proj2 (getMaxQuantity_min_ratio_binary64 cakePage "cake"))
                  H1 cakePage_others cakePage_units)).
Defined.

(** In exact arithmetic 2.01 kg of flour are 2010 g and give 3 loaves of
    670 g; the program computes 2.01 x 1000 = 2009.9999999999998 and offers
    2. *)
Lemma getMaxQuantity_rounds_down :
  getInventoryInIngredientUnit flour201 ≠ ofZ 2010
  ∧ getMaxQuantity loafPage "loaf" = ofZ 2
  ∧ canSellProduct loafPage "loaf" (ofZ 3) = false.
Proof. split; [|split]; vm_compute; done. Qed.

(** C1. The reservation that [getMaxQuantity] subtracts for a cart line is
    the quantity of the first recipe line naming the ingredient only.  With
    1 kg of flour, product A at 200 g and one D in the cart, whose recipe
    names flour twice (300 g and 300 g), D commits 600 g: the formula of
    the spec gives floor((1000 - 600) / 200) = 2 for A, [getMaxQuantity]
    gives 3.  The third A is accepted by [addToCart] and by the validation
    of the checkout, whose deduction (counting every recipe line) then
    takes 1200 g from the 1000 g and leaves the row at -0.20 kg. *)
Theorem getMaxQuantity_doubled_recipe :
  ingredientsOf doubledPage "A" = recipeA
  ∧ reservedByOtherCartLines doubledPage "A" "flour" = ofZ 600
  ∧ cartReserved doubledPage "A" "flour" = ofZ 300
  ∧ List.map (possibleUnitsFromThisIngredient doubledPage "A") recipeA = [Some (ofZ 2)]
  ∧ getMaxQuantity doubledPage "A" = ofZ 3
  ∧ (let st := (addToCart doubledPage).1 in
     (addToCart doubledPage).2 = [toast_success "Added to cart"]
     ∧ checkoutValidation st = None
     ∧ totalDeduction st "flour" = ofZ 1200
     ∧ List.map ProductRow.qty
                (products (handleCheckout serviceOk "tx" st flourDb).1.2)
       = [(-20)%Z]).
Proof. repeat split; vm_compute; reflexivity. Qed.

(** ** The boolean check *)

Section CanSell.
Variable st : PageState.
Variable productId : string.
Variable qty : number.
Hypothesis Hothers :
  ∀ c, c ∈ otherLines st productId → ordinaryLine st c ∧ namesOnce st c.

Lemma canSellLoop_false_b64 lines :
  canSellLoop st productId qty lines = false
  ↔ ∃ ing, ing ∈ lines ∧ lineFails st productId qty ing.
Proof.
  induction lines as [|ing rest IH]; simpl.
  { split; [done|]. intros (ing & Hin & _). by apply elem_of_nil in Hin. }
  assert (Hhead : lineFails st productId qty ing
                  ↔ match findItem (inventoryItems st) (ProductIngredient.item_id ing) with
                    | None => True
                    | Some item =>
                      (getInventoryInIngredientUnit item
                       <? ProductIngredient.qty ing * qty
                          + cartReserved st productId (ProductIngredient.item_id ing)) = true
                    end).
  { unfold lineFails. destruct (findItem _ _) as [item|]; [|done].
    by rewrite getInventoryInIngredientUnit_spec_b64, cartReserved_spec_b64. }
  split.
  - intros Hloop.
    destruct (findItem (inventoryItems st) (ProductIngredient.item_id ing)) as [item|] eqn:Hitem.
    + destruct (_ <? _) eqn:Hlt.
      * exists ing. split; [apply list_elem_of_here | by apply Hhead].
      * apply IH in Hloop as (ing' & Hin' & Hfail').
        exists ing'. split; [by apply list_elem_of_further | done].
    + exists ing. split; [apply list_elem_of_here | by apply Hhead].
  - intros (ing' & Hin' & Hfail'). apply elem_of_cons in Hin' as [-> | Hin'].
    + apply Hhead in Hfail'.
      destruct (findItem (inventoryItems st) (ProductIngredient.item_id ing)) as [item|];
        [|done].
      by rewrite Hfail'.
    + destruct (findItem (inventoryItems st) (ProductIngredient.item_id ing)) as [item|];
        [|done].
      destruct (_ <? _); [done|]. apply IH. eauto.
Qed.

Lemma canSellProduct_false_b64 :
  canSellProduct st productId qty = false
  ↔ ingredientsOf st productId = []
    ∨ ∃ ing, ing ∈ ingredientsOf st productId ∧ lineFails st productId qty ing.
Proof.
  unfold canSellProduct.
  destruct (ingredientsOf st productId) as [|ing rest] eqn:Hlines.
  { split; [by left | done]. }
  rewrite canSellLoop_false_b64. split; [by right|]. by intros [?|?].
Qed.
End CanSell.

Lemma zeroLinePage_canSell_b64 (q : number) : canSellProduct zeroLinePage "Z" q = true.
Proof. destruct q as [[]|[]| |[] m e]; vm_compute; reflexivity. Qed.



(** X22. The limit the modal shows and the check of the checkout can
    disagree in the arithmetic of the program: with 0.51 kg of saffron and
    0.17 g per paella, [getMaxQuantity] is floor(510 / 0.17) = 3000,
    [addToCart] accepts 3000, and the checkout then refuses the line, since
    0.17 x 3000 is 510.00000000000006 and 510 is below it. *)
Theorem limit_fails_validation :
  getMaxQuantity saffronPage "paella" = ofZ 3000
  ∧ (addToCart saffronPage).2 = [toast_success "Added to cart"]
  ∧ canSellProduct saffronPage "paella" (ofZ 3000) = false
  ∧ checkoutValidation (addToCart saffronPage).1
    = Some "Not enough ingredients for Paella".
Proof. repeat split; vm_compute; reflexivity. Qed.

(** ** Checkout *)

Lemma checkoutValidation_None_b64 st :
  checkoutValidation st = None ↔ checkoutPreconditions st.
Proof.
  unfold checkoutValidation, checkoutPreconditions.
  destruct (cart st) as [|c0 cs] eqn:Hcart.
  { split; [done | by intros [? _]]. }
  rewrite <- Hcart.
  case_decide as Hpay. { split; [done | by intros (_ & ? & _)]. }
  case_decide as Hcust. { split; [done | by intros (_ & _ & ? & _)]. }
  destruct (dineInEnabled st && bool_decide (selectedDineInTakeout st = None)) eqn:Hdine.
  { apply andb_true_iff in Hdine as [Hen Hnone]. apply bool_decide_eq_true in Hnone.
    split; [done | intros (_ & _ & _ & Hd & _); exfalso; by apply Hd]. }
  destruct (List.find _ (cart st)) as [bad|] eqn:Hfind.
  - split; [done|]. intros (_ & _ & _ & _ & Hall).
    apply List.find_some in Hfind as [Hin Hneg].
    apply list_elem_of_In in Hin. rewrite (Hall bad Hin) in Hneg. done.
  - split; [|done]. intros _.
    split; [by rewrite Hcart|]. do 2 (split; [done|]). split.
    + intros Hen Hnone. rewrite Hen, bool_decide_eq_true_2 in Hdine; done.
    + intros item Hin. apply list_elem_of_In in Hin.
      pose proof (List.find_none _ _ Hfind item Hin) as Hneg.
      by apply negb_false_iff in Hneg.
Qed.

Lemma handleCheckout_succeeded_inv_b64 svc tx st db :
  checkoutSucceeded (handleCheckout svc tx st db) →
  checkoutPreconditions st
  ∧ Forall (fun req => updateRejected svc req = false) (inventoryUpdates st)
  ∧ ∃ saleData,
      insertSales svc (saleRecords st tx) = Some saleData
      ∧ handleCheckout svc tx st db
        = (setIsCheckingOut false (clearCart st),
           mkDb (sales db ++ saleData)
                (fold_left (runUpdate svc) (inventoryUpdates st) (products db)),
           (match saleData with
            | r :: _ => [addRecentSale r]
            | [] => []
            end ++ [toast_sale_completed (cartTotal (cart st)); fetchData])%list).
Proof.
  intros [total Hin]. unfold handleCheckout in *.
  destruct (checkoutValidation st) as [msg|] eqn:Hv.
  { simpl in Hin. apply list_elem_of_singleton in Hin. discriminate. }
  apply checkoutValidation_None_b64 in Hv. split; [done|].
  unfold checkoutCommit in *.
  destruct (insertSales svc _) as [saleData|].
  2:{ simpl in Hin. apply list_elem_of_singleton in Hin. discriminate. }
  simpl in *.
  destruct (existsb _ (inventoryUpdates st)) eqn:Hex.
  { simpl in Hin. apply list_elem_of_singleton in Hin. discriminate. }
  split; [|by exists saleData].
  apply Forall_forall. intros req Hreq. apply list_elem_of_In in Hreq.
  destruct (updateRejected svc req) eqn:Hf; [|done].
  assert (existsb (updateRejected svc) (inventoryUpdates st) = true) as Ht.
  { apply existsb_exists. eauto. }
  congruence.
Qed.

(** *** The aggregated deductions *)

Lemma accumulate_Some (terms : list number) (s : number) :
  nonnegExt s = true → Forall (fun t => nonnegExt t = true) terms →
  accumulate terms (Some s) = Some (fold_left add terms s).
Proof.
  revert s. induction terms as [|t terms IH]; intros s Hs Hall; [done|].
  apply Forall_cons in Hall as [Ht Hall].
  change (accumulate (t :: terms) (Some s))
    with (accumulate terms (Some (orZero (Some s) + t))).
  rewrite orZero_nonnegExt by done.
  apply IH; [by apply add_nonnegExt | done].
Qed.

Lemma accumulate_None (terms : list number) :
  Forall (fun t => nonnegExt t = true) terms →
  accumulate terms None = match terms with [] => None | _ => Some (sumOf terms) end.
Proof.
  destruct terms as [|t terms]; [done|]. intros Hall.
  apply Forall_cons in Hall as [Ht Hall].
  change (accumulate (t :: terms) None) with (accumulate terms (Some (zero + t))).
  rewrite accumulate_Some; [done | by apply add_nonnegExt | done].
Qed.

Lemma accumulate_app (l k : list number) entry :
  accumulate (l ++ k) entry = accumulate k (accumulate l entry).
Proof. unfold accumulate. apply fold_left_app. Qed.

Section Deductions.
Variable st : PageState.
Variable itemId : string.

Local Abbreviation names := (fun ing => String.eqb (ProductIngredient.item_id ing) itemId).

(** The inner loop, over the recipe lines of one cart line. *)
Lemma addDeduction_fold_lookup_b64 item ings (acc : gmap string number) :
  fold_left (addDeduction item) ings acc !! itemId
  = accumulate (List.map (fun ing => ProductIngredient.qty ing * CartItem.quantity item)
                         (List.filter names ings))
               (acc !! itemId).
Proof.
  revert acc. induction ings as [|ing rest IH]; intros acc; simpl; [done|].
  rewrite IH. unfold addDeduction.
  destruct (String.eqb_spec (ProductIngredient.item_id ing) itemId) as [Heq|Hne]; simpl.
  - by rewrite Heq, lookup_insert_eq.
  - by rewrite lookup_insert_ne.
Qed.

(** The outer loop, over the cart. *)
Lemma ingredientDeductions_fold_lookup_b64 (c : list CartItem.t) (acc : gmap string number) :
  fold_left
    (fun acc item => fold_left (addDeduction item) (ingredientsOf st (cartId item)) acc)
    c acc !! itemId
  = accumulate (flat_map (lineCommitments st itemId) c) (acc !! itemId).
Proof.
  revert acc. induction c as [|item rest IH]; intros acc; simpl; [done|].
  by rewrite IH, addDeduction_fold_lookup_b64, accumulate_app.
Qed.

Lemma ingredientUsed_commitments (c : list CartItem.t) :
  existsb (fun item => existsb names (ingredientsOf st (cartId item))) c = false
  ↔ flat_map (lineCommitments st itemId) c = [].
Proof.
  induction c as [|item rest IH]; simpl; [done|].
  rewrite orb_false_iff, IH. unfold lineCommitments.
  assert (existsb names (ingredientsOf st (cartId item)) = false
          ↔ List.filter names (ingredientsOf st (cartId item)) = []) as ->.
  { generalize (ingredientsOf st (cartId item)). intros l.
    induction l as [|x l IHl]; simpl; [done|]. destruct (names x); simpl; [done|].
    exact IHl. }
  split.
  - by intros [-> ->].
  - intros Happ. apply app_eq_nil in Happ as [Hm Hr]. split; [|done].
    by apply map_eq_nil in Hm.
Qed.

(** With ordinary cart lines, the entry of an ingredient is the sum of what
    the cart lines commit of it. *)
Lemma ingredientDeductions_lookup_b64 :
  (∀ c, c ∈ cart st → ordinaryLine st c) →
  ingredientDeductions st !! itemId
  = if ingredientUsed st itemId then Some (totalDeduction st itemId) else None.
Proof.
  intros Hord. unfold ingredientDeductions, ingredientUsed, totalDeduction.
  rewrite ingredientDeductions_fold_lookup_b64, lookup_empty, accumulate_None.
  - destruct (existsb _ (cart st)) eqn:Hused.
    + destruct (flat_map _ _) eqn:Hterms; [|done].
      apply ingredientUsed_commitments in Hterms. congruence.
    + apply ingredientUsed_commitments in Hused. by rewrite Hused.
  - apply Forall_forall. intros t Ht. apply list_elem_of_In in Ht.
    apply in_flat_map in Ht as (c & Hc & Ht). apply list_elem_of_In in Hc.
    pose proof (lineCommitments_nonnegExt st itemId c (Hord c Hc)) as Hall.
    rewrite Forall_forall in Hall. apply Hall. by apply list_elem_of_In.
Qed.
End Deductions.

(** *** The update requests *)

Lemma runUpdate_fold_b64 svc (reqs : list (string * number)) rows :
  NoDup reqs.*1 →
  Forall (fun req => updateFails svc req.1 = false) reqs →
  fold_left (runUpdate svc) reqs rows
  = List.map (applyRequests (list_to_map reqs)) rows.
Proof.
  revert rows. induction reqs as [|[k q] reqs IH]; intros rows Hnd Hok; simpl.
  - symmetry. apply List.map_id.
  - apply NoDup_cons in Hnd as [Hk Hnd]. apply Forall_cons in Hok as [Hkok Hok].
    rewrite IH by done. unfold runUpdate at 1. simpl in *. rewrite Hkok.
    assert (∀ row, ProductRow.id row ≠ k →
                   applyRequests (<[k:=q]> (list_to_map reqs)) row
                   = applyRequests (list_to_map reqs) row) as Hother.
    { intros row Hne. unfold applyRequests. by rewrite lookup_insert_ne. }
    assert (∀ row, ProductRow.id row = k →
                   applyRequests (<[k:=q]> (list_to_map reqs)) row
                   = match DECIMAL_10_2 q with Some d => setQty d row | None => row end
                   ∧ applyRequests (list_to_map reqs) row = row) as Hsame.
    { intros row Heq. unfold applyRequests.
      rewrite Heq, lookup_insert_eq.
      by rewrite (not_elem_of_list_to_map_1 _ _ Hk). }
    destruct (DECIMAL_10_2 q) as [d|] eqn:Hd.
    + rewrite List.map_map. apply List.map_ext. intros row.
      destruct (String.eqb_spec (ProductRow.id row) k) as [Heq|Hne].
      * destruct (Hsame row Heq) as [-> _].
        assert (ProductRow.id (setQty d row) = k) as Heq' by done.
        by destruct (Hsame (setQty d row) Heq') as [_ ->].
      * rewrite Hother by done. done.
    + apply List.map_ext. intros row.
      destruct (String.eqb_spec (ProductRow.id row) k) as [Heq|Hne].
      * destruct (Hsame row Heq) as [-> ->]. done.
      * by rewrite Hother.
Qed.

Lemma omap_keys_NoDup_num {A B} (F : string * A → option (string * B))
    (l : list (string * A)) :
  (∀ x y, F x = Some y → y.1 = x.1) →
  NoDup l.*1 → NoDup (omap F l).*1.
Proof.
  intros HF. induction l as [|x l IH]; simpl; intros Hnd; [constructor|].
  apply NoDup_cons in Hnd as [Hx Hnd].
  destruct (F x) as [y|] eqn:Hy; [|by apply IH].
  simpl. apply NoDup_cons. split; [|by apply IH].
  intros Hin. apply Hx.
  apply list_elem_of_fmap in Hin as (y' & Hy' & Hin).
  apply list_elem_of_omap in Hin as (x' & Hin & Hx').
  apply list_elem_of_fmap. exists x'. split; [|done].
  rewrite <- (HF _ _ Hy), Hy'. by apply HF.
Qed.

Lemma findItem_id items itemId item :
  findItem items itemId = Some item → InventoryItem.id item = itemId.
Proof.
  intros H. apply List.find_some in H as [_ H]. by apply String.eqb_eq in H.
Qed.

Section Requests.
Variable st : PageState.
Hypothesis Hord : ∀ c, c ∈ cart st → ordinaryLine st c.

Local Abbreviation request :=
  (fun '(itemId, deduction) =>
     match findItem (inventoryItems st) itemId with
     | None => None
     | Some item =>
       Some (itemId, InventoryItem.qty item - deductionInStorageUnit item deduction)
     end).

Lemma request_key_b64 (x y : string * number) : request x = Some y → y.1 = x.1.
Proof.
  destruct x as [k d]. destruct (findItem _ _); [|done]. by intros [= <-].
Qed.

(** Every row is written at most once. *)
Lemma inventoryUpdates_NoDup_b64 : NoDup (inventoryUpdates st).*1.
Proof.
  apply omap_keys_NoDup_num; [apply request_key_b64|]. apply NoDup_fst_map_to_list.
Qed.

Lemma request_newQty itemId item :
  findItem (inventoryItems st) itemId = Some item →
  InventoryItem.qty item - deductionInStorageUnit item (totalDeduction st itemId)
  = newQty st item.
Proof.
  intros Hitem. unfold newQty, deductionInStorageUnit.
  rewrite (findItem_id _ _ _ Hitem).
  destruct (InventoryItem.unit_type item); by case_decide.
Qed.

(** What is sent: for every ingredient that a cart line uses and the
    snapshot knows, the snapshot quantity less the aggregated deduction. *)
Lemma inventoryUpdates_elem itemId q :
  (itemId, q) ∈ inventoryUpdates st
  ↔ ∃ item, findItem (inventoryItems st) itemId = Some item
            ∧ ingredientUsed st itemId = true
            ∧ q = newQty st item.
Proof.
  unfold inventoryUpdates. rewrite list_elem_of_omap. split.
  - intros ([k d] & Hin & Hreq). apply elem_of_map_to_list in Hin.
    pose proof (request_key_b64 (k, d) (itemId, q) Hreq) as Hk. simpl in Hk. subst k.
    rewrite ingredientDeductions_lookup_b64 in Hin by done.
    destruct (ingredientUsed st itemId); [|done]. injection Hin as <-.
    destruct (findItem (inventoryItems st) itemId) as [item|] eqn:Hitem; [|done].
    injection Hreq as <-. exists item. by rewrite request_newQty.
  - intros (item & Hitem & Hused & ->).
    exists (itemId, totalDeduction st itemId). split.
    + apply elem_of_map_to_list. by rewrite ingredientDeductions_lookup_b64, Hused.
    + rewrite Hitem. by rewrite request_newQty.
Qed.

Lemma inventoryUpdates_lookup_b64 k :
  (list_to_map (inventoryUpdates st) : gmap string number) !! k
  = match findItem (inventoryItems st) k with
    | Some item => if ingredientUsed st k then Some (newQty st item) else None
    | None => None
    end.
Proof.
  apply option_eq. intros q.
  rewrite <- (elem_of_list_to_map _ _ _ inventoryUpdates_NoDup_b64), inventoryUpdates_elem.
  split.
  - intros (item & -> & -> & ->). done.
  - destruct (findItem _ _) as [item|]; [|done].
    destruct (ingredientUsed st k); [|done]. intros [= <-]. by exists item.
Qed.

Lemma applyRequests_rowAfterCheckout_b64 row :
  applyRequests (list_to_map (inventoryUpdates st)) row = rowAfterCheckout st row.
Proof.
  unfold applyRequests, rowAfterCheckout. rewrite inventoryUpdates_lookup_b64.
  destruct (findItem _ _) as [item|]; [|done].
  by destruct (ingredientUsed st (ProductRow.id row)).
Qed.
End Requests.

Lemma updateRejected_false svc (reqs : list (string * number)) :
  Forall (fun req => updateRejected svc req = false) reqs →
  Forall (fun req => updateFails svc req.1 = false) reqs.
Proof.
  intros Hall. eapply Forall_impl; [exact Hall|].
  intros req H. unfold updateRejected in H.
  by apply orb_false_iff in H as [? _].
Qed.

Lemma handleCheckout_succeeded_products_b64 svc tx st db :
  (∀ c, c ∈ cart st → ordinaryLine st c) →
  checkoutSucceeded (handleCheckout svc tx st db) →
  products (handleCheckout svc tx st db).1.2
  = List.map (rowAfterCheckout st) (products db).
Proof.
  intros Hord Hok.
  destruct (handleCheckout_succeeded_inv_b64 _ _ _ _ Hok) as (_ & Hupd & saleData & _ & ->).
  simpl.
  rewrite (runUpdate_fold_b64 _ _ _ (inventoryUpdates_NoDup_b64 st) (updateRejected_false _ _ Hupd)).
  apply List.map_ext. by apply applyRequests_rowAfterCheckout_b64.
Qed.

(** *** The flour example *)

Lemma flourPage_preconditions_b64 : checkoutPreconditions flourPage.
Proof. apply checkoutValidation_None_b64. vm_compute. reflexivity. Qed.

Lemma flourPage_ordinary c : c ∈ cart flourPage → ordinaryLine flourPage c.
Proof.
  change (cart flourPage) with flourCart. unfold flourCart. intros Hc.
  apply elem_of_cons in Hc as [-> | Hc]; [|apply list_elem_of_singleton in Hc as ->].
  - split; [reflexivity|].
    change (ingredientsOf flourPage (cartId (CartItem.mk productA (ofZ 2) recipeA)))
      with recipeA.
    intros ing Hing. apply list_elem_of_singleton in Hing as ->. reflexivity.
  - split; [reflexivity|].
    change (ingredientsOf flourPage (cartId (CartItem.mk productB (ofZ 1) recipeB)))
      with recipeB.
    intros ing Hing. apply list_elem_of_singleton in Hing as ->. reflexivity.
Qed.

Lemma flour_checkout_succeeded_b64 :
  checkoutSucceeded (handleCheckout serviceOk "tx" flourPage flourDb).
Proof.
  exists (cartTotal flourCart).
  assert (∃ r, (handleCheckout serviceOk "tx" flourPage flourDb).2
               = [addRecentSale r; toast_sale_completed (cartTotal flourCart); fetchData])
    as [r ->].
  { eexists. vm_compute. reflexivity. }
  apply list_elem_of_further, list_elem_of_here.
Qed.

Lemma pinch_checkout_succeeded :
  checkoutSucceeded (handleCheckout serviceOk "tx" pinchPage flourDb).
Proof.
  exists (cartTotal (cart pinchPage)).
  assert (∃ r, (handleCheckout serviceOk "tx" pinchPage flourDb).2
               = [addRecentSale r; toast_sale_completed (cartTotal (cart pinchPage));
                  fetchData])
    as [r ->].
  { eexists. vm_compute. reflexivity. }
  apply list_elem_of_further, list_elem_of_here.
Qed.




(** ** Unit conversion *)

Lemma thousand_finite : ofZ 1000 = S754_finite false 8796093022208000 (-43).
Proof. vm_compute. reflexivity. Qed.

Lemma thousand_magnitude : (magnitude 8796093022208000 (-43) == 1000)%Q.
Proof. vm_compute. reflexivity. Qed.

Lemma toQ_finite s m e :
  (toQ (S754_finite s m e) == if s then - magnitude m e else magnitude m e)%Q.
Proof.
  unfold toQ, magnitude. destruct s; simpl cond_Zopp; [|reflexivity].
  rewrite inject_Z_opp. ring.
Qed.

(** Dividing by 1000 and multiplying by 1000 again, within the normal
    range. *)
Lemma div_mul_thousand (s : bool) (m : positive) (e : Z) :
  Zpos (digits2_pos m) = 53%Z → (-1000 <= e)%Z → (e <= 900)%Z →
  ∃ m' e',
    S754_finite s m e / ofZ 1000 * ofZ 1000 = S754_finite s m' e'
    ∧ (- ((1 # 2251799813685248) * magnitude m e) <= magnitude m' e' - magnitude m e)%Q
    ∧ (magnitude m' e' - magnitude m e <= (1 # 2251799813685248) * magnitude m e)%Q.
Proof.
  intros Hd He1 He2. rewrite thousand_finite. unfold div, mul, prec, emax.
  destruct (div_spec s false m 8796093022208000 e (-43) Hd eq_refl)
    as (mk & ek & -> & Hdk & Hek & Hklo & Hkhi); [lia | lia |].
  destruct (mul_spec (xorb s false) false mk 8796093022208000 ek (-43) Hdk eq_refl)
    as (mb & eb & -> & _ & _ & Hblo & Hbhi); [lia | lia |].
  exists mb, eb. split; [by destruct s|].
  pose proof (magnitude_pos m e) as HG.
  rewrite thousand_magnitude in Hklo, Hkhi, Hblo, Hbhi.
  set (G := magnitude m e) in *. set (K := magnitude mk ek) in *.
  set (B := magnitude mb eb) in *.
  assert (G / 1000 == G * (1 # 1000))%Q as HGT by (field; discriminate).
  rewrite HGT in Hklo, Hkhi. split; lra.
Qed.




(** ** The simple-product component *)

Section SimpleCheckout.
Import SimpleSales.

Lemma simple_succeeded_inv_b64 svc tx st db :
  simpleSucceeded (handleCheckout svc tx st db) →
  checkoutValidation st = None
  ∧ Forall (fun req => updateRejected svc req = false) (inventoryUpdates st)
  ∧ products (handleCheckout svc tx st db).1.2
    = fold_left (runUpdate svc) (inventoryUpdates st) (products db).
Proof.
  intros [total Hin]. unfold handleCheckout in *.
  destruct (checkoutValidation st) as [msg|] eqn:Hv.
  { simpl in Hin. apply list_elem_of_singleton in Hin. discriminate. }
  split; [done|]. unfold checkoutCommit in *.
  destruct (insertSales svc _) as [saleData|].
  2:{ simpl in Hin. apply list_elem_of_singleton in Hin. discriminate. }
  simpl in *. destruct (existsb _ (inventoryUpdates st)) eqn:Hex.
  { simpl in Hin. apply list_elem_of_singleton in Hin. discriminate. }
  split; [|done].
  apply Forall_forall. intros req Hreq. apply list_elem_of_In in Hreq.
  destruct (updateRejected svc req) eqn:Hf; [|done].
  assert (existsb (updateRejected svc) (inventoryUpdates st) = true) as Ht.
  { apply existsb_exists. eauto. }
  congruence.
Qed.

Lemma simple_requests_keys_b64 st : (inventoryUpdates st).*1 = cartId <$> cart st.
Proof.
  unfold inventoryUpdates. induction (cart st) as [|x c IH]; [done|].
  cbn [List.map]. rewrite !fmap_cons, IH. done.
Qed.

Lemma simple_requests_lookup_b64 (c : list CartItem.t) k :
  (list_to_map
     (List.map (fun item => (cartId item,
                             Product.qty (CartItem.product item) - CartItem.quantity item))
               c) : gmap string number) !! k
  = simpleNewQty <$> List.find (fun item => String.eqb (cartId item) k) c.
Proof.
  induction c as [|x c IH]; simpl; [apply lookup_empty|].
  destruct (String.eqb_spec (cartId x) k) as [Heq|Hne].
  - by rewrite Heq, lookup_insert_eq.
  - by rewrite lookup_insert_ne.
Qed.
End SimpleCheckout.

(** X23. Simple-product checkout in the arithmetic of the program: with one
    line per product, a successful checkout sent for every cart line the
    stock the line remembers less the quantity sold, none of these requests
    was refused, and every row of [products] that has a cart line is left at
    what the column [DECIMAL(10, 2)] keeps of that number, the other rows
    untouched. *)
Theorem simple_checkout_decrements_stock_rounded (svc : Service) (tx : string)
    (st : SimpleSales.PageState) (db : Db) :
  simpleUniqueLines (SimpleSales.cart st) →
  simpleSucceeded (SimpleSales.handleCheckout svc tx st db) →
  SimpleSales.inventoryUpdates st
  = List.map (fun item => (SimpleSales.cartId item, simpleNewQty item)) (SimpleSales.cart st)
  ∧ (∀ item, item ∈ SimpleSales.cart st →
       updateFails svc (SimpleSales.cartId item) = false
       ∧ ∃ k, DECIMAL_10_2 (simpleNewQty item) = Some k)
  ∧ products (SimpleSales.handleCheckout svc tx st db).1.2
    = List.map (simpleRowAfter (SimpleSales.cart st)) (products db).
Proof.
  intros Huniq Hok.
  destruct (simple_succeeded_inv_b64 _ _ _ _ Hok) as (Hv & Hupd & ->).
  split; [done|]. split.
  - intros item Hin. rewrite Forall_forall in Hupd.
    assert ((SimpleSales.cartId item, simpleNewQty item) ∈ SimpleSales.inventoryUpdates st)
      as Hreq.
    { unfold SimpleSales.inventoryUpdates. apply list_elem_of_In, in_map_iff.
      exists item. split; [done | by apply list_elem_of_In]. }
    specialize (Hupd _ Hreq). unfold updateRejected in Hupd.
    apply orb_false_iff in Hupd as [Hsvc Hdec]. apply bool_decide_eq_false in Hdec.
    split; [done|]. cbn [snd] in Hdec.
    destruct (DECIMAL_10_2 (simpleNewQty item)) as [k|]; [eauto | done].
  - rewrite runUpdate_fold_b64.
    + apply List.map_ext. intros row. unfold applyRequests, simpleRowAfter.
      unfold SimpleSales.inventoryUpdates. rewrite simple_requests_lookup_b64.
      by destruct (List.find _ _).
    + by rewrite simple_requests_keys_b64.
    + eapply Forall_impl; [exact Hupd|]. intros req Hreq. unfold updateRejected in Hreq.
      by apply orb_false_iff in Hreq as [? _].
Qed.

Lemma ricePage_succeeded_b64 :
  simpleSucceeded (SimpleSales.handleCheckout serviceOk "tx" ricePage riceDb).
Proof.
  exists (SimpleSales.cartTotal riceCart).
  vm_compute. apply list_elem_of_further, list_elem_of_here.
Qed.

Lemma riceCart_unique_b64 : simpleUniqueLines (SimpleSales.cart ricePage).
Proof.
  unfold simpleUniqueLines. change (SimpleSales.cartId <$> SimpleSales.cart ricePage)
    with ["rice"; "sugar"].
  apply NoDup_cons. split; [|apply NoDup_singleton].
  intros Hin. apply list_elem_of_singleton in Hin. discriminate.
Qed.

(** 0.125 kg from 5.00 kg: the request carries 4.875 and the row keeps 4.88;
    0.1 kg from 0.30 kg: the request carries 0.19999999999999998 and the row
    keeps 0.20. *)
Lemma simple_checkout_decrements_stock_rounded_witness :
  simpleUniqueLines (SimpleSales.cart ricePage)
  ∧ simpleSucceeded (SimpleSales.handleCheckout serviceOk "tx" ricePage riceDb)
  ∧ products (SimpleSales.handleCheckout serviceOk "tx" ricePage riceDb).1.2
    = List.map (simpleRowAfter (SimpleSales.cart ricePage)) (products riceDb)
  ∧ List.map (simpleRowAfter (SimpleSales.cart ricePage)) (products riceDb)
    = [setQty 488 riceRow; setQty 20 sugarRow]
  ∧ List.map simpleNewQty riceCart
    = [ofDecimal 4875 3; S754_finite false 7205759403792793 (-55)]
  ∧ ofDecimal 2 1 = S754_finite false 7205759403792794 (-55).
Proof.
  split; [apply riceCart_unique_b64|]. split; [apply ricePage_succeeded_b64|].
  split.
  - exact (proj2 (proj2 (simple_checkout_decrements_stock_rounded serviceOk "tx" ricePage
                           riceDb riceCart_unique_b64 ricePage_succeeded_b64))).
  - repeat split; vm_compute; reflexivity.
Defined.
